(** * sakutto-stock-note: the Excel upsert engine of [main.py]

    A shallow embedding of the parts of [main.py] that persist fetched
    price rows into a worksheet ([ExcelHandler]), compute the trailing
    means ([DataManager.fetch_stock_data]) and open / save the workbook
    ([StockLoggerApp]), followed by the properties of the specification
    that concern them.

    Python values are modelled as the program has them: a [str] is its
    sequence of Unicode code points, a [float] is an IEEE-754 binary64
    datum ([spec_float]), a [datetime.date] is identified with its
    proleptic Gregorian ordinal ([date.toordinal()], which orders dates
    exactly as Python compares them), a [dict] is a [gmap].  The openpyxl
    worksheet is the map of the cells that exist, keyed by (row, column),
    together with its tables and charts. *)

From Stdlib Require Import ZArith NArith Ascii String SpecFloat.
From stdpp Require Import base tactics option numbers list sorting gmap pretty.

Local Open Scope Z_scope.

(* ===================================================================== *)
(** ** Python strings *)
(* ===================================================================== *)

(** A code point. *)
Definition char := N.

(** A Python [str] is a [list char], written [list N] below. *)

(** Decoding of the UTF-8 bytes of a literal into code points, so that the
    literals of [main.py] can be written as they are in the source. *)
Fixpoint utf8_decode (fuel : nat) (bs : list N) : list N :=
  match fuel with
  | O => []
  | S fuel =>
      match bs with
      | [] => []
      | b0 :: r0 =>
          if (b0 <? 128)%N then b0 :: utf8_decode fuel r0
          else if (b0 <? 224)%N then
            match r0 with
            | b1 :: r1 => ((b0 - 192) * 64 + (b1 - 128))%N :: utf8_decode fuel r1
            | _ => []
            end
          else if (b0 <? 240)%N then
            match r0 with
            | b1 :: b2 :: r2 =>
                ((b0 - 224) * 4096 + (b1 - 128) * 64 + (b2 - 128))%N
                  :: utf8_decode fuel r2
            | _ => []
            end
          else
            match r0 with
            | b1 :: b2 :: b3 :: r3 =>
                ((b0 - 240) * 262144 + (b1 - 128) * 4096
                 + (b2 - 128) * 64 + (b3 - 128))%N :: utf8_decode fuel r3
            | _ => []
            end
      end
  end.

Definition str (s : string) : list N :=
  let bs := map N_of_ascii (list_ascii_of_string s) in
  utf8_decode (length bs) bs.

Definition chr (s : string) : char := default 0%N (head (str s)).

(** [s.replace(old, new)] for one-character [old] and [new]: every
    occurrence of the character is substituted. *)
Definition replace_char (old new : char) (s : list N) : list N :=
  map (fun c => if decide (c = old) then new else c) s.

(** [s.split(" ")[0]]: the text before the first occurrence of [sep]. *)
Fixpoint split_head (sep : char) (s : list N) : list N :=
  match s with
  | [] => []
  | c :: r => if decide (c = sep) then [] else c :: split_head sep r
  end.

(* ===================================================================== *)
(** ** ExcelHandler.build_sheet_name *)
(* ===================================================================== *)

(** The characters Excel refuses in a sheet title, in the order of the
    tuple of the source. *)
Definition bad_chars : list char :=
  [chr ":"; chr "\"; chr "/"; chr "?"; chr "*"; chr "["; chr "]"].

(** [for bad in (...): base = base.replace(bad, "_")] *)
Definition replace_bad (base : list N) : list N :=
  foldl (fun b bad => replace_char bad (chr "_") b) base bad_chars.

(** [base = f"{ticker}_{name_ja}" if name_ja else ticker] *)
Definition sheet_base (ticker name_ja : list N) : list N :=
  match name_ja with
  | [] => ticker
  | _ => ticker ++ str "_" ++ name_ja
  end.

Definition build_sheet_name (ticker name_ja : list N) : list N :=
  take 31 (replace_bad (sheet_base ticker name_ja)).

(* ===================================================================== *)
(** ** Python values held by worksheet cells *)
(* ===================================================================== *)

(** [float('nan')], the value [rolling(...).mean()] gives where the window
    is not yet full. *)
Definition nan : spec_float := S754_nan.

(** The binary64 datum of an integer (used to write sample prices). *)
Definition float_of_Z (z : Z) : spec_float := binary_normalize 53 1024 z 0 false.

(** What [cell.value] can be.  Dates are ordinals; a [datetime] carries
    its date and the seconds since midnight. *)
Inductive value :=
| VNone
| VBool (b : bool)
| VInt (n : Z)
| VFloat (x : spec_float)
| VStr (s : list N)
| VDate (d : Z)
| VDateTime (d : Z) (secs : Z)
| VTime (secs : Z)
| VTimedelta (secs : Z).

(** Truth value of an object, as [if not raw_val] tests it. *)
Definition truthy (v : value) : bool :=
  match v with
  | VNone => false
  | VBool b => b
  | VInt n => negb (n =? 0)
  | VFloat x => match x with S754_zero _ => false | _ => true end
  | VStr s => match s with [] => false | _ => true end
  | VDate _ | VDateTime _ _ | VTime _ => true
  | VTimedelta t => negb (t =? 0)
  end.

(** [isinstance(val, (int, float))]; [bool] is a subclass of [int] and
    [numpy.float64] of [float]. *)
Definition is_number (v : value) : bool :=
  match v with
  | VBool _ | VInt _ | VFloat _ => true
  | _ => false
  end.

Definition is_none (v : value) : bool :=
  match v with VNone => true | _ => false end.

(** What [wb.save] writes for the value of a cell
    ([openpyxl.cell._writer.write_cell]).  A cell without a value, or
    with the empty text, is written without content.  A number goes
    through [safe_string], which gives the empty text for NaN and the
    infinities, so that the [<v>] element of the cell is empty, and the
    digits of any other number.  Every other value is written from what it
    is.  [load_workbook] reads a cell without content, and one with an
    empty [<v>], back as [None]. *)
Inductive content :=
| NoContent
| EmptyV
| Written (v : value).


(* ===================================================================== *)
(** ** The openpyxl worksheet *)
(* ===================================================================== *)

Record cell := Cell { value_of : value; number_format : list N }.

(** A cell as [Worksheet._get_cell] creates it. *)
Definition blank : cell := Cell VNone (str "General").

Record Table := MkTable {
  displayName : list N;
  ref : list N;
  tableStyleInfo : option (list N * bool * bool)
}.

(** [openpyxl.chart.title.Title]: the rich-text object [title_maker]
    builds from a text. *)
Record Title := MkTitle { title_text : list N }.

Definition title_maker (text : list N) : Title := MkTitle text.

(** [openpyxl.chart.Reference(ws, min_col, min_row, max_row)]. *)
Record Reference := MkReference { min_col : Z; min_row : Z; max_row_ref : Z }.

(** A [LineChart] with the attributes [ensure_table_and_chart] sets.
    [chart.title] is a [TitleDescriptor]: assigning a [str] stores
    [title_maker(str)], and reading it returns that [Title] object (or
    [None] if never set). *)
Record Chart := MkChart {
  chart_title_obj : option Title;
  chart_style : Z;
  y_axis_title : option Title;
  x_axis_title : option Title;
  chart_height : Z;
  chart_width : Z;
  chart_data : list Reference;
  chart_cats : option Reference;
  chart_anchor : list N
}.

Record Worksheet := MkWorksheet {
  ws_title : list N;
  cells : gmap (Z * Z) cell;
  tables : list Table;
  charts : list Chart
}.

Definition with_cells (ws : Worksheet) (cs : gmap (Z * Z) cell) : Worksheet :=
  MkWorksheet (ws_title ws) cs (tables ws) (charts ws).

(** [ws.cell(r, c).value] read without creating the cell: a cell that
    does not exist reads as [None]. *)
Definition cell_value (ws : Worksheet) (rc : Z * Z) : value :=
  match cells ws !! rc with
  | Some c => value_of c
  | None => VNone
  end.

Definition cell_format (ws : Worksheet) (rc : Z * Z) : list N :=
  number_format (default blank (cells ws !! rc)).

(** Largest element of a list of indices, 1 for the empty list. *)
Definition list_max1 (l : list Z) : Z :=
  match l with
  | [] => 1
  | x :: l => foldr Z.max x l
  end.

(** [ws.max_row] and [ws.max_column]: the largest row (column) index among
    the cells that exist, 1 on a sheet without cells. *)
Definition max_row (ws : Worksheet) : Z :=
  list_max1 ((map_to_list (cells ws)).*1.*1).

Definition max_column (ws : Worksheet) : Z :=
  list_max1 ((map_to_list (cells ws)).*1.*2).

(** [ws.cell(row=r, column=c, value=v)]: the cell is created if it does
    not exist, and the value is assigned only [if value is not None].
    (openpyxl also gives the cell a date display format when a date or a
    time is assigned; the display format of such cells is not modelled.) *)
Definition ws_cell (ws : Worksheet) (r c : Z) (v : value) : Worksheet :=
  let old := default blank (cells ws !! (r, c)) in
  let new := if is_none v then old else Cell v (number_format old) in
  with_cells ws (<[(r, c) := new]> (cells ws)).

(** [cell.number_format = fmt] on an existing cell. *)
Definition set_number_format (ws : Worksheet) (r c : Z) (fmt : list N) : Worksheet :=
  with_cells ws (alter (fun x => Cell (value_of x) fmt) (r, c) (cells ws)).

(** The cells [iter_rows] visits, row by row. *)
Definition grid (ws : Worksheet) (from_row : Z) : list (list (Z * Z)) :=
  map (fun r => map (fun c => (r, c)) (seqZ 1 (max_column ws)))
      (seqZ from_row (max_row ws - from_row + 1)).

Definition create_cell (cs : gmap (Z * Z) cell) (rc : Z * Z) : gmap (Z * Z) cell :=
  match cs !! rc with
  | Some _ => cs
  | None => <[rc := blank]> cs
  end.

(** [ws.iter_rows(min_row=from_row, values_only=True)]: one tuple of
    values per row from [from_row] to [ws.max_row], over the columns 1 to
    [ws.max_column].  Visiting a cell creates it. *)
Definition iter_rows (ws : Worksheet) (from_row : Z) : Worksheet * list (list value) :=
  (with_cells ws (foldl create_cell (cells ws) (concat (grid ws from_row))),
   map (map (cell_value ws)) (grid ws from_row)).

(** [ws.delete_rows(idx, amount)].  The cells below the deleted rows move
    up by [amount] and overwrite what they land on; then the rows of the
    "gutter" (deleted rows that nothing moved onto) are removed.  (Exact
    for a deletion that reaches the last row of the sheet, which is how the
    merge calls it.) *)
Definition delete_rows (ws : Worksheet) (idx amount : Z) : Worksheet :=
  let top := max_row ws in
  let moved :=
    kmap (fun rc : Z * Z => (rc.1 - amount, rc.2))
         (filter (fun kv : Z * Z * cell => idx + amount ≤ kv.1.1) (cells ws)) in
  let kept := filter (fun kv : Z * Z * cell => kv.1.1 < idx + amount) (cells ws) in
  let lo := Z.max (top + 1 - amount) idx in
  let hi := Z.min (idx + amount) top in
  with_cells ws
    (filter (fun kv : Z * Z * cell => ¬ (lo ≤ kv.1.1 ≤ hi)) (moved ∪ kept)).

(* ===================================================================== *)
(** ** Dates *)
(* ===================================================================== *)

Definition is_leap (y : Z) : bool :=
  (y mod 4 =? 0) && (negb (y mod 100 =? 0) || (y mod 400 =? 0)).

Definition days_in_month (y m : Z) : Z :=
  if m =? 2 then (if is_leap y then 29 else 28)
  else if (m =? 4) || (m =? 6) || (m =? 9) || (m =? 11) then 30 else 31.

Definition days_before_year (y : Z) : Z :=
  (y - 1) * 365 + (y - 1) / 4 - (y - 1) / 100 + (y - 1) / 400.

Definition days_before_month (y m : Z) : Z :=
  foldr Z.add 0 (map (days_in_month y) (seqZ 1 (m - 1))).

(** [date(y, m, d).toordinal()]. *)
Definition ymd (y m d : Z) : Z :=
  days_before_year y + days_before_month y m + d.

(** A [pandas.Timestamp] of the index of a frame: its calendar date, the
    seconds since midnight and the time zone, if it has one. *)
Record Timestamp := MkTimestamp {
  ts_date : Z;
  ts_secs : Z;
  ts_tz : option (list N)
}.

(** [index.tz_localize(None)] drops the zone and keeps the wall clock. *)
Definition tz_localize_none (t : Timestamp) : Timestamp :=
  MkTimestamp (ts_date t) (ts_secs t) None.

(* ===================================================================== *)
(** ** DataManager.fetch_stock_data *)
(* ===================================================================== *)

(** One row of what [Ticker.history] returns. *)
Record Bar := MkBar {
  bar_index : Timestamp;
  bar_open : spec_float;
  bar_high : spec_float;
  bar_low : spec_float;
  bar_close : spec_float
}.

(** One row of the frame [fetch_stock_data] returns: the bar and the two
    derived columns. *)
Record Row := MkRow {
  row_index : Timestamp;
  row_open : spec_float;
  row_high : spec_float;
  row_low : spec_float;
  row_close : spec_float;
  row_ma5 : spec_float;
  row_ma25 : spec_float
}.

Inductive span :=
| Period (p : list N)
| StartEnd (s e : Z).

Record history_kwargs := MkKwargs {
  kw_interval : list N;
  kw_auto_adjust : bool;
  kw_span : span
}.

(** [period_map.get(mode, "1d")] *)
Definition period_map (mode : Z) : list N :=
  if mode =? 1 then str "1d"
  else if mode =? 2 then str "1mo"
  else if mode =? 3 then str "3mo"
  else str "1d".

Section Fetch.

(** The market-data client: [None] stands for a raised exception. *)
Variable yf_history : list N -> history_kwargs -> option (list Bar).

(** The mean pandas computes for the last entry of a series, over a
    window of [w] entries.  pandas keeps running sums along the series, so
    the value depends on all the entries up to that one, not on those of
    the window alone. *)
Variable rolling_mean : nat -> list spec_float -> spec_float.

(** Entry [i] of [series.rolling(window=w).mean()]: undefined (NaN)
    until [w] observations are available. *)
Definition rolling_at (w : nat) (xs : list spec_float) (i : nat) : spec_float :=
  if (S i <? w)%nat then nan
  else rolling_mean w (take (S i) xs).

Definition add_means (bars : list Bar) : list Row :=
  let closes := map bar_close bars in
  imap (fun i b =>
          MkRow (bar_index b) (bar_open b) (bar_high b) (bar_low b) (bar_close b)
                (rolling_at 5 closes i) (rolling_at 25 closes i))
       bars.

Definition fetch_stock_data (ticker : list N) (mode : Z)
    (date_range : option (Z * Z)) : list Row :=
  let span :=
    match date_range with
    | Some (s, e) => if mode =? 4 then StartEnd s e else Period (period_map mode)
    | None => Period (period_map mode)
    end in
  match yf_history ticker (MkKwargs (str "1d") false span) with
  | None => []
  | Some bars =>
      add_means
        (map (fun b => MkBar (tz_localize_none (bar_index b)) (bar_open b)
                             (bar_high b) (bar_low b) (bar_close b)) bars)
  end.

End Fetch.

(* ===================================================================== *)
(** ** ExcelHandler.merge_and_write_data *)
(* ===================================================================== *)

(** The list the merge stores for a fetched row. *)
Definition new_row (r : Row) : list value :=
  [VDate (ts_date (row_index r));
   VFloat (row_close r); VFloat (row_open r); VFloat (row_high r);
   VFloat (row_low r); VFloat (row_ma5 r); VFloat (row_ma25 r)].

(** [sorted(data_map.keys())] *)
Definition sorted_keys (data_map : gmap Z (list value)) : list Z :=
  merge_sort Z.le (map_to_list data_map).*1.

(** The inner loop: [ws.cell(row, col_idx, value=val)] and the number
    format of numeric cells right of the date column. *)
Definition write_value (r : Z) (ws : Worksheet) (cv : Z * value) : Worksheet :=
  let ws := ws_cell ws r cv.1 cv.2 in
  if (1 <? cv.1) && is_number cv.2
  then set_number_format ws r cv.1 (str "#,##0")
  else ws.

(** [enumerate(values, start)] *)
Fixpoint enumerate (start : Z) (values : list value) : list (Z * value) :=
  match values with
  | [] => []
  | v :: rest => (start, v) :: enumerate (start + 1) rest
  end.

Definition write_row (ws : Worksheet) (r : Z) (values : list value) : Worksheet :=
  foldl (write_value r) ws (enumerate 1 values).

(** The outer loop; the state is the sheet and [current_row]. *)
Definition write_rows (data_map : gmap Z (list value)) (ws : Worksheet)
    (current_row : Z) (dates : list Z) : Worksheet * Z :=
  foldl (fun st d => (write_row st.1 st.2 (data_map !!! d), st.2 + 1))
        (ws, current_row) dates.

(** Step 2: [data_map[d] = new_row] for every fetched row, in order. *)
Definition merge_fetched (data_map : gmap Z (list value)) (df : list Row)
    : gmap Z (list value) :=
  foldl (fun m r => <[ts_date (row_index r) := new_row r]> m) data_map df.

Section Merge.

(** [datetime.strptime(s, "%Y-%m-%d").date()], [None] when it raises. *)
Variable strptime_ymd : list N -> option Z.

(** The date key of a first-column value, [None] when no branch of the
    type dispatch yields one. *)
Definition date_key (raw_val : value) : option Z :=
  match raw_val with
  | VDateTime d _ => Some d
  | VDate d => Some d
  | VStr s => strptime_ymd (split_head (chr " ") (replace_char (chr "/") (chr "-") s))
  | _ => None
  end.

(** One iteration of step 1. *)
Definition load_row (data_map : gmap Z (list value)) (row : list value)
    : gmap Z (list value) :=
  match row with
  | [] => data_map
  | raw_val :: rest =>
      if truthy raw_val then
        match date_key raw_val with
        | Some d_key => <[d_key := VDate d_key :: rest]> data_map
        | None => data_map
        end
      else data_map
  end.

Definition load_existing (rows : list (list value)) : gmap Z (list value) :=
  foldl load_row ∅ rows.

(** The dictionary after steps 1 and 2. *)
Definition merged_map (ws : Worksheet) (df : list Row) : gmap Z (list value) :=
  merge_fetched (load_existing (iter_rows ws 4).2) df.

Definition merge_and_write_data (ws : Worksheet) (df : list Row) : Worksheet :=
  let ws1 := (iter_rows ws 4).1 in
  let data_map := merged_map ws df in
  let sorted_dates := sorted_keys data_map in
  let (ws2, current_row) := write_rows data_map ws1 4 sorted_dates in
  if bool_decide (max_row ws2 >= current_row)
  then delete_rows ws2 current_row (max_row ws2 - current_row + 1)
  else ws2.

End Merge.

(* ===================================================================== *)
(** ** ExcelHandler.ensure_table_and_chart *)
(* ===================================================================== *)

Inductive exn :=
| IndexError
| PermissionError
| OtherError (msg : list N).

Inductive result (A : Type) :=
| Ok (a : A)
| Raise (e : exn).
Arguments Ok {A} a.
Arguments Raise {A} e.

(** The objects that meet in [c.title != chart_title]. *)
Inductive pyobj :=
| ObjNone
| ObjStr (s : list N)
| ObjTitle (t : Title).

(** [a == b]: objects of different classes are never equal. *)
Definition py_eq (a b : pyobj) : bool :=
  match a, b with
  | ObjNone, ObjNone => true
  | ObjStr s, ObjStr t => bool_decide (s = t)
  | ObjTitle s, ObjTitle t => bool_decide (title_text s = title_text t)
  | _, _ => false
  end.

(** What reading [c.title] returns. *)
Definition chart_title (c : Chart) : pyobj :=
  match chart_title_obj c with
  | Some t => ObjTitle t
  | None => ObjNone
  end.

(** [found_tbl.ref = table_ref] on the first table whose display name is
    [name]; [None] when there is none. *)
Fixpoint update_table_ref (name new_ref : list N) (ts : list Table)
    : option (list Table) :=
  match ts with
  | [] => None
  | t :: rest =>
      if decide (displayName t = name)
      then Some (MkTable (displayName t) new_ref (tableStyleInfo t) :: rest)
      else cons t <$> update_table_ref name new_ref rest
  end.

(** The suffix of the chart title, [" 株価推移"]. *)
Definition chart_suffix : list N := str " 株価推移".

Section Bind.

(** [str.isdigit] on one character. *)
Variable isdigit : char -> bool.

Definition ensure_table_and_chart (ws : Worksheet) (sheet_name : list N)
    : result Worksheet :=
  let max_row := max_row ws in
  if bool_decide (max_row < 3) then Ok ws
  else
    let safe_name :=
      replace_char (chr "-") (chr "_")
        (replace_char (chr ".") (chr "_")
           (replace_char (chr " ") (chr "_") sheet_name)) in
    match safe_name with
    | [] => Raise IndexError
    | c0 :: _ =>
        let safe_name := if isdigit c0 then str "tbl_" ++ safe_name else safe_name in
        let table_name := take 255 safe_name in
        let table_ref := str "A3:G" ++ str (pretty max_row) in
        let tables' :=
          match update_table_ref table_name table_ref (tables ws) with
          | Some ts => ts
          | None =>
              tables ws ++
              [MkTable table_name table_ref
                       (Some (str "TableStyleMedium2", true, false))]
          end in
        let chart_title_str := sheet_name ++ chart_suffix in
        let kept :=
          filter (fun c => negb (py_eq (chart_title c) (ObjStr chart_title_str)))
                 (charts ws) in
        let chart :=
          MkChart (Some (title_maker chart_title_str)) 2
                  (Some (title_maker (str "株価")))
                  (Some (title_maker (str "日付")))
                  10 20
                  [MkReference 2 3 max_row; MkReference 6 3 max_row;
                   MkReference 7 3 max_row]
                  (Some (MkReference 1 4 max_row))
                  (str "I3") in
        Ok (MkWorksheet (ws_title ws) (cells ws) tables' (kept ++ [chart]))
    end.

End Bind.

(* ===================================================================== *)
(** ** StockLoggerApp: choosing the sheet, opening and saving *)
(* ===================================================================== *)

(** A workbook is the list of its sheets; [wb.sheetnames] lists their
    titles. *)
Definition sheetnames (wb : list Worksheet) : list (list N) := map ws_title wb.

Definition new_sheet (title : list N) : Worksheet := MkWorksheet title ∅ [] [].

(** [Workbook()] *)
Definition new_workbook : list Worksheet := [new_sheet (str "Sheet")].

(** Position of the first sheet titled [name]. *)
Definition sheet_index (wb : list Worksheet) (name : list N) : option nat :=
  fst <$> list_find (fun ws => ws_title ws = name) wb.

Definition rename_sheet (ws : Worksheet) (title : list N) : Worksheet :=
  MkWorksheet title (cells ws) (tables ws) (charts ws).

Section Lookup.

(** [str.lower] *)
Variable lower : list N -> list N.

(** The title [avoid_duplicate_name] proposes when the wanted one is
    taken: the wanted title with the next free counter appended. *)
Variable numbered : list (list N) -> list N -> list N.

(** [avoid_duplicate_name(names, value)], which the title setter of a
    sheet consults when the title changes: the title itself, unless a sheet
    of the workbook has that title up to case. *)
Definition avoid_duplicate_name (names : list (list N)) (value : list N)
    : list N :=
  if existsb (fun n => bool_decide (lower n = lower value)) names
  then numbered names value else value.

(** The sheet lookup of [run_logic] ("シート取得または作成"): the sheet named
    [sheet_name] if there is one, else the sheet named by the bare ticker,
    retitled, else a new sheet appended to the workbook
    ([wb.create_sheet(title)] titles it [title or "Sheet"]).  Both titles
    go through the title setter.  Returns the workbook and the position of
    [ws] in it. *)
Definition get_or_create_sheet (wb : list Worksheet) (ticker sheet_name : list N)
    : list Worksheet * nat :=
  match sheet_index wb sheet_name with
  | Some i => (wb, i)
  | None =>
      match sheet_index wb ticker with
      | Some i =>
          (alter (fun ws => rename_sheet ws
                              (avoid_duplicate_name (sheetnames wb) sheet_name))
                 i wb, i)
      | None =>
          (wb ++ [new_sheet (avoid_duplicate_name (sheetnames wb)
                               match sheet_name with
                               | [] => str "Sheet"
                               | _ :: _ => sheet_name
                               end)],
           length wb)
      end
  end.

End Lookup.

(** What the user interface shows and what is on disk. *)
Record World := MkWorld {
  disk : option (list N);
  log : list (list N);
  status : list (list N * option Z);
  dialogs : list (list N)
}.

Definition log_safe (msg : list N) (w : World) : World :=
  MkWorld (disk w) (log w ++ [msg]) (status w) (dialogs w).

Definition status_safe (msg : list N) (progress_val : option Z) (w : World) : World :=
  MkWorld (disk w) (log w) (status w ++ [(msg, progress_val)]) (dialogs w).

Definition show_dialog (title : list N) (w : World) : World :=
  MkWorld (disk w) (log w) (status w) (dialogs w ++ [title]).

Definition write_disk (content : option (list N)) (w : World) : World :=
  MkWorld content (log w) (status w) (dialogs w).

(** What one pass of a [while True] loop meets: the operation goes
    through; the file is held by another process ([PermissionError], raised
    when the file is opened, before a byte is written) and the user
    answers the retry / cancel dialog; or another exception is raised,
    which leaves [remains] on disk. *)
Inductive attempt :=
| Succeeds
| Locked (retry : bool)
| Fails (msg : list N) (remains : option (list N)).

Inductive outcome (A : Type) :=
| Returned (a : A)
| Raised (e : exn)
| Asking.
Arguments Returned {A} a.
Arguments Raised {A} e.
Arguments Asking {A}.

Definition msg_save_cancelled : list N := str "保存をキャンセルしました。".
Definition msg_status_saving : list N := str "Excelファイルを保存しています...".
Definition msg_status_done : list N := str "完了しました".
Definition msg_status_cancelled : list N := str "保存キャンセル".
Definition msg_all_done : list N := str "✔ 全ての処理が完了しました: ".
Definition msg_error : list N := str "⚠ エラー発生: ".
Definition msg_open_cancelled : list N := str "キャンセルされました。".
Definition msg_read_error : list N := str "ファイル読み込みエラー: ".

Section Store.

(** The bytes [wb.save] writes. *)
Variable serialise : list Worksheet -> list N.

(** [save_workbook_safely]; the list gives what each pass of the loop
    meets, and [Asking] is the loop still waiting when it is used up. *)
Fixpoint save_workbook_safely (wb : list Worksheet) (passes : list attempt)
    (w : World) : outcome bool * World :=
  match passes with
  | [] => (Asking, w)
  | Succeeds :: _ =>
      (Returned true, show_dialog (str "完了") (write_disk (Some (serialise wb)) w))
  | Locked retry :: rest =>
      let w := show_dialog (str "保存できません") w in
      if retry then save_workbook_safely wb rest w
      else (Returned false, log_safe msg_save_cancelled w)
  | Fails msg remains :: _ => (Raised (OtherError msg), write_disk remains w)
  end.

(** The end of [run_logic]: the save, the status it reports, and the
    handler of the enclosing [try]. *)
Definition save_phase (wb : list Worksheet) (excel_path : list N)
    (passes : list attempt) (w : World) : World :=
  let w := status_safe msg_status_saving (Some 95) w in
  match save_workbook_safely wb passes w with
  | (Returned true, w) =>
      log_safe (msg_all_done ++ excel_path) (status_safe msg_status_done (Some 100) w)
  | (Returned false, w) => status_safe msg_status_cancelled (Some 0) w
  | (Raised (OtherError msg), w) => log_safe (msg_error ++ msg) w
  | (Raised _, w) => log_safe msg_error w
  | (Asking, w) => w
  end.

(** The loop of [open_workbook_safely]: [loaded] is what
    [load_workbook] returns when it goes through. *)
Fixpoint open_loop (loaded : list Worksheet) (passes : list attempt)
    (w : World) : outcome (option (list Worksheet)) * World :=
  match passes with
  | [] => (Asking, w)
  | Succeeds :: _ => (Returned (Some loaded), w)
  | Locked retry :: rest =>
      let w := show_dialog (str "ファイルが開かれています") w in
      if retry then open_loop loaded rest w
      else (Returned None, log_safe msg_open_cancelled w)
  | Fails msg _ :: _ =>
      (Returned (Some new_workbook), log_safe (msg_read_error ++ msg) w)
  end.

Definition open_workbook_safely (loaded : list Worksheet) (passes : list attempt)
    (w : World) : outcome (option (list Worksheet)) * World :=
  match disk w with
  | None => (Returned (Some new_workbook), w)
  | Some _ => open_loop loaded passes w
  end.

End Store.

(* ===================================================================== *)
(** ** Instances and sample data for the worked examples *)
(* ===================================================================== *)

(** [str.isdigit] on the ASCII range. *)
Definition ascii_isdigit (c : char) : bool := ((48 <=? c) && (c <=? 57))%N.

Fixpoint digits_value (acc : Z) (s : list N) : option Z :=
  match s with
  | [] => Some acc
  | c :: r =>
      if ascii_isdigit c then digits_value (acc * 10 + Z.of_N (c - 48)) r else None
  end.

Definition number (s : list N) : option Z :=
  match s with
  | [] => None
  | _ => digits_value 0 s
  end.

(** [s.split(sep)] *)
Fixpoint split_on (sep : char) (s : list N) : list (list N) :=
  match s with
  | [] => [[]]
  | c :: r =>
      if decide (c = sep) then [] :: split_on sep r
      else match split_on sep r with
           | h :: t => (c :: h) :: t
           | [] => [[c]]
           end
  end.

(** [strptime(s, "%Y-%m-%d").date()] on texts written with ASCII digits:
    a four-digit year, a month and a day of one or two digits, and a date
    that exists. *)
Definition strptime_ymd_ascii (s : list N) : option Z :=
  match split_on (chr "-") s with
  | [ys; ms; ds] =>
      match number ys, number ms, number ds with
      | Some y, Some m, Some d =>
          if (length ys =? 4)%nat && (length ms <=? 2)%nat && (length ds <=? 2)%nat
             && (1 <=? y) && (1 <=? m) && (m <=? 12)
             && (1 <=? d) && (d <=? days_in_month y m)
          then Some (ymd y m d) else None
      | _, _, _ => None
      end
  | _ => None
  end.

(** The header row [setup_worksheet_header] writes. *)
Definition headers : list value :=
  map VStr [str "日付"; str "終値"; str "始値"; str "高値"; str "安値";
            str "5日移動平均"; str "25日移動平均"].

Definition fill_row (ws : Worksheet) (r : Z) (values : list value) : Worksheet :=
  foldl (fun ws cv => ws_cell ws r cv.1 cv.2) ws (enumerate 1 values).

(** A sheet with the header in row 3 and the given body rows from row 4. *)
Definition sheet_with (title : list N) (body : list (list value)) : Worksheet :=
  (foldl (fun st vs => (fill_row st.1 st.2 vs, st.2 + 1))
         (fill_row (new_sheet title) 3 headers, 4) body).1.

Definition price_row (d : Z) (c o h l : Z) (ma5 ma25 : value) : list value :=
  [VDate d; VFloat (float_of_Z c); VFloat (float_of_Z o); VFloat (float_of_Z h);
   VFloat (float_of_Z l); ma5; ma25].

Definition at_midnight (d : Z) : Timestamp := MkTimestamp d 0 None.


(** A region whose row of 2024-01-03 has no 5-day mean yet and whose row
    of 2024-01-04 has one. *)
Definition sheet_A : Worksheet :=
  sheet_with (str "7203.T")
    [price_row (ymd 2024 1 3) 10 10 10 10 VNone VNone;
     price_row (ymd 2024 1 4) 20 20 20 20 (VFloat (float_of_Z 15)) VNone].

(** One fetched row for the day before, with undefined means. *)
Definition fetched_A : list Row :=
  [MkRow (at_midnight (ymd 2024 1 2)) (float_of_Z 5) (float_of_Z 5)
         (float_of_Z 5) (float_of_Z 5) nan nan].

(** A region with the header row and no data row. *)
Definition sheet_header_only : Worksheet := sheet_with (str "7203.T") [].

(** A region with one data row. *)
Definition sheet_one_row : Worksheet :=
  sheet_with (str "7203.T")
    [price_row (ymd 2024 1 4) 20 20 20 20 (VFloat (float_of_Z 15)) VNone].

(** Whether a chart carries the title made from a text. *)
Definition carries_title (text : list N) (c : Chart) : bool :=
  match chart_title_obj c with
  | Some t => bool_decide (title_text t = text)
  | None => false
  end.

(** The number of rows below the header that hold cells. *)
Definition occupied_rows (ws : Worksheet) : Z := Z.max 0 (max_row ws - 3).

(** The entry of a row list that goes to column [c], if it has one. *)
Definition at_column (values : list value) (c : Z) : option value :=
  if bool_decide (1 ≤ c) then values !! Z.to_nat (c - 1) else None.

(** The date whose row list goes to sheet row [r] when the rows of [dates]
    are written from row [start] on. *)
Definition row_at (dates : list Z) (start r : Z) : option Z :=
  if bool_decide (start ≤ r) then dates !! Z.to_nat (r - start) else None.

(** The value of a cell after [ws.cell(..., value=v)], given the one it
    had. *)
Definition assigned (v old : value) : value := if is_none v then old else v.

(** The date of a fetched row. *)
Definition row_date (r : Row) : Z := ts_date (row_index r).

(** The sum of a window divided by its size, in binary64. *)
Definition naive_mean (xs : list spec_float) : spec_float :=
  SFdiv 53 1024 (foldl (SFadd 53 1024) (S754_zero false) xs)
        (float_of_Z (Z.of_nat (length xs))).

(** A rolling mean that sums the last [w] entries afresh. *)
Definition naive_rolling_mean (w : nat) (xs : list spec_float) : spec_float :=
  naive_mean (drop (length xs - w) xs).


(** The tuple [iter_rows] yields for the body row of index [i], that is
    for sheet row [4 + i]. *)
Definition body_row (ws : Worksheet) (i : nat) : list value :=
  map (cell_value ws) (map (fun c => (4 + Z.of_nat i, c)) (seqZ 1 (max_column ws))).

(** Every list of a dictionary starts with its own date. *)
Definition dated (m : gmap Z (list value)) : Prop :=
  ∀ d vs, m !! d = Some vs → ∃ rest, vs = VDate d :: rest.

(** A region whose first body row has a date cell that cannot be read, and
    one fetched row for the date of its second body row. *)
Definition sheet_S : Worksheet :=
  sheet_with (str "7203.T")
    [[VStr (str "n/a"); VFloat (float_of_Z 1); VNone; VNone; VNone; VNone; VNone];
     price_row (ymd 2024 1 4) 20 20 20 20 VNone VNone].

Definition fetched_S : list Row :=
  [MkRow (at_midnight (ymd 2024 1 4)) (float_of_Z 21) (float_of_Z 22)
         (float_of_Z 19) (float_of_Z 21) nan nan].

(** The date under which step 1 of the merge files a row it reads, if it
    keeps the row at all. *)
Definition row_key (strptime_ymd : list N -> option Z) (row : list value)
    : option Z :=
  match row with
  | [] => None
  | raw_val :: _ => if truthy raw_val then date_key strptime_ymd raw_val else None
  end.

(** A region with one body row that has a value in every column. *)
Definition sheet_full : Worksheet :=
  sheet_with (str "7203.T")
    [price_row (ymd 2024 1 4) 20 21 22 19
               (VFloat (float_of_Z 18)) (VFloat (float_of_Z 17))].

(** What a worksheet carries besides its cells. *)
Definition bindings (ws : Worksheet) : list N * list Table * list Chart :=
  (ws_title ws, tables ws, charts ws).

(** The display format the merge gives to numbers. *)
Definition thousands : list N := str "#,##0".

(** The keyword arguments [fetch_stock_data] passes to [Ticker.history]. *)
Definition history_request (mode : Z) (date_range : option (Z * Z))
    : history_kwargs :=
  MkKwargs (str "1d") false
    match date_range with
    | Some (s, e) => if mode =? 4 then StartEnd s e else Period (period_map mode)
    | None => Period (period_map mode)
    end.

(** What a fetched row takes over from its bar. *)
Definition bar_data (b : Bar) : Z * Z * spec_float * spec_float * spec_float * spec_float :=
  (ts_date (bar_index b), ts_secs (bar_index b),
   bar_open b, bar_high b, bar_low b, bar_close b).

Definition row_data (r : Row) : Z * Z * spec_float * spec_float * spec_float * spec_float :=
  (ts_date (row_index r), ts_secs (row_index r),
   row_open r, row_high r, row_low r, row_close r).

(** A market-data client that answers with six daily bars in a time zone. *)
Definition six_bar_history (_ : list N) (_ : history_kwargs) : option (list Bar) :=
  Some (map (fun k => MkBar (MkTimestamp (ymd 2024 1 (8 + k)) 0 (Some (str "Asia/Tokyo")))
                            (float_of_Z (100 + k)) (float_of_Z (101 + k))
                            (float_of_Z (99 + k)) (float_of_Z (100 + k)))
            (seqZ 0 6)).

(** The display name [ensure_table_and_chart] derives from a sheet name. *)
Definition safe_table_name (isdigit : char -> bool) (sheet_name : list N) : list N :=
  let safe_name :=
    replace_char (chr "-") (chr "_")
      (replace_char (chr ".") (chr "_")
         (replace_char (chr " ") (chr "_") sheet_name)) in
  take 255 match safe_name with
           | [] => []
           | c0 :: _ => if isdigit c0 then str "tbl_" ++ safe_name else safe_name
           end.

(** [f"A3:G{max_row}"] *)
Definition table_ref_of (max_row : Z) : list N := str "A3:G" ++ str (pretty max_row).

(** The tables after the table step: the first table of that display name
    gets the range, or a new table is added. *)
Definition bind_table (name new_ref : list N) (ts : list Table) : list Table :=
  match update_table_ref name new_ref ts with
  | Some ts' => ts'
  | None => ts ++ [MkTable name new_ref (Some (str "TableStyleMedium2", true, false))]
  end.

(** The chart [ensure_table_and_chart] adds. *)
Definition line_chart (sheet_name : list N) (max_row : Z) : Chart :=
  MkChart (Some (title_maker (sheet_name ++ chart_suffix))) 2
          (Some (title_maker (str "株価"))) (Some (title_maker (str "日付")))
          10 20
          [MkReference 2 3 max_row; MkReference 6 3 max_row; MkReference 7 3 max_row]
          (Some (MkReference 1 4 max_row))
          (str "I3").

(* ===================================================================== *)
(** ** ExcelHandler.setup_worksheet_header *)
(* ===================================================================== *)

(** [Font(size, bold, color)], [PatternFill(start_color, end_color,
    fill_type)] and the styling of a sheet that the header set-up assigns:
    fonts, fills and horizontal alignments by cell, the merged ranges and
    the column widths. *)
Record Font := MkFont {
  font_size : option Z;
  font_bold : bool;
  font_color : list N
}.

Record PatternFill := MkFill {
  start_color : list N;
  end_color : list N;
  fill_type : list N
}.

Record Styles := MkStyles {
  fonts : gmap (Z * Z) Font;
  fills : gmap (Z * Z) PatternFill;
  alignments : gmap (Z * Z) (list N);
  merged_cells : list (list N);
  column_widths : gmap (list N) Z
}.

Definition no_styles : Styles := MkStyles ∅ ∅ ∅ [] ∅.

(** [ws.merge_cells("A1:D1")]: the range is recorded, and the cells B1, C1
    and D1 are replaced by merged cells, which have no value and no style
    of their own. *)
Definition merge_title_cells (wst : Worksheet * Styles) : Worksheet * Styles :=
  let covered := [(1, 2); (1, 3); (1, 4)] in
  let ws := wst.1 in
  let st := wst.2 in
  (with_cells ws (foldl (fun cs rc => <[rc := blank]> cs) (cells ws) covered),
   MkStyles (foldl (fun m rc => delete rc m) (fonts st) covered)
            (foldl (fun m rc => delete rc m) (fills st) covered)
            (foldl (fun m rc => delete rc m) (alignments st) covered)
            (if bool_decide (str "A1:D1" ∈ merged_cells st) then merged_cells st
             else merged_cells st ++ [str "A1:D1"])
            (column_widths st)).

(** One pass of the header loop: the cell of row 3 gets its text, centred,
    in bold white on grey. *)
Definition write_header_cell (wst : Worksheet * Styles) (ch : Z * value)
    : Worksheet * Styles :=
  let st := wst.2 in
  (ws_cell wst.1 3 ch.1 ch.2,
   MkStyles (<[(3, ch.1) := MkFont None true (str "FFFFFF")]> (fonts st))
            (<[(3, ch.1) := MkFill (str "808080") (str "808080") (str "solid")]>
               (fills st))
            (<[(3, ch.1) := str "center"]> (alignments st))
            (merged_cells st)
            (column_widths st)).

Definition header_widths : list (list N * Z) :=
  [(str "A", 15); (str "B", 12); (str "C", 12); (str "D", 12); (str "E", 12);
   (str "F", 14); (str "G", 14)].

(** [Cell.check_string], which every text assigned to a cell goes
    through: the text is cut to 32767 characters and then refused
    ([IllegalCharacterError]) if it holds one of the control characters
    [\000-\010], [\013-\014], [\016-\037]. *)
Definition illegal_char (c : char) : bool :=
  ((c <=? 8) || ((11 <=? c) && (c <=? 12)) || ((14 <=? c) && (c <=? 31)))%N.

Definition check_string (s : list N) : result (list N) :=
  let s := take (Z.to_nat 32767) s in
  if existsb illegal_char s
  then Raise (OtherError (s ++ str " cannot be used in worksheets."))
  else Ok s.

Definition setup_worksheet_header (wst : Worksheet * Styles)
    (ticker name_ja : list N) : result (Worksheet * Styles) :=
  if is_none (cell_value wst.1 (3, 1)) then
    match check_string (ticker ++ str " : " ++ name_ja) with
    | Raise e => Raise e
    | Ok title =>
        let ws := ws_cell wst.1 1 1 (VStr title) in
        let st := wst.2 in
        let st := MkStyles (<[(1, 1) := MkFont (Some 14) true (str "000080")]> (fonts st))
                           (fills st) (alignments st) (merged_cells st)
                           (column_widths st) in
        let wst := merge_title_cells (ws, st) in
        let wst := foldl write_header_cell wst (enumerate 1 headers) in
        Ok (wst.1,
            MkStyles (fonts wst.2) (fills wst.2) (alignments wst.2)
                     (merged_cells wst.2)
                     (foldl (fun m cw => <[cw.1 := cw.2]> m) (column_widths wst.2)
                            header_widths))
    end
  else Ok wst.

(* ===================================================================== *)
(** ** DataManager.load_jp_stock_master *)
(* ===================================================================== *)

(** A row of the master file as [csv.DictReader] yields it: what
    [row.get("ticker")] and [row.get("name_ja")] return. *)
Definition master_row : Type := option (list N) * option (list N).

(** The master file: absent (and whether it can be created), or present,
    with what reading it under [utf-8-sig] and under [cp932] yields
    ([None] when the attempt raises). *)
Inductive master_file :=
| MasterAbsent (creatable : bool)
| MasterPresent (utf8 cp932 : option (list master_row)).

Definition default_master_text : list N :=
  str "ticker,name_ja" ++ [10%N] ++ str "2559.T,MAXIS 全世界株式" ++ [10%N]
  ++ str "7203.T,トヨタ自動車" ++ [10%N].

Definition default_master : gmap (list N) (list N) :=
  <[str "7203.T" := str "トヨタ自動車"]>
    (<[str "2559.T" := str "MAXIS 全世界株式"]> ∅).

Section Master.

(** [str.strip] *)
Variable strip : list N -> list N.

(** [if t and n: mapping[t.strip()] = n.strip()] *)
Definition add_master_row (mapping : gmap (list N) (list N)) (row : master_row)
    : gmap (list N) (list N) :=
  match row with
  | (Some (t0 :: t), Some (n0 :: n)) => <[strip (t0 :: t) := strip (n0 :: n)]> mapping
  | _ => mapping
  end.

Definition read_master (rows : list master_row) : gmap (list N) (list N) :=
  foldl add_master_row ∅ rows.

(** The mapping returned, and the text written to the master file if it is
    created. *)
Definition load_jp_stock_master (f : master_file)
    : gmap (list N) (list N) * option (list N) :=
  match f with
  | MasterAbsent true => (default_master, Some default_master_text)
  | MasterAbsent false => (∅, None)
  | MasterPresent (Some rows) _ => (read_master rows, None)
  | MasterPresent None (Some rows) => (read_master rows, None)
  | MasterPresent None None => (∅, None)
  end.

End Master.

(* ===================================================================== *)
(** ** StockLoggerApp.run_logic: the date range, the left-over sheets and
       one instrument *)
(* ===================================================================== *)

Definition msg_bad_dates : list N :=
  str "⚠ 日付形式が不正です。デフォルト(最新)で実行します。".

(** "日付範囲設定": the mode and the range the fetches of a run use. *)
Definition date_range_of (strptime_ymd : list N -> option Z) (mode : Z)
    (start_text end_text : list N) (w : World) : Z * option (Z * Z) * World :=
  if mode =? 4 then
    match strptime_ymd start_text, strptime_ymd end_text with
    | Some s, Some e => (mode, Some (s, e), w)
    | _, _ => (1, None, log_safe msg_bad_dates w)
    end
  else (mode, None, w).

(** [del wb[title]]: the first sheet of that title is removed. *)
Fixpoint remove_sheet (title : list N) (wb : list Worksheet) : list Worksheet :=
  match wb with
  | [] => []
  | ws :: rest =>
      if decide (ws_title ws = title) then rest else ws :: remove_sheet title rest
  end.

(** [for trash in ["Sheet", "Sheet1"]: if trash in wb.sheetnames and
    len(wb.sheetnames) > 1: del wb[trash]] *)
Definition remove_trash_sheets (wb : list Worksheet) : list Worksheet :=
  foldl (fun wb trash =>
           if bool_decide (trash ∈ sheetnames wb) && (1 <? length wb)%nat
           then remove_sheet trash wb else wb)
        wb [str "Sheet"; str "Sheet1"].

Definition msg_skip (ticker : list N) : list N :=
  str "  [Skip] " ++ ticker ++ str ": データなし".

Definition msg_ok (ticker sheet_name : list N) : list N :=
  str "  [OK] " ++ ticker ++ str " -> " ++ sheet_name.

(** A workbook: its sheets, their styling, and its defined names. *)
Record Book := MkBook {
  sheets : list Worksheet;
  stylings : list Styles;
  defined_names : list (list N)
}.

Section Instrument.

Variable strptime_ymd : list N -> option Z.
Variable isdigit : char -> bool.
Variable lower : list N -> list N.
Variable numbered : list (list N) -> list N -> list N.

(** [Workbook._duplicate_name], which [ws.add_table] consults: is the
    name, up to case, that of a table of some sheet, or is its lower-case
    form a defined name?  (A table is filed under its [name], which is its
    [displayName] for every table this program adds.) *)
Definition duplicate_name (wb : list Worksheet) (defined : list (list N))
    (name : list N) : bool :=
  existsb (fun sheet =>
             existsb (fun t => bool_decide (lower name = lower (displayName t)))
                     (tables sheet))
          wb
  || bool_decide (lower name ∈ defined).

(** [ensure_table_and_chart] on a sheet of a workbook: when the sheet has
    no table of the derived name, [ws.add_table] raises [ValueError] if the
    name is taken in the workbook. *)
Definition ensure_table_and_chart_in (wb : list Worksheet)
    (defined : list (list N)) (ws : Worksheet) (sheet_name : list N)
    : result Worksheet :=
  match ensure_table_and_chart isdigit ws sheet_name with
  | Raise e => Raise e
  | Ok ws' =>
      let table_name := safe_table_name isdigit sheet_name in
      if bool_decide (3 ≤ max_row ws)
         && negb (existsb (fun t => bool_decide (displayName t = table_name))
                          (tables ws))
         && duplicate_name wb defined table_name
      then Raise (OtherError (str "Table with name " ++ table_name
                              ++ str " already exists"))
      else Ok ws'
  end.

(** The body of the loop of [run_logic] from the fetched frame on: an
    empty frame is logged and skipped; otherwise the sheet is looked up,
    and the header set-up, the merge and the binder are called on it.  An
    exception leaves the loop, after the line of the instrument has been
    logged.  (The lookup always returns the position of a sheet; a new
    sheet has no styling yet.) *)
Definition process_frame (name_map : gmap (list N) (list N)) (book : Book)
    (w : World) (ticker : list N) (df : list Row) : result Book * World :=
  match df with
  | [] => (Ok book, log_safe (msg_skip ticker) w)
  | _ :: _ =>
      let name_ja := default [] (name_map !! ticker) in
      let sheet_name := build_sheet_name ticker name_ja in
      let w := log_safe (msg_ok ticker sheet_name) w in
      let found :=
        get_or_create_sheet lower numbered (sheets book) ticker sheet_name in
      let i := found.2 in
      let ws := default (new_sheet sheet_name) (found.1 !! i) in
      let styles := stylings book
                    ++ replicate (length found.1 - length (stylings book))
                                 no_styles in
      let st := default no_styles (styles !! i) in
      match setup_worksheet_header (ws, st) ticker name_ja with
      | Raise e => (Raise e, w)
      | Ok wst =>
          let ws := merge_and_write_data strptime_ymd wst.1 df in
          let wb := <[i := ws]> found.1 in
          match ensure_table_and_chart_in wb (defined_names book) ws sheet_name with
          | Raise e => (Raise e, w)
          | Ok ws =>
              (Ok (MkBook (<[i := ws]> wb) (<[i := wst.2]> styles)
                          (defined_names book)), w)
          end
      end
  end.

End Instrument.

(** The key under which a row of the master file is filed, if it is. *)
Definition master_key (strip : list N -> list N) (row : master_row)
    : option (list N) :=
  match row with
  | (Some (t0 :: t), Some (_ :: _)) => Some (strip (t0 :: t))
  | _ => None
  end.

(** [str.strip] for texts whose white space is ASCII. *)
Definition is_space (c : char) : bool :=
  ((c =? 32) || ((9 <=? c) && (c <=? 13)))%N.

Fixpoint lstrip (s : list N) : list N :=
  match s with
  | c :: r => if is_space c then lstrip r else s
  | [] => []
  end.

Definition strip_ascii (s : list N) : list N :=
  reverse (lstrip (reverse (lstrip s))).

(** The titles of the sheets a new workbook starts with. *)
Definition trash_titles : list (list N) := [str "Sheet"; str "Sheet1"].

(** The title with the counter 1, which [avoid_duplicate_name] proposes
    in a workbook without numbered titles. *)
Definition first_counter (_ : list (list N)) (value : list N) : list N :=
  value ++ str "1".

(** [str.lower] on ASCII text. *)
Definition lower_ascii (s : list N) : list N :=
  map (fun c => if ((65 <=? c) && (c <=? 90))%N then (c + 32)%N else c) s.

(* ===================================================================== *)
(** * Properties *)
(* ===================================================================== *)

(** ** The sheet name *)

Lemma replace_chars_map (new : char) (bads : list char) :
  ∀ s : list N,
    foldl (fun b bad => replace_char bad new b) s bads =
    map (fun c => if bool_decide (c ∈ bads) then new else c) s.
Proof.
  induction bads as [|bad bads IH]; intros s; simpl.
  - induction s as [|c s IHs]; [done|]. simpl in *. by f_equal.
  - rewrite IH. unfold replace_char. rewrite map_map. apply map_ext. intros c.
    case_decide as Hc.
    + subst c. rewrite (bool_decide_eq_true_2 (bad ∈ bad :: bads)) by left.
      by case_bool_decide.
    + destruct (decide (c ∈ bads)) as [Hin|Hin].
      * rewrite !bool_decide_eq_true_2; [done|by right|done].
      * rewrite !bool_decide_eq_false_2; [done| |done].
        rewrite elem_of_cons. intros [?|?]; done.
Qed.

Lemma replace_bad_map (s : list N) :
  replace_bad s =
  map (fun c => if bool_decide (c ∈ bad_chars) then chr "_" else c) s.
Proof. apply replace_chars_map. Qed.

Lemma underscore_not_bad : chr "_" ∉ bad_chars.
Proof.
  assert (bad_chars = [58; 92; 47; 63; 42; 91; 93]%N) as -> by (by vm_compute).
  assert (chr "_" = 95%N) as -> by (by vm_compute).
  rewrite !elem_of_cons, elem_of_nil. lia.
Qed.

(** C6.  For every instrument code and display name, the identifier
    [build_sheet_name] returns has at most 31 characters, contains none of
    the characters [: \ / ? * [ ]], and is the first 31 characters of the
    text in which every such character has been replaced by [_].  The
    result is a function of the two inputs alone. *)
Theorem build_sheet_name_valid (ticker name_ja : list N) :
  (length (build_sheet_name ticker name_ja) <= 31)%nat
  ∧ Forall (fun c => c ∉ bad_chars) (build_sheet_name ticker name_ja)
  ∧ build_sheet_name ticker name_ja =
    take 31 (map (fun c => if bool_decide (c ∈ bad_chars) then chr "_" else c)
                 (sheet_base ticker name_ja)).
Proof.
  unfold build_sheet_name. rewrite replace_bad_map. split_and!.
  - rewrite length_take. lia.
  - apply Forall_take, Forall_forall. intros c Hc.
    apply list_elem_of_In, in_map_iff in Hc as (c0 & <- & _).
    case_bool_decide; [apply underscore_not_bad | done].
  - done.
Qed.

(** ** The sheet a run writes to *)

Lemma sheet_index_Some (wb : list Worksheet) (name : list N) (i : nat) :
  sheet_index wb name = Some i ↔
  (∃ ws, wb !! i = Some ws ∧ ws_title ws = name)
  ∧ (∀ j ws, wb !! j = Some ws → (j < i)%nat → ws_title ws ≠ name).
Proof.
  unfold sheet_index. split.
  - intros H. apply fmap_Some in H as ([j ws] & Hf & ->).
    apply list_find_Some in Hf as (Hl & Ht & Hmin). simpl. eauto.
  - intros [(ws & Hl & Ht) Hmin].
    apply fmap_Some. exists (i, ws). split; [|done].
    apply list_find_Some. eauto.
Qed.

Lemma sheet_index_None (wb : list Worksheet) (name : list N) :
  sheet_index wb name = None ↔ Forall (fun ws => ws_title ws ≠ name) wb.
Proof.
  unfold sheet_index. rewrite fmap_None. apply list_find_None.
Qed.

Lemma avoid_duplicate_name_free (lower : list N -> list N)
    (numbered : list (list N) -> list N -> list N) (names : list (list N))
    (value : list N) :
  (∀ n, n ∈ names → lower n = lower value → n = value) →
  value ∉ names →
  avoid_duplicate_name lower numbered names value = value.
Proof.
  intros Hcase Hnew. unfold avoid_duplicate_name.
  destruct (existsb _ names) eqn:E; [|done].
  apply existsb_exists in E as (n & Hin & Hn).
  apply list_elem_of_In in Hin. apply bool_decide_eq_true_1 in Hn.
  by rewrite <- (Hcase n Hin Hn) in Hnew.
Qed.

Lemma sheet_index_None_names (wb : list Worksheet) (name : list N) :
  sheet_index wb name = None → name ∉ sheetnames wb.
Proof.
  intros Hs Hin. apply sheet_index_None in Hs.
  unfold sheetnames in Hin.
  apply list_elem_of_In, in_map_iff in Hin as (ws & Ht & Hin).
  apply list_elem_of_In in Hin. eapply Forall_forall in Hs; [|done]. done.
Qed.

(** After the lookup, in a workbook where no other title equals the
    sheet name up to case, the sheet it returns is the first one titled
    [sheet_name]. *)
Lemma get_or_create_sheet_index (lower : list N -> list N)
    (numbered : list (list N) -> list N -> list N) (wb : list Worksheet)
    (ticker sheet_name : list N) :
  sheet_name ≠ [] →
  (∀ n, n ∈ sheetnames wb → lower n = lower sheet_name → n = sheet_name) →
  sheet_index (get_or_create_sheet lower numbered wb ticker sheet_name).1 sheet_name
  = Some (get_or_create_sheet lower numbered wb ticker sheet_name).2.
Proof.
  intros Hne Hcase. unfold get_or_create_sheet.
  destruct (sheet_index wb sheet_name) as [i|] eqn:Hs; [done|].
  rewrite (avoid_duplicate_name_free lower numbered _ sheet_name Hcase)
    by (by apply sheet_index_None_names).
  assert (avoid_duplicate_name lower numbered (sheetnames wb)
            match sheet_name with [] => str "Sheet" | _ :: _ => sheet_name end
          = sheet_name) as ->.
  { destruct sheet_name; [done|].
    apply avoid_duplicate_name_free; [done|by apply sheet_index_None_names]. }
  apply sheet_index_None in Hs.
  destruct (sheet_index wb ticker) as [i|] eqn:Ht; simpl.
  - apply sheet_index_Some in Ht as [(ws & Hl & Hti) Hmin].
    apply sheet_index_Some. split.
    + exists (rename_sheet ws sheet_name). split; [|done].
      rewrite list_lookup_alter_eq, Hl. done.
    + intros j ws' Hj Hlt.
      rewrite list_lookup_alter_ne in Hj by lia.
      eapply Forall_forall in Hs; [exact Hs|].
      eapply list_elem_of_lookup_2; eauto.
  - apply sheet_index_Some. split.
    + exists (new_sheet sheet_name). split; [|done].
      rewrite lookup_app_r by done. by rewrite Nat.sub_diag.
    + intros j ws' Hj Hlt. rewrite lookup_app_l in Hj by done.
      eapply Forall_forall in Hs; [exact Hs|].
      eapply list_elem_of_lookup_2; eauto.
Qed.

(** C10.  [build_sheet_name] is not injective: two instruments with
    different codes (and non-empty display names) get the same identifier.
    In every workbook in which no sheet differs from that identifier in
    case only (a new workbook, for one), once the first instrument has
    been given its sheet the lookup of [run_logic] hands the very same
    sheet to the second, without creating another one: the run writes
    both instruments into one region. *)
Theorem build_sheet_name_not_injective :
  ∃ t1 n1 t2 n2 : list N,
    t1 ≠ t2 ∧ n1 ≠ [] ∧ n2 ≠ []
    ∧ build_sheet_name t1 n1 = build_sheet_name t2 n2
    ∧ (∀ n, n ∈ sheetnames new_workbook →
            lower_ascii n = lower_ascii (build_sheet_name t1 n1) →
            n = build_sheet_name t1 n1)
    ∧ ∀ (lower : list N -> list N)
        (numbered : list (list N) -> list N -> list N) (wb : list Worksheet),
        (∀ n, n ∈ sheetnames wb →
              lower n = lower (build_sheet_name t1 n1) →
              n = build_sheet_name t1 n1) →
        get_or_create_sheet lower numbered
          (get_or_create_sheet lower numbered wb t1 (build_sheet_name t1 n1)).1
          t2 (build_sheet_name t2 n2)
        = get_or_create_sheet lower numbered wb t1 (build_sheet_name t1 n1).
Proof.
  exists (str "AB:C"), (str "X"), (str "AB/C"), (str "X").
  split_and!; [by vm_compute..| |].
  { intros n Hin Hn. apply list_elem_of_singleton in Hin as ->.
    vm_compute in Hn. discriminate Hn. }
  intros lower numbered wb.
  change (build_sheet_name (str "AB/C") (str "X"))
    with (build_sheet_name (str "AB:C") (str "X")).
  assert (build_sheet_name (str "AB:C") (str "X") ≠ []) as Hne by (by vm_compute).
  revert Hne. generalize (build_sheet_name (str "AB:C") (str "X")).
  intros s Hne Hcase.
  pose proof (get_or_create_sheet_index lower numbered wb (str "AB:C") s Hne Hcase)
    as Hidx.
  destruct (get_or_create_sheet lower numbered wb (str "AB:C") s) as [wb1 i] eqn:Hg.
  simpl in *. unfold get_or_create_sheet at 1. by rewrite Hidx.
Qed.

(** ** The table and chart binding *)

(** From the header row on, a call returns normally for a non-empty sheet
    name and keeps every chart the sheet had: the comparison of a chart's
    title object with the title text never finds them equal. *)
Lemma ensure_table_and_chart_charts (isdigit : char -> bool) (ws : Worksheet)
    (c0 : char) (name : list N) :
  3 ≤ max_row ws →
  ∃ ws' chart,
    ensure_table_and_chart isdigit ws (c0 :: name) = Ok ws'
    ∧ cells ws' = cells ws
    ∧ charts ws' = charts ws ++ [chart]
    ∧ chart_title_obj chart = Some (title_maker ((c0 :: name) ++ chart_suffix)).
Proof.
  intros Hmax. unfold ensure_table_and_chart.
  rewrite bool_decide_eq_false_2 by lia.
  assert (∀ (cs : list Chart) s,
    filter (fun c => negb (py_eq (chart_title c) (ObjStr s))) cs = cs) as Hkeep.
  { intros cs s. induction cs as [|c cs IH]; [done|].
    rewrite filter_cons_True; [by rewrite IH|].
    unfold chart_title. by destruct (chart_title_obj c). }
  unfold replace_char at 1 2 3. rewrite !map_map. cbn [map].
  eexists _, _. split; [reflexivity|]. simpl. by rewrite Hkeep.
Qed.

Lemma max_row_cells (ws ws' : Worksheet) :
  cells ws' = cells ws → max_row ws' = max_row ws.
Proof. unfold max_row. by intros ->. Qed.

Lemma carries_title_made (c : Chart) (text : list N) :
  chart_title_obj c = Some (title_maker text) → carries_title text c = true.
Proof. unfold carries_title. intros ->. simpl. by apply bool_decide_eq_true_2. Qed.

(** Two calls in a row leave two more charts with the derived title than
    there were. *)
Lemma ensure_table_and_chart_twice (isdigit : char -> bool) (ws : Worksheet)
    (c0 : char) (name : list N) :
  3 ≤ max_row ws →
  ∃ ws1 ws2,
    ensure_table_and_chart isdigit ws (c0 :: name) = Ok ws1
    ∧ ensure_table_and_chart isdigit ws1 (c0 :: name) = Ok ws2
    ∧ length (filter (carries_title ((c0 :: name) ++ chart_suffix)) (charts ws2))
      = S (S (length (filter (carries_title ((c0 :: name) ++ chart_suffix))
                             (charts ws)))).
Proof.
  intros Hmax.
  destruct (ensure_table_and_chart_charts isdigit ws c0 name Hmax)
    as (ws1 & ch1 & H1 & Hc1 & Hch1 & Ht1).
  assert (3 ≤ max_row ws1) as Hmax1 by (by rewrite (max_row_cells ws ws1)).
  destruct (ensure_table_and_chart_charts isdigit ws1 c0 name Hmax1)
    as (ws2 & ch2 & H2 & Hc2 & Hch2 & Ht2).
  exists ws1, ws2. split_and!; [done..|].
  rewrite Hch2, Hch1, !filter_app, !length_app.
  rewrite !filter_cons_True by (by apply Is_true_true, carries_title_made).
  simpl. lia.
Qed.

(** C5.  The code at a region with one data row and no chart: two calls of
    [ensure_table_and_chart] with the same sheet name return normally and
    leave two charts carrying the derived title, not one.  The chart of
    the first call is not removed by the second. *)
Theorem ensure_table_and_chart_duplicates_chart :
  charts sheet_one_row = []
  ∧ ∃ ws1 ws2,
      ensure_table_and_chart ascii_isdigit sheet_one_row (str "7203.T_Toyota") = Ok ws1
      ∧ ensure_table_and_chart ascii_isdigit ws1 (str "7203.T_Toyota") = Ok ws2
      ∧ length (filter (carries_title (str "7203.T_Toyota" ++ chart_suffix))
                       (charts ws2)) = 2%nat.
Proof.
  split; [done|].
  change (str "7203.T_Toyota") with (55%N :: str "203.T_Toyota").
  destruct (ensure_table_and_chart_twice ascii_isdigit sheet_one_row 55%N
              (str "203.T_Toyota")) as (ws1 & ws2 & H1 & H2 & Hn).
  { by vm_compute. }
  exists ws1, ws2. split_and!; [done..|].
  refine (eq_trans Hn _). by vm_compute.
Qed.

(** C7, as the code has it.  When [ws.max_row] is below 3, that is when
    not even the header row exists, [ensure_table_and_chart] returns the
    worksheet as it is: no table and no chart is added or changed. *)
Theorem ensure_table_and_chart_skips_below_header (isdigit : char -> bool)
    (ws : Worksheet) (sheet_name : list N) :
  max_row ws < 3 →
  ensure_table_and_chart isdigit ws sheet_name = Ok ws.
Proof.
  intros H. unfold ensure_table_and_chart.
  by rewrite bool_decide_eq_true_2.
Qed.

Lemma ensure_table_and_chart_skips_below_header_witness :
  max_row (new_sheet (str "7203.T")) < 3
  ∧ ensure_table_and_chart ascii_isdigit (new_sheet (str "7203.T")) (str "7203.T")
    = Ok (new_sheet (str "7203.T")).
Proof.
  split; [by vm_compute|].
  apply ensure_table_and_chart_skips_below_header. by vm_compute.
Defined.

(** C7, the claim as stated, fails: on a region that has the header row
    and no data row the call is not skipped; it binds a table to the
    header alone and adds a chart. *)
Lemma ensure_table_and_chart_header_only_not_skipped :
  max_row sheet_header_only = 3
  ∧ tables sheet_header_only = []
  ∧ charts sheet_header_only = []
  ∧ ∃ ws' chart,
      ensure_table_and_chart ascii_isdigit sheet_header_only (str "7203.T") = Ok ws'
      ∧ tables ws' = [MkTable (str "tbl_7203_T") (str "A3:G3")
                              (Some (str "TableStyleMedium2", true, false))]
      ∧ charts ws' = [chart].
Proof.
  split_and!; [by vm_compute..|].
  eexists _, _. split; [vm_compute; reflexivity|]. by vm_compute.
Qed.

(** ** Saving *)

Section SaveProperties.

Variable serialise : list Worksheet -> list N.

Lemma save_workbook_safely_cancel (wb : list Worksheet) (n : nat)
    (rest : list attempt) (w : World) :
  ∃ w',
    save_workbook_safely serialise wb
      (replicate n (Locked true) ++ Locked false :: rest) w = (Returned false, w')
    ∧ disk w' = disk w
    ∧ log w' = log w ++ [msg_save_cancelled]
    ∧ status w' = status w.
Proof.
  revert w. induction n as [|n IH]; intros w; simpl.
  - eexists. split; [reflexivity|]. done.
  - destruct (IH (show_dialog (str "保存できません") w)) as (w' & -> & Hd & Hl & Hs).
    exists w'. done.
Qed.

(** C9.  When the destination file is locked at every save attempt and
    the user, after any number of retries, selects cancel, the file on
    disk is what it was before, [save_workbook_safely] returns [False],
    the log shows the cancellation and the last status is the cancelled
    one: neither the completion status nor the error line is shown.
    ([wb.save] is the only statement of a run that writes the file.) *)
Theorem save_cancel_leaves_disk_untouched (wb : list Worksheet)
    (excel_path : list N) (n : nat) (rest : list attempt) (w : World) :
  let passes := replicate n (Locked true) ++ Locked false :: rest in
  let w' := save_phase serialise wb excel_path passes w in
  (save_workbook_safely serialise wb passes
     (status_safe msg_status_saving (Some 95) w)).1 = Returned false
  ∧ disk w' = disk w
  ∧ log w' = log w ++ [msg_save_cancelled]
  ∧ status w' = status w ++ [(msg_status_saving, Some 95);
                             (msg_status_cancelled, Some 0)].
Proof.
  intros passes w'. subst passes w'. unfold save_phase.
  destruct (save_workbook_safely_cancel wb n rest
              (status_safe msg_status_saving (Some 95) w))
    as (w1 & -> & Hd & Hl & Hs).
  simpl. rewrite Hd, Hl, Hs. simpl. by rewrite <- app_assoc.
Qed.

End SaveProperties.

(** ** Cells: what the worksheet operations leave in them *)

Lemma cell_value_ws_cell (ws : Worksheet) (r c : Z) (v : value) (rc : Z * Z) :
  cell_value (ws_cell ws r c v) rc =
  if decide (rc = (r, c)) then assigned v (cell_value ws rc) else cell_value ws rc.
Proof.
  unfold cell_value, ws_cell, assigned. simpl.
  case_decide as Heq.
  - subst rc. rewrite lookup_insert_eq.
    destruct v; simpl; try done. by destruct (cells ws !! (r, c)).
  - by rewrite lookup_insert_ne.
Qed.

Lemma cell_value_set_number_format (ws : Worksheet) (r c : Z) (fmt : list N)
    (rc : Z * Z) :
  cell_value (set_number_format ws r c fmt) rc = cell_value ws rc.
Proof.
  unfold cell_value, set_number_format. simpl.
  destruct (decide ((r, c) = rc)) as [<-|Hne].
  - rewrite lookup_alter_eq. by destruct (cells ws !! (r, c)).
  - by rewrite lookup_alter_ne.
Qed.

Lemma cell_value_write_value (ws : Worksheet) (r c : Z) (v : value) (rc : Z * Z) :
  cell_value (write_value r ws (c, v)) rc =
  if decide (rc = (r, c)) then assigned v (cell_value ws rc) else cell_value ws rc.
Proof.
  unfold write_value. simpl.
  destruct ((1 <? c) && is_number v);
    [rewrite cell_value_set_number_format|]; apply cell_value_ws_cell.
Qed.

Lemma cell_value_write_cols (r : Z) (values : list value) :
  ∀ (k : Z) (ws : Worksheet) (r' c' : Z),
    cell_value (foldl (write_value r) ws (enumerate k values)) (r', c') =
    match (if decide (r' = r) then
             if bool_decide (k ≤ c') then values !! Z.to_nat (c' - k) else None
           else None) with
    | Some v => assigned v (cell_value ws (r', c'))
    | None => cell_value ws (r', c')
    end.
Proof.
  induction values as [|v vs IH]; intros k ws r' c'; simpl.
  - by repeat (case_decide || case_bool_decide).
  - rewrite IH, cell_value_write_value.
    destruct (decide (r' = r)) as [->|Hr].
    + destruct (decide (c' = k)) as [->|Hc].
      * rewrite bool_decide_eq_false_2 by lia.
        rewrite bool_decide_eq_true_2 by lia.
        rewrite decide_True by done. by rewrite Z.sub_diag.
      * rewrite (decide_False (P := (r, c') = (r, k))) by congruence.
        case_bool_decide as Hk.
        -- rewrite bool_decide_eq_true_2 by lia.
           replace (Z.to_nat (c' - k)) with (S (Z.to_nat (c' - (k + 1)))) by lia.
           done.
        -- case_bool_decide as Hk'; [|done].
           replace c' with k in Hc by lia. done.
    + by rewrite decide_False by congruence.
Qed.

Lemma cell_value_write_row (ws : Worksheet) (r : Z) (values : list value)
    (r' c' : Z) :
  cell_value (write_row ws r values) (r', c') =
  match (if decide (r' = r) then at_column values c' else None) with
  | Some v => assigned v (cell_value ws (r', c'))
  | None => cell_value ws (r', c')
  end.
Proof. unfold write_row, at_column. apply cell_value_write_cols. Qed.

Lemma write_rows_cons (m : gmap Z (list value)) (ws : Worksheet) (k d : Z)
    (dates : list Z) :
  write_rows m ws k (d :: dates)
  = write_rows m (write_row ws k (m !!! d)) (k + 1) dates.
Proof. done. Qed.

Lemma write_rows_current_row (m : gmap Z (list value)) (dates : list Z) :
  ∀ (ws : Worksheet) (k : Z),
    (write_rows m ws k dates).2 = k + Z.of_nat (length dates).
Proof.
  induction dates as [|d ds IH]; intros ws k.
  - simpl. lia.
  - rewrite write_rows_cons, IH. simpl. lia.
Qed.

Lemma cell_value_write_rows (m : gmap Z (list value)) (dates : list Z) :
  ∀ (ws : Worksheet) (k r c : Z),
    cell_value (write_rows m ws k dates).1 (r, c) =
    match row_at dates k r with
    | Some d =>
        match at_column (m !!! d) c with
        | Some v => assigned v (cell_value ws (r, c))
        | None => cell_value ws (r, c)
        end
    | None => cell_value ws (r, c)
    end.
Proof.
  unfold row_at.
  induction dates as [|d ds IH]; intros ws k r c.
  - simpl. by case_bool_decide.
  - rewrite write_rows_cons, IH, cell_value_write_row.
    destruct (decide (r = k)) as [->|Hr].
    + rewrite bool_decide_eq_false_2 by lia.
      rewrite bool_decide_eq_true_2 by lia. by rewrite Z.sub_diag.
    + case_bool_decide as Hk.
      * rewrite bool_decide_eq_true_2 by lia.
        replace (Z.to_nat (r - k)) with (S (Z.to_nat (r - (k + 1)))) by lia.
        done.
      * case_bool_decide as Hk'; [|done].
        replace r with k in Hr by lia. done.
Qed.

(** ** The extent of a sheet, [iter_rows] and [delete_rows] *)

Lemma foldr_max_ge (l : list Z) (x0 x : Z) :
  x ∈ x0 :: l → x ≤ foldr Z.max x0 l.
Proof.
  induction l as [|y l IH]; simpl.
  - rewrite list_elem_of_singleton. lia.
  - rewrite !elem_of_cons. intros [->|[->|Hin]].
    + specialize (IH ltac:(left)). lia.
    + lia.
    + specialize (IH ltac:(by right)). lia.
Qed.

Lemma foldr_max_elem (l : list Z) (x0 : Z) : foldr Z.max x0 l ∈ x0 :: l.
Proof.
  induction l as [|y l IH]; simpl; [left|].
  destruct (Z.max_spec y (foldr Z.max x0 l)) as [[_ ->]|[_ ->]].
  - apply elem_of_cons in IH as [->|IH]; [left|by do 2 right].
  - right; left.
Qed.

Lemma list_max1_ge (l : list Z) (x : Z) : x ∈ l → x ≤ list_max1 l.
Proof. destruct l; [by intros ?%elem_of_nil|]. apply foldr_max_ge. Qed.

Lemma list_max1_elem (l : list Z) : l ≠ [] → list_max1 l ∈ l.
Proof. destruct l; [done|]. intros _. apply foldr_max_elem. Qed.

Lemma elem_of_rows (ws : Worksheet) (r : Z) :
  r ∈ (map_to_list (cells ws)).*1.*1 ↔ ∃ c x, cells ws !! (r, c) = Some x.
Proof.
  rewrite list_elem_of_fmap. split.
  - intros ([r' c] & -> & Hin). apply list_elem_of_fmap in Hin as ([rc x] & Heq & Hin).
    simpl in Heq. subst rc. apply elem_of_map_to_list in Hin. eauto.
  - intros (c & x & Hl). exists (r, c). split; [done|].
    apply list_elem_of_fmap. exists ((r, c), x). split; [done|].
    by apply elem_of_map_to_list.
Qed.

Lemma elem_of_columns (ws : Worksheet) (c : Z) :
  c ∈ (map_to_list (cells ws)).*1.*2 ↔ ∃ r x, cells ws !! (r, c) = Some x.
Proof.
  rewrite list_elem_of_fmap. split.
  - intros ([r c'] & -> & Hin). apply list_elem_of_fmap in Hin as ([rc x] & Heq & Hin).
    simpl in Heq. subst rc. apply elem_of_map_to_list in Hin. eauto.
  - intros (r & x & Hl). exists (r, c). split; [done|].
    apply list_elem_of_fmap. exists ((r, c), x). split; [done|].
    by apply elem_of_map_to_list.
Qed.

Lemma max_row_ge (ws : Worksheet) (r c : Z) (x : cell) :
  cells ws !! (r, c) = Some x → r ≤ max_row ws.
Proof. intros H. apply list_max1_ge, elem_of_rows. eauto. Qed.

Lemma max_column_ge (ws : Worksheet) (r c : Z) (x : cell) :
  cells ws !! (r, c) = Some x → c ≤ max_column ws.
Proof. intros H. apply list_max1_ge, elem_of_columns. eauto. Qed.

(** [max_row] is 1 or the row of a cell. *)
Lemma max_row_attained (ws : Worksheet) :
  max_row ws = 1 ∨ ∃ c x, cells ws !! (max_row ws, c) = Some x.
Proof.
  unfold max_row.
  destruct ((map_to_list (cells ws)).*1.*1) as [|r0 l] eqn:Hl; [by left|].
  right. apply elem_of_rows. rewrite Hl. by apply list_max1_elem.
Qed.

Lemma max_row_below (ws : Worksheet) (b : Z) :
  1 ≤ b →
  (∀ r c x, cells ws !! (r, c) = Some x → r ≤ b) →
  max_row ws ≤ b.
Proof.
  intros Hb Hall. destruct (max_row_attained ws) as [->|(c & x & Hl)]; [done|].
  by eapply Hall.
Qed.

Lemma cell_value_Some (ws : Worksheet) (rc : Z * Z) :
  cell_value ws rc ≠ VNone → is_Some (cells ws !! rc).
Proof. unfold cell_value. destruct (cells ws !! rc); [eauto|done]. Qed.

Lemma cell_value_absent (ws : Worksheet) (rc : Z * Z) :
  cells ws !! rc = None → cell_value ws rc = VNone.
Proof. unfold cell_value. by intros ->. Qed.

Lemma create_cells_value (l : list (Z * Z)) :
  ∀ (cs : gmap (Z * Z) cell) (rc : Z * Z),
    match foldl create_cell cs l !! rc with
    | Some x => value_of x
    | None => VNone
    end
    = match cs !! rc with Some x => value_of x | None => VNone end.
Proof.
  induction l as [|rc0 l IH]; intros cs rc; simpl; [done|].
  rewrite IH. unfold create_cell.
  destruct (cs !! rc0) eqn:H0; [done|].
  destruct (decide (rc0 = rc)) as [->|Hne].
  - by rewrite lookup_insert_eq, H0.
  - by rewrite lookup_insert_ne.
Qed.

Lemma cell_value_iter_rows (ws : Worksheet) (k : Z) (rc : Z * Z) :
  cell_value (iter_rows ws k).1 rc = cell_value ws rc.
Proof. unfold cell_value, iter_rows. simpl. apply create_cells_value. Qed.

(** Deleting everything from row [idx] to the last row. *)
Lemma delete_rows_to_end (ws : Worksheet) (idx r c : Z) :
  idx ≤ max_row ws →
  cells (delete_rows ws idx (max_row ws - idx + 1)) !! (r, c) =
  if bool_decide (r < idx) then cells ws !! (r, c) else None.
Proof.
  intros Hidx. unfold delete_rows. simpl.
  set (top := max_row ws).
  replace (idx + (top - idx + 1)) with (top + 1) by lia.
  replace (Z.max (top + 1 - (top - idx + 1)) idx) with idx by lia.
  replace (Z.min (top + 1) top) with top by lia.
  rewrite map_lookup_filter, lookup_union.
  assert (kmap (fun rc : Z * Z => (rc.1 - (top - idx + 1), rc.2))
            (filter (fun kv : Z * Z * cell => top + 1 ≤ kv.1.1) (cells ws))
          = (∅ : gmap (Z * Z) cell)) as ->.
  { assert (filter (fun kv : Z * Z * cell => top + 1 ≤ kv.1.1) (cells ws) = ∅) as ->.
    { apply map_empty. intros [r' c']. apply map_lookup_filter_None. right.
      intros x Hx. simpl. apply max_row_ge in Hx. fold top in Hx. lia. }
    apply kmap_empty. }
  rewrite lookup_empty, (left_id_L None _), map_lookup_filter.
  destruct (cells ws !! (r, c)) as [x|] eqn:Hx; simpl.
  - pose proof (max_row_ge _ _ _ _ Hx) as Hle. fold top in Hle.
    rewrite option_guard_True by (simpl; lia). simpl.
    case_bool_decide.
    + by rewrite option_guard_True by (simpl; lia).
    + by rewrite option_guard_False by (simpl; lia).
  - by case_bool_decide.
Qed.

(** ** The merge: what every cell holds afterwards *)

Section MergeProperties.

Variable strptime_ymd : list N -> option Z.

Local Abbreviation merged := (merged_map strptime_ymd).
Local Abbreviation merge := (merge_and_write_data strptime_ymd).

(** The sheet after the write loop, before the surplus rows go. *)
Lemma merge_unfold (ws : Worksheet) (df : list Row) :
  let dates := sorted_keys (merged ws df) in
  let ws2 := (write_rows (merged ws df) (iter_rows ws 4).1 4 dates).1 in
  let current_row := 4 + Z.of_nat (length dates) in
  merge ws df =
  if bool_decide (max_row ws2 >= current_row)
  then delete_rows ws2 current_row (max_row ws2 - current_row + 1)
  else ws2.
Proof.
  intros dates ws2 current_row. unfold merge_and_write_data.
  pose proof (write_rows_current_row (merged ws df) dates (iter_rows ws 4).1 4) as Hk.
  fold dates in Hk |- *.
  subst ws2. destruct (write_rows (merged ws df) (iter_rows ws 4).1 4 dates)
    as [ws2 k]. simpl in *. by subst k.
Qed.

Lemma merge_cells (ws : Worksheet) (df : list Row) (r c : Z) :
  let dates := sorted_keys (merged ws df) in
  cells (merge ws df) !! (r, c) =
  if bool_decide (r < 4 + Z.of_nat (length dates))
  then cells (write_rows (merged ws df) (iter_rows ws 4).1 4 dates).1 !! (r, c)
  else None.
Proof.
  intros dates. rewrite merge_unfold. fold dates.
  set (ws2 := (write_rows (merged ws df) (iter_rows ws 4).1 4 dates).1).
  case_bool_decide as Hmax.
  - rewrite delete_rows_to_end by lia. done.
  - case_bool_decide as Hr; [done|].
    destruct (cells ws2 !! (r, c)) as [x|] eqn:Hx; [|done].
    apply max_row_ge in Hx. lia.
Qed.

(** Nothing is left below the last merged row. *)
Lemma merge_cells_beyond (ws : Worksheet) (df : list Row) (r c : Z) :
  4 + Z.of_nat (length (sorted_keys (merged ws df))) ≤ r →
  cells (merge ws df) !! (r, c) = None.
Proof.
  intros Hr. rewrite merge_cells. by rewrite bool_decide_eq_false_2 by lia.
Qed.

(** Every cell after the merge: empty below the merged rows; in a merged
    row, the entry of the row list where it has one that is not [None];
    what the cell held before everywhere else. *)
Lemma merge_cell_value (ws : Worksheet) (df : list Row) (r c : Z) :
  let dates := sorted_keys (merged ws df) in
  cell_value (merge ws df) (r, c) =
  if bool_decide (r < 4 + Z.of_nat (length dates)) then
    match row_at dates 4 r with
    | Some d =>
        match at_column (merged ws df !!! d) c with
        | Some v => assigned v (cell_value ws (r, c))
        | None => cell_value ws (r, c)
        end
    | None => cell_value ws (r, c)
    end
  else VNone.
Proof.
  intros dates. unfold cell_value at 1. rewrite merge_cells. fold dates.
  case_bool_decide as Hr; [|done].
  pose proof (cell_value_write_rows (merged ws df) dates (iter_rows ws 4).1 4 r c)
    as Hw.
  unfold cell_value at 1 in Hw. rewrite Hw.
  by rewrite cell_value_iter_rows.
Qed.

(** *** The sorted keys *)

Lemma elem_of_sorted_keys (m : gmap Z (list value)) (d : Z) :
  d ∈ sorted_keys m ↔ is_Some (m !! d).
Proof.
  unfold sorted_keys. rewrite merge_sort_Permutation.
  rewrite list_elem_of_fmap. split.
  - intros ([d' vs] & -> & Hin). apply elem_of_map_to_list in Hin. eauto.
  - intros [vs Hl]. exists (d, vs). split; [done|]. by apply elem_of_map_to_list.
Qed.

Lemma NoDup_sorted_keys (m : gmap Z (list value)) : NoDup (sorted_keys m).
Proof.
  unfold sorted_keys. rewrite merge_sort_Permutation.
  apply NoDup_fst_map_to_list.
Qed.

Lemma Sorted_le_sorted_keys (m : gmap Z (list value)) :
  StronglySorted Z.le (sorted_keys m).
Proof. unfold sorted_keys. apply (StronglySorted_merge_sort Z.le). Qed.

Lemma StronglySorted_le_lt (l : list Z) :
  StronglySorted Z.le l → NoDup l → StronglySorted Z.lt l.
Proof.
  induction 1 as [|x l Hs IH Hall]; intros Hnd; [constructor|].
  apply NoDup_cons in Hnd as [Hx Hnd]. constructor; [by apply IH|].
  apply Forall_forall. intros y Hy.
  pose proof (proj1 (Forall_forall _ _) Hall y Hy) as Hle.
  assert (x ≠ y) by (intros ->; done). lia.
Qed.

Lemma sorted_keys_ascending (m : gmap Z (list value)) :
  StronglySorted Z.lt (sorted_keys m).
Proof.
  apply StronglySorted_le_lt;
    [apply Sorted_le_sorted_keys | apply NoDup_sorted_keys].
Qed.

(** The sorted keys depend on the set of keys alone. *)
Lemma sorted_keys_ext (m1 m2 : gmap Z (list value)) :
  (∀ d, is_Some (m1 !! d) ↔ is_Some (m2 !! d)) →
  sorted_keys m1 = sorted_keys m2.
Proof.
  intros Hdom.
  apply (StronglySorted_unique Z.le); try apply Sorted_le_sorted_keys.
  apply NoDup_Permutation; try apply NoDup_sorted_keys.
  intros d. by rewrite !elem_of_sorted_keys.
Qed.

Lemma row_at_Some (dates : list Z) (start r d : Z) :
  row_at dates start r = Some d ↔
  ∃ i : nat, r = start + Z.of_nat i ∧ dates !! i = Some d.
Proof.
  unfold row_at. case_bool_decide as Hr.
  - split.
    + intros H. exists (Z.to_nat (r - start)). split; [lia|done].
    + intros (i & -> & H). by replace (Z.to_nat (start + Z.of_nat i - start)) with i by lia.
  - split; [done|]. intros (i & -> & _). lia.
Qed.

Lemma row_at_index (dates : list Z) (start : Z) (i : nat) :
  row_at dates start (start + Z.of_nat i) = dates !! i.
Proof.
  unfold row_at. rewrite bool_decide_eq_true_2 by lia.
  by replace (Z.to_nat (start + Z.of_nat i - start)) with i by lia.
Qed.

(** *** The dictionary *)

Lemma dated_load_row (m : gmap Z (list value)) (row : list value) :
  dated m → dated (load_row strptime_ymd m row).
Proof.
  intros Hm. unfold load_row. destruct row as [|raw rest]; [done|].
  destruct (truthy raw); [|done].
  destruct (date_key strptime_ymd raw) as [k|]; [|done].
  intros d vs. rewrite lookup_insert. case_decide as Hk.
  - intros [= <-]. subst. eauto.
  - apply Hm.
Qed.

Lemma dated_load_existing (rows : list (list value)) :
  dated (load_existing strptime_ymd rows).
Proof.
  unfold load_existing.
  assert (∀ m, dated m → dated (foldl (load_row strptime_ymd) m rows)) as H.
  { induction rows as [|row rows IH]; intros m Hm; [done|].
    simpl. by apply IH, dated_load_row. }
  apply H. intros d vs. by rewrite lookup_empty.
Qed.

Lemma merge_fetched_union (df : list Row) :
  ∀ m : gmap Z (list value),
    merge_fetched m df = merge_fetched ∅ df ∪ m.
Proof.
  induction df as [|r df IH]; intros m; simpl.
  - by rewrite (left_id_L ∅ _).
  - rewrite IH. rewrite (IH (<[_ := _]> ∅)).
    rewrite <- (assoc_L (∪)). f_equal.
    by rewrite <- insert_union_l, (left_id_L ∅ _).
Qed.

Lemma merge_fetched_lookup (m : gmap Z (list value)) (df : list Row) (d : Z) :
  merge_fetched m df !! d =
  match merge_fetched ∅ df !! d with
  | Some vs => Some vs
  | None => m !! d
  end.
Proof.
  rewrite merge_fetched_union, lookup_union.
  by destruct (merge_fetched ∅ df !! d), (m !! d).
Qed.

(** The fetched part of the dictionary holds, for a date, the list of
    the last fetched row of that date. *)
Lemma merge_fetched_last (m : gmap Z (list value)) (pre post : list Row)
    (r : Row) :
  Forall (fun r' => row_date r' ≠ row_date r) post →
  merge_fetched m (pre ++ r :: post) !! row_date r = Some (new_row r).
Proof.
  intros Hpost. unfold merge_fetched. rewrite foldl_app. simpl.
  generalize (foldl (fun m r => <[ts_date (row_index r) := new_row r]> m) m pre).
  intros m0.
  assert (∀ m1 : gmap Z (list value), m1 !! row_date r = Some (new_row r) →
          foldl (fun m r => <[ts_date (row_index r) := new_row r]> m) m1 post
            !! row_date r = Some (new_row r)) as H.
  { induction Hpost as [|r' post Hne _ IH]; intros m1 Hm1; [done|].
    simpl. apply IH. rewrite lookup_insert_ne; done. }
  apply H. apply lookup_insert_eq.
Qed.

Lemma merge_fetched_empty_Some (df : list Row) (d : Z) (vs : list value) :
  merge_fetched ∅ df !! d = Some vs →
  ∃ r, r ∈ df ∧ row_date r = d ∧ vs = new_row r.
Proof.
  unfold merge_fetched.
  assert (∀ m : gmap Z (list value),
    foldl (fun m r => <[ts_date (row_index r) := new_row r]> m) m df !! d = Some vs →
    m !! d = Some vs ∨ ∃ r, r ∈ df ∧ row_date r = d ∧ vs = new_row r) as H.
  { induction df as [|r df IH]; intros m Hm; [by left|].
    simpl in Hm. apply IH in Hm as [Hm|(r' & Hin & Hd & Hv)].
    - rewrite lookup_insert in Hm. case_decide as Hk.
      + injection Hm as <-. right. exists r. split; [left|done].
      + by left.
    - right. exists r'. split; [by right|done]. }
  intros Hm. apply H in Hm as [Hm|Hm]; [|done]. by rewrite lookup_empty in Hm.
Qed.

Lemma dated_merge_fetched (m : gmap Z (list value)) (df : list Row) :
  dated m → dated (merge_fetched m df).
Proof.
  intros Hm d vs. rewrite merge_fetched_lookup.
  destruct (merge_fetched ∅ df !! d) as [vs'|] eqn:Hf; [|apply Hm].
  intros [= <-]. apply merge_fetched_empty_Some in Hf as (r & _ & <- & ->).
  unfold new_row, row_date. eauto.
Qed.

Lemma dated_merged (ws : Worksheet) (df : list Row) : dated (merged ws df).
Proof. apply dated_merge_fetched, dated_load_existing. Qed.

Lemma merged_lookup_total (ws : Worksheet) (df : list Row) (d : Z) :
  d ∈ sorted_keys (merged ws df) →
  merged ws df !! d = Some (merged ws df !!! d)
  ∧ ∃ rest, merged ws df !!! d = VDate d :: rest.
Proof.
  intros [vs Hvs]%elem_of_sorted_keys.
  rewrite lookup_total_alt, Hvs. simpl. split; [done|].
  by eapply dated_merged.
Qed.

(** A merged row holds, in each column for which its list has an entry
    other than [None], that entry. *)
Lemma merge_row_written (ws : Worksheet) (df : list Row) (i : nat) (d c : Z)
    (v : value) :
  sorted_keys (merged ws df) !! i = Some d →
  at_column (merged ws df !!! d) c = Some v →
  v ≠ VNone →
  cell_value (merge ws df) (4 + Z.of_nat i, c) = v.
Proof.
  intros Hi Hc Hv. rewrite merge_cell_value.
  apply lookup_lt_Some in Hi as Hlt.
  rewrite bool_decide_eq_true_2 by lia.
  rewrite row_at_index, Hi, Hc. unfold assigned. by destruct v.
Qed.

Lemma merge_date_cell (ws : Worksheet) (df : list Row) (i : nat) (d : Z) :
  sorted_keys (merged ws df) !! i = Some d →
  cell_value (merge ws df) (4 + Z.of_nat i, 1) = VDate d.
Proof.
  intros Hi. eapply merge_row_written; [done| |done].
  destruct (merged_lookup_total ws df d) as [_ [rest ->]].
  { by eapply list_elem_of_lookup_2. }
  done.
Qed.

End MergeProperties.

(** ** The merged rows on the sheet *)

(** C3.  After [merge_and_write_data] the body rows start at row 4: row
    [4 + i] carries in its date column the [i]-th of the merged dates,
    these dates are strictly ascending (so no date occurs twice), and no
    cell is left below the last of these rows. *)
Theorem merge_rows_ascending (strptime_ymd : list N -> option Z)
    (ws : Worksheet) (df : list Row) :
  let dates := sorted_keys (merged_map strptime_ymd ws df) in
  let ws' := merge_and_write_data strptime_ymd ws df in
  StronglySorted Z.lt dates
  ∧ Forall (fun id : nat * Z =>
              cell_value ws' (4 + Z.of_nat id.1, 1) = VDate id.2)
           (imap (fun i d => (i, d)) dates)
  ∧ ∀ r c, 4 + Z.of_nat (length dates) ≤ r → cells ws' !! (r, c) = None.
Proof.
  intros dates ws'. split_and!.
  - apply sorted_keys_ascending.
  - apply Forall_forall. intros [i d] Hin.
    apply list_elem_of_lookup in Hin as [j Hj].
    rewrite list_lookup_imap in Hj.
    destruct (dates !! j) as [d'|] eqn:Hd; [|done].
    injection Hj as <- <-. simpl. by apply merge_date_cell.
  - intros r c Hr. by apply merge_cells_beyond.
Qed.

(** C4.  When fewer rows come out of the merge than the sheet had rows
    below the header, every row beyond the new last row is cleared: no
    cell of it remains. *)
Theorem merge_clears_surplus_rows (strptime_ymd : list N -> option Z)
    (ws : Worksheet) (df : list Row) (r c : Z) :
  Z.of_nat (length (sorted_keys (merged_map strptime_ymd ws df)))
    < occupied_rows ws →
  3 + Z.of_nat (length (sorted_keys (merged_map strptime_ymd ws df))) < r →
  cells (merge_and_write_data strptime_ymd ws df) !! (r, c) = None.
Proof.
  intros _ Hr. apply merge_cells_beyond. lia.
Qed.

Lemma merge_clears_surplus_rows_witness :
  cell_value sheet_S (5, 1) = VDate (ymd 2024 1 4)
  ∧ cells (merge_and_write_data strptime_ymd_ascii sheet_S fetched_S) !! (5, 1) = None.
Proof.
  split; [by vm_compute|].
  apply merge_clears_surplus_rows; by vm_compute.
Defined.

(** ** Fetched rows on the sheet *)

Lemma new_row_not_none (r : Row) (c : Z) (v : value) :
  at_column (new_row r) c = Some v → v ≠ VNone.
Proof.
  unfold at_column, new_row. case_bool_decide; [|done].
  intros Hl. apply list_elem_of_lookup_2 in Hl.
  rewrite !elem_of_cons, elem_of_nil in Hl.
  destruct Hl as [->|[->|[->|[->|[->|[->|[->|[]]]]]]]]; done.
Qed.

(** The row list of the last fetched row of a date is what the sheet
    holds for that date afterwards, in all its seven columns. *)
Lemma merge_fetched_row_wins (strptime_ymd : list N -> option Z)
    (ws : Worksheet) (pre post : list Row) (r : Row) :
  Forall (fun r' => row_date r' ≠ row_date r) post →
  ∃ i : nat,
    sorted_keys (merged_map strptime_ymd ws (pre ++ r :: post)) !! i
      = Some (row_date r)
    ∧ ∀ c v, at_column (new_row r) c = Some v →
        cell_value (merge_and_write_data strptime_ymd ws (pre ++ r :: post))
                   (4 + Z.of_nat i, c) = v.
Proof.
  intros Hpost.
  pose proof (merge_fetched_last (load_existing strptime_ymd (iter_rows ws 4).2)
                pre post r Hpost) as Hm.
  fold (merged_map strptime_ymd ws (pre ++ r :: post)) in Hm.
  assert (row_date r ∈ sorted_keys (merged_map strptime_ymd ws (pre ++ r :: post)))
    as Hin by (apply elem_of_sorted_keys; eauto).
  apply list_elem_of_lookup in Hin as [i Hi].
  exists i. split; [done|]. intros c v Hc.
  eapply merge_row_written; [done| |by eapply new_row_not_none].
  by rewrite lookup_total_alt, Hm.
Qed.

Section FetchProperties.

Variable yf_history : list N -> history_kwargs -> option (list Bar).
Variable rolling_mean : nat -> list spec_float -> spec_float.



End FetchProperties.



(** ** Retained rows *)

(** C1.  The code at a region whose row of 2024-01-03 has an empty 5-day
    mean and is followed by a row with the mean 15, merged with one
    fetched row for 2024-01-02: the row of 2024-01-03, a date that was not
    fetched, moves to sheet row 5 and shows the mean 15 there.  The empty
    entry of its list is passed to [ws.cell] as [None], which assigns
    nothing, so the cell keeps what the row below had left in it. *)
Theorem merge_retained_row_picks_up_stale_value :
  let ws' := merge_and_write_data strptime_ymd_ascii sheet_A fetched_A in
  map row_date fetched_A = [ymd 2024 1 2]
  ∧ map (fun c => cell_value sheet_A (4, c)) [1; 6] = [VDate (ymd 2024 1 3); VNone]
  ∧ map (fun c => cell_value ws' (5, c)) [1; 6]
    = [VDate (ymd 2024 1 3); VFloat (float_of_Z 15)].
Proof. by vm_compute. Qed.

(** ** Merging the same frame again *)

Section ReMerge.

Variable strptime_ymd : list N -> option Z.

Lemma load_row_dated (m : gmap Z (list value)) (d : Z) (rest : list value) :
  load_row strptime_ymd m (VDate d :: rest) = <[d := VDate d :: rest]> m.
Proof. done. Qed.

(** Reading rows that start with distinct dates: each date is mapped to its
    row, and nothing else is added. *)
Lemma load_rows_dated (dates : list Z) (rows : list (list value)) :
  Forall2 (fun d row => ∃ rest, row = VDate d :: rest) dates rows →
  NoDup dates →
  ∀ m0 : gmap Z (list value),
    (∀ i d row, dates !! i = Some d → rows !! i = Some row →
       foldl (load_row strptime_ymd) m0 rows !! d = Some row)
    ∧ (∀ d, d ∉ dates →
       foldl (load_row strptime_ymd) m0 rows !! d = m0 !! d).
Proof.
  induction 1 as [|d row dates rows [rest ->] _ IH]; intros Hnd m0.
  - split; [|done]. intros i d row Hd. by rewrite lookup_nil in Hd.
  - apply NoDup_cons in Hnd as [Hd Hnd]. cbn [foldl].
    rewrite load_row_dated.
    destruct (IH Hnd (<[d := VDate d :: rest]> m0)) as [IH1 IH2].
    split.
    + intros [|i] d' row' Hd' Hrow'; simpl in *.
      * injection Hd' as <-. injection Hrow' as <-.
        rewrite IH2 by done. apply lookup_insert_eq.
      * by eapply IH1.
    + intros d' Hd'. apply not_elem_of_cons in Hd' as [Hne Hd'].
      rewrite IH2 by done. by rewrite lookup_insert_ne.
Qed.

Lemma merged_lookup (ws : Worksheet) (df : list Row) (d : Z) :
  merged_map strptime_ymd ws df !! d =
  match merge_fetched ∅ df !! d with
  | Some vs => Some vs
  | None => load_existing strptime_ymd (iter_rows ws 4).2 !! d
  end.
Proof. unfold merged_map. apply merge_fetched_lookup. Qed.

Variable ws : Worksheet.
Variable df : list Row.

Local Abbreviation ws1 := (merge_and_write_data strptime_ymd ws df).
Local Abbreviation dates1 := (sorted_keys (merged_map strptime_ymd ws df)).

(** The rows the second merge reads are the rows the first one wrote. *)
Lemma merged_sheet_rows :
  seqZ 4 (max_row ws1 - 4 + 1) = seqZ 4 (Z.of_nat (length dates1)).
Proof.
  destruct dates1 as [|d0 ds] eqn:Hdates.
  - rewrite !seqZ_nil; [done|simpl; lia|].
    assert (max_row ws1 ≤ 3); [|lia].
    apply max_row_below; [lia|]. intros r c x Hx.
    destruct (decide (r ≤ 3)) as [|Hr]; [done|].
    rewrite merge_cells_beyond in Hx; [done|]. rewrite Hdates. simpl. lia.
  - f_equal. rewrite <- Hdates.
    assert (length dates1 ≠ 0%nat) as Hn by (by rewrite Hdates).
    assert (max_row ws1 ≤ 3 + Z.of_nat (length dates1)).
    { apply max_row_below; [lia|]. intros r c x Hx.
      destruct (decide (r ≤ 3 + Z.of_nat (length dates1))) as [|Hr]; [done|].
      rewrite merge_cells_beyond in Hx; [done|]. lia. }
    assert (3 + Z.of_nat (length dates1) ≤ max_row ws1); [|lia].
    destruct (lookup_lt_is_Some_2 dates1 (length dates1 - 1)) as [d Hd]; [lia|].
    pose proof (merge_date_cell strptime_ymd ws df _ _ Hd) as Hcell.
    destruct (cell_value_Some ws1 (4 + Z.of_nat (length dates1 - 1), 1)) as [x Hx].
    { by rewrite Hcell. }
    apply max_row_ge in Hx. lia.
Qed.

Lemma merged_sheet_has_first_column (i : nat) (d : Z) :
  dates1 !! i = Some d → 1 ≤ max_column ws1.
Proof.
  intros Hd.
  pose proof (merge_date_cell strptime_ymd ws df _ _ Hd) as Hcell.
  destruct (cell_value_Some ws1 (4 + Z.of_nat i, 1)) as [x Hx].
  { by rewrite Hcell. }
  by apply max_column_ge in Hx.
Qed.

Local Abbreviation read_back := (body_row ws1).

Lemma iter_rows_merged :
  (iter_rows ws1 4).2 = map read_back (seq 0 (length dates1)).
Proof.
  unfold iter_rows, grid. simpl. rewrite merged_sheet_rows.
  rewrite map_map. unfold seqZ. rewrite Nat2Z.id.
  change (@fmap list _ nat Z) with (@map nat Z). rewrite map_map.
  apply map_ext. intros i. unfold body_row. do 3 f_equal. lia.
Qed.

Lemma read_back_dated (i : nat) (d : Z) :
  dates1 !! i = Some d → ∃ rest, read_back i = VDate d :: rest.
Proof.
  intros Hd. unfold body_row.
  pose proof (merged_sheet_has_first_column i d Hd) as Hw.
  rewrite seqZ_cons by lia. simpl.
  rewrite (merge_date_cell strptime_ymd ws df _ _ Hd). eauto.
Qed.

Lemma read_back_column (i : nat) (c : Z) (v : value) :
  at_column (read_back i) c = Some v →
  v = cell_value ws1 (4 + Z.of_nat i, c).
Proof.
  unfold at_column, body_row. case_bool_decide as Hc; [|done].
  rewrite map_map. change (map ?f ?l) with (f <$> l).
  rewrite list_lookup_fmap. intros Hl.
  apply fmap_Some in Hl as (c' & Hl & ->).
  apply lookup_seqZ in Hl as [-> _]. do 2 f_equal. lia.
Qed.

(** What the second merge loads from the sheet. *)
Lemma load_existing_merged (d : Z) :
  load_existing strptime_ymd (iter_rows ws1 4).2 !! d =
  match list_find (fun d' => d' = d) dates1 with
  | Some (i, _) => Some (read_back i)
  | None => None
  end.
Proof.
  rewrite iter_rows_merged. unfold load_existing.
  assert (Forall2 (fun d row => ∃ rest, row = VDate d :: rest) dates1
            (map read_back (seq 0 (length dates1)))) as HF.
  { apply Forall2_same_length_lookup_2.
    - by rewrite length_map, length_seq.
    - intros i d' row Hd Hrow.
      change (map ?f ?l) with (f <$> l) in Hrow.
      rewrite list_lookup_fmap in Hrow.
      apply fmap_Some in Hrow as (j & Hj & ->).
      apply lookup_seq in Hj as [-> _]. simpl. by apply read_back_dated. }
  destruct (load_rows_dated _ _ HF (NoDup_sorted_keys _) ∅) as [H1 H2].
  destruct (list_find _ dates1) as [[i d']|] eqn:Hfind.
  - apply list_find_Some in Hfind as (Hi & -> & _).
    eapply H1; [done|].
    change (map ?f ?l) with (f <$> l). rewrite list_lookup_fmap.
    rewrite lookup_seq_lt by (by eapply lookup_lt_Some). done.
  - rewrite H2, lookup_empty; [done|].
    apply list_find_None in Hfind. intros Hin.
    eapply Forall_forall in Hfind; [|done]. done.
Qed.

Lemma merged_again_lookup (d : Z) :
  merged_map strptime_ymd ws1 df !! d =
  match merge_fetched ∅ df !! d with
  | Some vs => Some vs
  | None =>
      match list_find (fun d' => d' = d) dates1 with
      | Some (i, _) => Some (read_back i)
      | None => None
      end
  end.
Proof.
  by rewrite merged_lookup, load_existing_merged.
Qed.

Lemma merged_again_keys :
  sorted_keys (merged_map strptime_ymd ws1 df) = dates1.
Proof.
  apply sorted_keys_ext. intros d. rewrite merged_again_lookup.
  pose proof (elem_of_sorted_keys (merged_map strptime_ymd ws df) d) as Hin.
  rewrite (merged_lookup ws df d) in Hin |- *.
  destruct (merge_fetched ∅ df !! d) as [vs|] eqn:HF; [done|].
  rewrite <- Hin.
  destruct (list_find _ dates1) as [[i d']|] eqn:Hfind.
  - apply list_find_Some in Hfind as (Hi & -> & _).
    apply list_elem_of_lookup_2 in Hi. split; eauto.
  - apply list_find_None in Hfind. split; [by intros [? ?]|].
    intros Hd. eapply Forall_forall in Hfind; [|done]. done.
Qed.

(** A value the second merge writes is the value the cell already has. *)
Lemma merged_again_same_value (i : nat) (d c : Z) (v : value) :
  dates1 !! i = Some d →
  at_column (merged_map strptime_ymd ws1 df !!! d) c = Some v →
  v ≠ VNone →
  v = cell_value ws1 (4 + Z.of_nat i, c).
Proof.
  intros Hd Hc Hv. rewrite lookup_total_alt, merged_again_lookup in Hc.
  destruct (merge_fetched ∅ df !! d) as [vs|] eqn:HF.
  - simpl in Hc. symmetry. eapply merge_row_written; [done| |done].
    by rewrite lookup_total_alt, merged_lookup, HF.
  - destruct (list_find _ dates1) as [[j d']|] eqn:Hfind.
    + apply list_find_Some in Hfind as (Hj & -> & _).
      assert (j = i) as ->.
      { eapply NoDup_lookup; [apply NoDup_sorted_keys|done..]. }
      simpl in Hc. by apply read_back_column.
    + simpl in Hc. unfold at_column in Hc. case_bool_decide; done.
Qed.

Lemma merge_again_cell_value (r c : Z) :
  cell_value (merge_and_write_data strptime_ymd ws1 df) (r, c)
  = cell_value ws1 (r, c).
Proof.
  rewrite merge_cell_value, merged_again_keys.
  case_bool_decide as Hr.
  - destruct (row_at dates1 4 r) as [d|] eqn:Hrow; [|done].
    apply row_at_Some in Hrow as (i & -> & Hd).
    destruct (at_column _ c) as [v|] eqn:Hc; [|done].
    unfold assigned. destruct (is_none v) eqn:Hv; [done|].
    eapply merged_again_same_value; [done..|]. by intros ->.
  - symmetry. apply cell_value_absent, merge_cells_beyond. lia.
Qed.

End ReMerge.

(** C2.  Merging the same fetched frame a second time changes nothing:
    the merged dates are the same, and every cell of the sheet, in the
    body rows and elsewhere, holds after the second merge the value it
    held after the first. *)
Theorem merge_idempotent (strptime_ymd : list N -> option Z)
    (ws : Worksheet) (df : list Row) :
  let once := merge_and_write_data strptime_ymd ws df in
  let twice := merge_and_write_data strptime_ymd once df in
  sorted_keys (merged_map strptime_ymd once df)
  = sorted_keys (merged_map strptime_ymd ws df)
  ∧ ∀ rc : Z * Z, cell_value twice rc = cell_value once rc.
Proof.
  intros once twice. split.
  - apply merged_again_keys.
  - intros [r c]. apply merge_again_cell_value.
Qed.

(* ===================================================================== *)
(** * Further properties of the merge *)
(* ===================================================================== *)

Lemma columns_of_row (f : Z -> value) (vs : list value) :
  (∀ c v, at_column vs c = Some v → f c = v) →
  map f (seqZ 1 (Z.of_nat (length vs))) = vs.
Proof.
  intros H. apply list_eq. intros i.
  change (map f ?l) with (f <$> l). rewrite list_lookup_fmap.
  destruct (vs !! i) as [v|] eqn:Hv.
  - rewrite lookup_seqZ_lt by (apply lookup_lt_Some in Hv; lia). simpl.
    f_equal. apply H. unfold at_column.
    rewrite bool_decide_eq_true_2 by lia.
    by replace (Z.to_nat (1 + Z.of_nat i - 1)) with i by lia.
  - rewrite lookup_seqZ_ge; [done|]. apply lookup_ge_None in Hv. lia.
Qed.

(** X1.  Upsert: the last fetched row of a date is what the sheet holds
    for that date after the merge; the seven cells of its sheet row are
    the date and the six fetched numbers, whatever the sheet held. *)
Theorem fetched_row_replaces_existing (strptime_ymd : list N -> option Z)
    (ws : Worksheet) (pre post : list Row) (r : Row) :
  Forall (fun r' => row_date r' ≠ row_date r) post →
  ∃ i : nat,
    sorted_keys (merged_map strptime_ymd ws (pre ++ r :: post)) !! i
      = Some (row_date r)
    ∧ map (fun c => cell_value
                      (merge_and_write_data strptime_ymd ws (pre ++ r :: post))
                      (4 + Z.of_nat i, c))
          (seqZ 1 7)
      = new_row r.
Proof.
  intros Hpost.
  destruct (merge_fetched_row_wins strptime_ymd ws pre post r Hpost) as (i & Hi & Hc).
  exists i. split; [done|].
  by apply (columns_of_row _ (new_row r)).
Qed.

Lemma fetched_row_replaces_existing_witness :
  cell_value sheet_S (5, 2) = VFloat (float_of_Z 20)
  ∧ ∃ i : nat,
      sorted_keys (merged_map strptime_ymd_ascii sheet_S ([] ++ fetched_S)) !! i
        = Some (ymd 2024 1 4)
      ∧ map (fun c => cell_value
                        (merge_and_write_data strptime_ymd_ascii sheet_S
                                              ([] ++ fetched_S))
                        (4 + Z.of_nat i, c))
            (seqZ 1 7)
        = [VDate (ymd 2024 1 4); VFloat (float_of_Z 21); VFloat (float_of_Z 21);
           VFloat (float_of_Z 22); VFloat (float_of_Z 19); VFloat nan; VFloat nan].
Proof.
  split; [by vm_compute|].
  apply (fetched_row_replaces_existing strptime_ymd_ascii sheet_S [] []
           (MkRow (at_midnight (ymd 2024 1 4)) (float_of_Z 21) (float_of_Z 22)
                  (float_of_Z 19) (float_of_Z 21) nan nan)).
  constructor.
Defined.

(** X2.  The merge leaves the rows above the body alone: every cell of
    rows 1 to 3 (title, header) reads after the merge as before. *)
Theorem merge_keeps_rows_above_body (strptime_ymd : list N -> option Z)
    (ws : Worksheet) (df : list Row) (r c : Z) :
  r < 4 →
  cell_value (merge_and_write_data strptime_ymd ws df) (r, c) = cell_value ws (r, c).
Proof.
  intros Hr. rewrite merge_cell_value.
  rewrite bool_decide_eq_true_2 by lia.
  unfold row_at. by rewrite bool_decide_eq_false_2 by lia.
Qed.

Lemma merge_keeps_rows_above_body_witness :
  cell_value (merge_and_write_data strptime_ymd_ascii sheet_A fetched_A) (3, 2)
  = cell_value sheet_A (3, 2).
Proof. apply merge_keeps_rows_above_body. lia. Defined.

Lemma merge_fetched_is_Some (df : list Row) (d : Z) :
  ∀ m : gmap Z (list value),
    is_Some (merge_fetched m df !! d) ↔ is_Some (m !! d) ∨ d ∈ map row_date df.
Proof.
  induction df as [|r df IH]; intros m; simpl.
  - rewrite elem_of_nil. tauto.
  - rewrite IH, elem_of_cons, lookup_insert.
    unfold row_date at 2. case_decide as Hk.
    + split; [intros _; right; left; done|intros _; left; eauto].
    + split; [tauto|]. intros [?|[?|?]]; [tauto|congruence|tauto].
Qed.

Lemma load_row_key (strptime_ymd : list N -> option Z)
    (m : gmap Z (list value)) (row : list value) :
  load_row strptime_ymd m row =
  match row_key strptime_ymd row with
  | Some k => <[k := VDate k :: tail row]> m
  | None => m
  end.
Proof.
  unfold load_row, row_key. destruct row as [|raw rest]; [done|].
  destruct (truthy raw); [|done]. by destruct (date_key strptime_ymd raw).
Qed.

Lemma load_rows_is_Some (strptime_ymd : list N -> option Z)
    (rows : list (list value)) (d : Z) :
  ∀ m : gmap Z (list value),
    is_Some (foldl (load_row strptime_ymd) m rows !! d) ↔
    is_Some (m !! d) ∨ ∃ row, row ∈ rows ∧ row_key strptime_ymd row = Some d.
Proof.
  induction rows as [|row rows IH]; intros m; simpl.
  - split; [by left|]. intros [?|(row & Hin & _)]; [done|].
    by apply elem_of_nil in Hin.
  - rewrite IH, load_row_key. split.
    + intros [Hm|(row' & Hin & Hk)].
      * destruct (row_key strptime_ymd row) as [k|] eqn:Hrk; [|by left].
        rewrite lookup_insert in Hm. case_decide as Hkd; [|by left].
        subst k. right. exists row. split; [left|done].
      * right. exists row'. split; [by right|done].
    + intros [Hm|(row' & Hin & Hk)].
      * left. destruct (row_key strptime_ymd row) as [k|]; [|done].
        rewrite lookup_insert. case_decide; eauto.
      * apply elem_of_cons in Hin as [->|Hin].
        -- left. rewrite Hk. rewrite lookup_insert_eq. eauto.
        -- right. eauto.
Qed.

Lemma load_rows_last (strptime_ymd : list N -> option Z)
    (pre post : list (list value)) (row : list value) (d : Z) :
  row_key strptime_ymd row = Some d →
  Forall (fun row' => row_key strptime_ymd row' ≠ Some d) post →
  load_existing strptime_ymd (pre ++ row :: post) !! d = Some (VDate d :: tail row).
Proof.
  intros Hk Hpost. unfold load_existing. rewrite foldl_app. simpl.
  generalize (foldl (load_row strptime_ymd) ∅ pre). intros m0.
  rewrite (load_row_key _ m0 row), Hk.
  assert (∀ m1 : gmap Z (list value), m1 !! d = Some (VDate d :: tail row) →
          foldl (load_row strptime_ymd) m1 post !! d = Some (VDate d :: tail row)) as H.
  { induction Hpost as [|row' post Hne _ IH]; intros m1 Hm1; [done|].
    simpl. apply IH. rewrite load_row_key.
    destruct (row_key strptime_ymd row') as [k|]; [|done].
    rewrite lookup_insert_ne; [done|congruence]. }
  apply H, lookup_insert_eq.
Qed.

(** X3.  The dates of the merged rows are exactly the fetched dates and
    the dates of the body rows whose first cell can be read as a date.  A
    body row whose first cell is empty, or holds something that is not a
    date and cannot be parsed as one, contributes no date: it is left out of
    the rows written back. *)
Theorem merged_dates_characterised (strptime_ymd : list N -> option Z)
    (ws : Worksheet) (df : list Row) (d : Z) :
  d ∈ sorted_keys (merged_map strptime_ymd ws df) ↔
  d ∈ map row_date df
  ∨ ∃ row, row ∈ (iter_rows ws 4).2 ∧ row_key strptime_ymd row = Some d.
Proof.
  rewrite elem_of_sorted_keys. unfold merged_map, load_existing.
  rewrite merge_fetched_is_Some, load_rows_is_Some, lookup_empty.
  split.
  - intros [[[? ?]|?]|?]; [done|by right|by left].
  - intros [?|?]; [by right|by left; right].
Qed.

(** X4.  After a merge that yields at least one dated row, the sheet ends
    exactly at the last merged row: [ws.max_row] is 3 plus the number of
    merged dates. *)
Theorem max_row_after_merge (strptime_ymd : list N -> option Z)
    (ws : Worksheet) (df : list Row) :
  sorted_keys (merged_map strptime_ymd ws df) ≠ [] →
  max_row (merge_and_write_data strptime_ymd ws df)
  = 3 + Z.of_nat (length (sorted_keys (merged_map strptime_ymd ws df))).
Proof.
  intros Hne.
  pose proof (merged_sheet_rows strptime_ymd ws df) as Hrows.
  apply (f_equal length) in Hrows. rewrite !length_seqZ in Hrows.
  assert (length (sorted_keys (merged_map strptime_ymd ws df)) ≠ 0%nat).
  { by destruct (sorted_keys _). }
  lia.
Qed.

Lemma max_row_after_merge_witness :
  max_row (merge_and_write_data strptime_ymd_ascii sheet_S fetched_S) = 4.
Proof.
  refine (eq_trans (max_row_after_merge strptime_ymd_ascii sheet_S fetched_S _) _).
  - by vm_compute.
  - by vm_compute.
Defined.

(** X5.  A body row that is not replaced and has no empty cell after its
    date is carried over exactly: when its date was not fetched and no
    later body row has the same date, the sheet row of that date holds
    after the merge the date, as a date value, followed by the cells the
    row had. *)
Theorem retained_row_without_gaps_is_kept (strptime_ymd : list N -> option Z)
    (ws : Worksheet) (df : list Row) (pre post : list (list value))
    (row : list value) (d : Z) :
  (iter_rows ws 4).2 = pre ++ row :: post →
  row_key strptime_ymd row = Some d →
  Forall (fun row' => row_key strptime_ymd row' ≠ Some d) post →
  d ∉ map row_date df →
  Forall (fun v => v ≠ VNone) (tail row) →
  ∃ i : nat,
    sorted_keys (merged_map strptime_ymd ws df) !! i = Some d
    ∧ map (fun c => cell_value (merge_and_write_data strptime_ymd ws df)
                               (4 + Z.of_nat i, c))
          (seqZ 1 (Z.of_nat (length (VDate d :: tail row))))
      = VDate d :: tail row.
Proof.
  intros Hrows Hk Hpost Hnf Hfull.
  assert (merged_map strptime_ymd ws df !! d = Some (VDate d :: tail row)) as Hm.
  { unfold merged_map. rewrite merge_fetched_lookup.
    destruct (merge_fetched ∅ df !! d) as [vs|] eqn:HF.
    - exfalso. apply Hnf.
      assert (is_Some (merge_fetched ∅ df !! d)) as HS by eauto.
      apply merge_fetched_is_Some in HS as [[? HS]|HS]; [|done].
      by rewrite lookup_empty in HS.
    - rewrite Hrows. by apply load_rows_last. }
  assert (d ∈ sorted_keys (merged_map strptime_ymd ws df)) as Hin
    by (apply elem_of_sorted_keys; eauto).
  apply list_elem_of_lookup in Hin as [i Hi]. exists i. split; [done|].
  apply (columns_of_row _ (VDate d :: tail row)). intros c v Hc.
  eapply merge_row_written; [done|by rewrite lookup_total_alt, Hm|].
  unfold at_column in Hc. case_bool_decide; [|done].
  apply list_elem_of_lookup_2, elem_of_cons in Hc as [->|Hc]; [done|].
  eapply Forall_forall in Hfull; done.
Qed.

Lemma retained_row_without_gaps_is_kept_witness :
  ∃ i : nat,
    sorted_keys (merged_map strptime_ymd_ascii sheet_full fetched_A) !! i
      = Some (ymd 2024 1 4)
    ∧ map (fun c => cell_value
                      (merge_and_write_data strptime_ymd_ascii sheet_full fetched_A)
                      (4 + Z.of_nat i, c))
          (seqZ 1 7)
      = price_row (ymd 2024 1 4) 20 21 22 19
                  (VFloat (float_of_Z 18)) (VFloat (float_of_Z 17)).
Proof.
  apply (retained_row_without_gaps_is_kept strptime_ymd_ascii sheet_full fetched_A
           [] []
           (price_row (ymd 2024 1 4) 20 21 22 19
                      (VFloat (float_of_Z 18)) (VFloat (float_of_Z 17)))
           (ymd 2024 1 4)).
  - by vm_compute.
  - by vm_compute.
  - constructor.
  - change (ymd 2024 1 4 ∉ [ymd 2024 1 2]). intros Hin%list_elem_of_singleton.
    vm_compute in Hin. discriminate Hin.
  - simpl. repeat constructor; discriminate.
Defined.

(** ** What the merge does not touch, and the number formats *)

Lemma bindings_write_cols (r : Z) (l : list (Z * value)) :
  ∀ ws, bindings (foldl (write_value r) ws l) = bindings ws.
Proof.
  induction l as [|[c v] l IH]; intros ws; simpl; [done|].
  rewrite IH. unfold write_value. simpl. by destruct (_ && _).
Qed.

Lemma bindings_write_rows (m : gmap Z (list value)) (dates : list Z) :
  ∀ ws k, bindings (write_rows m ws k dates).1 = bindings ws.
Proof.
  induction dates as [|d ds IH]; intros ws k; [done|].
  rewrite write_rows_cons, IH. apply bindings_write_cols.
Qed.

Lemma bindings_merge (strptime_ymd : list N -> option Z) (ws : Worksheet)
    (df : list Row) :
  bindings (merge_and_write_data strptime_ymd ws df) = bindings ws.
Proof.
  rewrite merge_unfold. simpl.
  assert (∀ ws' idx amount, bindings (delete_rows ws' idx amount) = bindings ws')
    as Hdel by done.
  case_bool_decide; [rewrite Hdel|]; by rewrite bindings_write_rows.
Qed.

Lemma cell_format_ws_cell (ws : Worksheet) (r c : Z) (v : value) (rc : Z * Z) :
  cell_format (ws_cell ws r c v) rc = cell_format ws rc.
Proof.
  unfold cell_format, ws_cell. simpl.
  destruct (decide ((r, c) = rc)) as [<-|Hne].
  - rewrite lookup_insert_eq. simpl. by destruct (is_none v).
  - by rewrite lookup_insert_ne.
Qed.

Lemma ws_cell_exists (ws : Worksheet) (r c : Z) (v : value) :
  is_Some (cells (ws_cell ws r c v) !! (r, c)).
Proof. unfold ws_cell. simpl. rewrite lookup_insert_eq. eauto. Qed.

Lemma cell_format_set_number_format (ws : Worksheet) (r c : Z) (fmt : list N)
    (rc : Z * Z) :
  is_Some (cells ws !! (r, c)) →
  cell_format (set_number_format ws r c fmt) rc =
  if decide (rc = (r, c)) then fmt else cell_format ws rc.
Proof.
  intros [x Hx]. unfold cell_format, set_number_format. simpl.
  case_decide as Heq.
  - subst rc. by rewrite lookup_alter_eq, Hx.
  - by rewrite lookup_alter_ne.
Qed.

Lemma cell_format_write_value (ws : Worksheet) (r c : Z) (v : value) (rc : Z * Z) :
  cell_format (write_value r ws (c, v)) rc =
  if decide (rc = (r, c)) then
    if (1 <? c) && is_number v then thousands else cell_format ws rc
  else cell_format ws rc.
Proof.
  unfold write_value. cbn [fst snd].
  destruct ((1 <? c) && is_number v).
  - rewrite cell_format_set_number_format by apply ws_cell_exists.
    case_decide; [done|apply cell_format_ws_cell].
  - rewrite cell_format_ws_cell. by case_decide.
Qed.

Lemma cell_format_write_cols (r : Z) (values : list value) :
  ∀ (k : Z) (ws : Worksheet) (r' c' : Z),
    cell_format (foldl (write_value r) ws (enumerate k values)) (r', c') =
    match (if decide (r' = r) then
             if bool_decide (k ≤ c') then values !! Z.to_nat (c' - k) else None
           else None) with
    | Some v => if (1 <? c') && is_number v then thousands
                else cell_format ws (r', c')
    | None => cell_format ws (r', c')
    end.
Proof.
  induction values as [|v vs IH]; intros k ws r' c'; simpl.
  - by repeat (case_decide || case_bool_decide).
  - rewrite IH, cell_format_write_value.
    destruct (decide (r' = r)) as [->|Hr].
    + destruct (decide (c' = k)) as [->|Hc].
      * rewrite bool_decide_eq_false_2 by lia.
        rewrite bool_decide_eq_true_2 by lia.
        rewrite decide_True by done. by rewrite Z.sub_diag.
      * rewrite (decide_False (P := (r, c') = (r, k))) by congruence.
        case_bool_decide as Hk.
        -- rewrite bool_decide_eq_true_2 by lia.
           replace (Z.to_nat (c' - k)) with (S (Z.to_nat (c' - (k + 1)))) by lia.
           done.
        -- case_bool_decide as Hk'; [|done].
           replace c' with k in Hc by lia. done.
    + by rewrite decide_False by congruence.
Qed.

Lemma cell_format_write_row (ws : Worksheet) (r : Z) (values : list value)
    (r' c' : Z) :
  cell_format (write_row ws r values) (r', c') =
  match (if decide (r' = r) then at_column values c' else None) with
  | Some v => if (1 <? c') && is_number v then thousands
              else cell_format ws (r', c')
  | None => cell_format ws (r', c')
  end.
Proof. unfold write_row, at_column. apply cell_format_write_cols. Qed.

Lemma cell_format_write_rows (m : gmap Z (list value)) (dates : list Z) :
  ∀ (ws : Worksheet) (k r c : Z),
    cell_format (write_rows m ws k dates).1 (r, c) =
    match row_at dates k r with
    | Some d =>
        match at_column (m !!! d) c with
        | Some v => if (1 <? c) && is_number v then thousands
                    else cell_format ws (r, c)
        | None => cell_format ws (r, c)
        end
    | None => cell_format ws (r, c)
    end.
Proof.
  unfold row_at.
  induction dates as [|d ds IH]; intros ws k r c.
  - simpl. by case_bool_decide.
  - rewrite write_rows_cons, IH, cell_format_write_row.
    destruct (decide (r = k)) as [->|Hr].
    + rewrite bool_decide_eq_false_2 by lia.
      rewrite bool_decide_eq_true_2 by lia. by rewrite Z.sub_diag.
    + case_bool_decide as Hk.
      * rewrite bool_decide_eq_true_2 by lia.
        replace (Z.to_nat (r - k)) with (S (Z.to_nat (r - (k + 1)))) by lia.
        done.
      * case_bool_decide as Hk'; [|done].
        replace r with k in Hr by lia. done.
Qed.

Lemma merge_row_formatted (strptime_ymd : list N -> option Z) (ws : Worksheet)
    (df : list Row) (i : nat) (d c : Z) (v : value) :
  sorted_keys (merged_map strptime_ymd ws df) !! i = Some d →
  at_column (merged_map strptime_ymd ws df !!! d) c = Some v →
  1 < c → is_number v = true →
  cell_format (merge_and_write_data strptime_ymd ws df) (4 + Z.of_nat i, c)
  = thousands.
Proof.
  intros Hi Hc Hcol Hnum. unfold cell_format. rewrite merge_cells.
  apply lookup_lt_Some in Hi as Hlt.
  rewrite bool_decide_eq_true_2 by lia.
  pose proof (cell_format_write_rows (merged_map strptime_ymd ws df)
                (sorted_keys (merged_map strptime_ymd ws df))
                (iter_rows ws 4).1 4 (4 + Z.of_nat i) c) as Hw.
  unfold cell_format at 1 in Hw. rewrite Hw.
  rewrite row_at_index, Hi, Hc, Hnum.
  apply Z.ltb_lt in Hcol. rewrite Hcol. reflexivity.
Qed.

(** X6.  The six numbers of a fetched row (the last of its date) are
    displayed with the thousands format: after the merge the cells of
    columns 2 to 7 of its sheet row have the number format [#,##0]. *)
Theorem fetched_numbers_are_formatted (strptime_ymd : list N -> option Z)
    (ws : Worksheet) (pre post : list Row) (r : Row) (c : Z) :
  Forall (fun r' => row_date r' ≠ row_date r) post →
  2 ≤ c ≤ 7 →
  ∃ i : nat,
    sorted_keys (merged_map strptime_ymd ws (pre ++ r :: post)) !! i
      = Some (row_date r)
    ∧ cell_format (merge_and_write_data strptime_ymd ws (pre ++ r :: post))
                  (4 + Z.of_nat i, c) = thousands.
Proof.
  intros Hpost Hc.
  destruct (merge_fetched_row_wins strptime_ymd ws pre post r Hpost) as (i & Hi & _).
  exists i. split; [done|].
  pose proof (merge_fetched_last (load_existing strptime_ymd (iter_rows ws 4).2)
                pre post r Hpost) as Hm.
  fold (merged_map strptime_ymd ws (pre ++ r :: post)) in Hm.
  assert (∃ x, at_column (new_row r) c = Some (VFloat x)) as [x Hx].
  { assert (c = 2 ∨ c = 3 ∨ c = 4 ∨ c = 5 ∨ c = 6 ∨ c = 7) as Hcs by lia.
    destruct Hcs as [->|[->|[->|[->|[->| ->]]]]]; eexists; reflexivity. }
  apply (merge_row_formatted strptime_ymd ws _ i (row_date r) c (VFloat x));
    [done| |lia|done].
  by rewrite lookup_total_alt, Hm.
Qed.

Lemma fetched_numbers_are_formatted_witness :
  cell_format sheet_S (5, 2) = str "General"
  ∧ ∃ i : nat,
      sorted_keys (merged_map strptime_ymd_ascii sheet_S ([] ++ fetched_S)) !! i
        = Some (ymd 2024 1 4)
      ∧ cell_format (merge_and_write_data strptime_ymd_ascii sheet_S
                                          ([] ++ fetched_S))
                    (4 + Z.of_nat i, 2) = thousands.
Proof.
  split; [by vm_compute|].
  apply (fetched_numbers_are_formatted strptime_ymd_ascii sheet_S [] []
           (MkRow (at_midnight (ymd 2024 1 4)) (float_of_Z 21) (float_of_Z 22)
                  (float_of_Z 19) (float_of_Z 21) nan nan) 2).
  - constructor.
  - lia.
Defined.

(* ===================================================================== *)
(** * Reading dates and fetching *)
(* ===================================================================== *)

Lemma split_head_app (sep : char) (s t : list N) :
  sep ∉ s → split_head sep (s ++ sep :: t) = s.
Proof.
  induction s as [|c s IH]; intros Hs; simpl.
  - by rewrite decide_True.
  - apply not_elem_of_cons in Hs as [Hc Hs].
    rewrite decide_False by done. by rewrite IH.
Qed.

Lemma split_head_whole (sep : char) (s : list N) :
  sep ∉ s → split_head sep s = s.
Proof.
  induction s as [|c s IH]; intros Hs; simpl; [done|].
  apply not_elem_of_cons in Hs as [Hc Hs].
  rewrite decide_False by done. by rewrite IH.
Qed.

Lemma replace_char_app (old new : char) (s t : list N) :
  replace_char old new (s ++ t) = replace_char old new s ++ replace_char old new t.
Proof. unfold replace_char. apply map_app. Qed.

Lemma replace_char_keeps_out (old new sep : char) (s : list N) :
  sep ≠ new → sep ∉ s → sep ∉ replace_char old new s.
Proof.
  intros Hnew Hs Hin. unfold replace_char in Hin.
  apply list_elem_of_In, in_map_iff in Hin as (c & Hc & Hin).
  apply list_elem_of_In in Hin. case_decide; [congruence|]. by subst c.
Qed.

(** X7.  A text in the date column is keyed by its part before the first
    space, with [/] read as [-]: a trailing time of day is ignored, and
    "2024/01/03 ..." has the key of "2024-01-03". *)
Theorem date_key_of_text (strptime_ymd : list N -> option Z) (s t : list N) :
  chr " " ∉ s →
  date_key strptime_ymd (VStr (s ++ chr " " :: t))
  = strptime_ymd (replace_char (chr "/") (chr "-") s)
  ∧ date_key strptime_ymd (VStr s)
    = strptime_ymd (replace_char (chr "/") (chr "-") s).
Proof.
  intros Hs. unfold date_key.
  assert (chr " " ∉ replace_char (chr "/") (chr "-") s) as Hs'.
  { apply replace_char_keeps_out; [by vm_compute|done]. }
  split.
  - rewrite replace_char_app.
    change (replace_char (chr "/") (chr "-") (chr " " :: t))
      with (chr " " :: replace_char (chr "/") (chr "-") t).
    by rewrite split_head_app.
  - by rewrite split_head_whole.
Qed.

Lemma date_key_of_text_witness :
  date_key strptime_ymd_ascii (VStr (str "2024/01/03" ++ chr " " :: str "09:00:00"))
  = Some (ymd 2024 1 3).
Proof.
  refine (eq_trans (proj1 (date_key_of_text strptime_ymd_ascii (str "2024/01/03")
                             (str "09:00:00") _)) _).
  - intros Hin%list_elem_of_In. vm_compute in Hin.
    repeat (destruct Hin as [Hin|Hin]; [discriminate Hin|]). exact Hin.
  - by vm_compute.
Defined.

Section FetchMore.

Variable yf_history : list N -> history_kwargs -> option (list Bar).
Variable rolling_mean : nat -> list spec_float -> spec_float.

Lemma fetch_unfold (ticker : list N) (mode : Z) (date_range : option (Z * Z)) :
  fetch_stock_data yf_history rolling_mean ticker mode date_range =
  match yf_history ticker (history_request mode date_range) with
  | None => []
  | Some bars =>
      add_means rolling_mean
        (map (fun b => MkBar (tz_localize_none (bar_index b)) (bar_open b)
                             (bar_high b) (bar_low b) (bar_close b)) bars)
  end.
Proof. done. Qed.


Lemma length_add_means (bars : list Bar) :
  length (add_means rolling_mean bars) = length bars.
Proof. unfold add_means. apply length_imap. Qed.

(** X8.  The frame has one row per bar, in the order of the bars; every
    row carries the date, the time of day and the four prices of its bar
    unchanged, and no time zone. *)
Theorem fetch_rows_mirror_bars (ticker : list N) (mode : Z)
    (date_range : option (Z * Z)) (bars : list Bar) :
  yf_history ticker (history_request mode date_range) = Some bars →
  map row_data (fetch_stock_data yf_history rolling_mean ticker mode date_range)
  = map bar_data bars
  ∧ Forall (fun r => ts_tz (row_index r) = None)
           (fetch_stock_data yf_history rolling_mean ticker mode date_range).
Proof.
  intros Hy. rewrite fetch_unfold, Hy. unfold add_means. split.
  - apply list_eq. intros i. change (map ?f ?l) with (f <$> l).
    rewrite !list_lookup_fmap, list_lookup_imap, list_lookup_fmap.
    by destruct (bars !! i).
  - apply Forall_forall. intros r Hin.
    apply list_elem_of_lookup in Hin as [i Hi].
    rewrite list_lookup_imap in Hi. change (map ?f ?l) with (f <$> l) in Hi.
    rewrite list_lookup_fmap in Hi.
    destruct (bars !! i); [|done]. by injection Hi as <-.
Qed.


End FetchMore.

Lemma fetch_rows_mirror_bars_witness :
  map (fun r => ts_date (row_index r))
      (fetch_stock_data six_bar_history naive_rolling_mean (str "7203.T") 2 None)
  = map (fun k => ymd 2024 1 (8 + k)) (seqZ 0 6)
  ∧ Forall (fun r => ts_tz (row_index r) = None)
           (fetch_stock_data six_bar_history naive_rolling_mean (str "7203.T") 2 None).
Proof.
  destruct (fetch_rows_mirror_bars six_bar_history naive_rolling_mean (str "7203.T") 2 None
              (default [] (six_bar_history (str "7203.T") (history_request 2 None))))
    as [Hd Htz].
  - reflexivity.
  - split; [|exact Htz].
    apply (f_equal (map (fun x => x.1.1.1.1.1))) in Hd.
    rewrite !map_map in Hd. exact Hd.
Defined.


(* ===================================================================== *)
(** * The table binding *)
(* ===================================================================== *)

Lemma ensure_table_and_chart_result (isdigit : char -> bool) (ws : Worksheet)
    (c0 : char) (name : list N) :
  3 ≤ max_row ws →
  ensure_table_and_chart isdigit ws (c0 :: name) =
  Ok (MkWorksheet (ws_title ws) (cells ws)
        (bind_table (safe_table_name isdigit (c0 :: name))
                    (table_ref_of (max_row ws)) (tables ws))
        (charts ws ++ [line_chart (c0 :: name) (max_row ws)])).
Proof.
  intros Hmax. unfold ensure_table_and_chart.
  rewrite bool_decide_eq_false_2 by lia.
  assert (∀ (cs : list Chart) s,
    filter (fun c => negb (py_eq (chart_title c) (ObjStr s))) cs = cs) as Hkeep.
  { intros cs s. induction cs as [|c cs IH]; [done|].
    rewrite filter_cons_True; [by rewrite IH|].
    unfold chart_title. by destruct (chart_title_obj c). }
  unfold safe_table_name, bind_table, table_ref_of, line_chart.
  remember (replace_char (chr "-") (chr "_")
              (replace_char (chr ".") (chr "_")
                 (replace_char (chr " ") (chr "_") (c0 :: name)))) as sn eqn:Hsn.
  destruct sn as [|c1 sn].
  - apply (f_equal length) in Hsn. unfold replace_char in Hsn.
    rewrite !length_map in Hsn. done.
  - by rewrite Hkeep.
Qed.

Lemma update_table_ref_None (name new_ref : list N) (ts : list Table) :
  update_table_ref name new_ref ts = None ↔
  Forall (fun t => displayName t ≠ name) ts.
Proof.
  induction ts as [|t ts IH]; simpl; [by split; [constructor|]|].
  case_decide as Hn.
  - split; [done|]. intros H. by apply Forall_cons in H as [? _].
  - rewrite fmap_None, IH, Forall_cons. tauto.
Qed.

Lemma update_table_ref_again (name new_ref : list N) (ts ts' : list Table) :
  update_table_ref name new_ref ts = Some ts' →
  update_table_ref name new_ref ts' = Some ts'.
Proof.
  revert ts'. induction ts as [|t ts IH]; intros ts'; simpl; [done|].
  case_decide as Hn.
  - intros [= <-]. simpl. by rewrite decide_True.
  - intros H. apply fmap_Some in H as (ts0 & H & ->). simpl.
    rewrite decide_False by done. by rewrite (IH _ H).
Qed.

Lemma update_table_ref_other (name new_ref : list N) (ts ts' : list Table) :
  update_table_ref name new_ref ts = Some ts' →
  length ts' = length ts
  ∧ filter (fun t => displayName t ≠ name) ts'
    = filter (fun t => displayName t ≠ name) ts
  ∧ ∃ t, t ∈ ts' ∧ displayName t = name ∧ ref t = new_ref.
Proof.
  revert ts'. induction ts as [|t ts IH]; intros ts'; simpl; [done|].
  case_decide as Hn.
  - intros [= <-]. split_and!; [done| |].
    + rewrite !filter_cons_False; [done|by intros H; apply H..].
    + eexists. split; [left|done].
  - intros H. apply fmap_Some in H as (ts0 & H & ->).
    destruct (IH _ H) as (Hl & Hf & (t' & Hin & Ht')).
    split_and!; [simpl; by rewrite Hl| |exists t'; split; [by right|done]].
    rewrite !filter_cons_True by done. by rewrite Hf.
Qed.

Lemma bind_table_again (name new_ref : list N) (ts : list Table) :
  bind_table name new_ref (bind_table name new_ref ts) = bind_table name new_ref ts.
Proof.
  unfold bind_table.
  destruct (update_table_ref name new_ref ts) as [ts'|] eqn:Hu.
  - by rewrite (update_table_ref_again _ _ _ _ Hu).
  - apply update_table_ref_None in Hu.
    assert (update_table_ref name new_ref
              (ts ++ [MkTable name new_ref (Some (str "TableStyleMedium2", true, false))])
            = Some (ts ++ [MkTable name new_ref
                                   (Some (str "TableStyleMedium2", true, false))]))
      as ->; [|done].
    induction Hu as [|t ts Hn _ IH]; simpl.
    + by rewrite decide_True.
    + rewrite decide_False by done. by rewrite IH.
Qed.

Lemma bind_table_spec (name new_ref : list N) (ts : list Table) :
  (length ts ≤ length (bind_table name new_ref ts) ≤ S (length ts))%nat
  ∧ filter (fun t => displayName t ≠ name) (bind_table name new_ref ts)
    = filter (fun t => displayName t ≠ name) ts
  ∧ ∃ t, t ∈ bind_table name new_ref ts ∧ displayName t = name ∧ ref t = new_ref.
Proof.
  unfold bind_table.
  destruct (update_table_ref name new_ref ts) as [ts'|] eqn:Hu.
  - destruct (update_table_ref_other _ _ _ _ Hu) as (Hl & Hf & Ht).
    split_and!; [lia|lia|done|done].
  - split_and!.
    + rewrite length_app. lia.
    + rewrite length_app. simpl. lia.
    + rewrite filter_app, filter_cons_False, filter_nil, app_nil_r; [done|].
      intros H. by apply H.
    + eexists. split; [apply elem_of_app; right; left|done].
Qed.

(** X10.  The table of a region is bound once: from the header row on, a
    call that returns leaves a table with the derived display name bound
    to [A3:G<max_row>] and leaves the tables of other names as they are;
    a second call with the same sheet name then returns as well and leaves
    the tables exactly as the first left them. *)
Theorem table_bound_once (isdigit : char -> bool) (ws ws1 : Worksheet)
    (c0 : char) (name : list N) :
  3 ≤ max_row ws →
  ensure_table_and_chart isdigit ws (c0 :: name) = Ok ws1 →
  (∃ ws2, ensure_table_and_chart isdigit ws1 (c0 :: name) = Ok ws2
          ∧ tables ws2 = tables ws1)
  ∧ (length (tables ws1) ≤ S (length (tables ws)))%nat
  ∧ filter (fun t => displayName t ≠ safe_table_name isdigit (c0 :: name))
           (tables ws1)
    = filter (fun t => displayName t ≠ safe_table_name isdigit (c0 :: name))
             (tables ws)
  ∧ ∃ t, t ∈ tables ws1
         ∧ displayName t = safe_table_name isdigit (c0 :: name)
         ∧ ref t = table_ref_of (max_row ws).
Proof.
  intros Hmax H1. rewrite ensure_table_and_chart_result in H1 by done.
  injection H1 as <-.
  destruct (bind_table_spec (safe_table_name isdigit (c0 :: name))
              (table_ref_of (max_row ws)) (tables ws)) as ([_ Hl] & Hf & Ht).
  split_and!; [|done..].
  eexists. split; [by apply ensure_table_and_chart_result|].
  cbn [tables cells max_row].
  change (max_row (MkWorksheet ?t (cells ws) ?a ?b)) with (max_row ws).
  apply bind_table_again.
Qed.

Lemma table_bound_once_witness :
  ∃ ws1 ws2,
    ensure_table_and_chart ascii_isdigit sheet_one_row (str "7203.T") = Ok ws1
    ∧ ensure_table_and_chart ascii_isdigit ws1 (str "7203.T") = Ok ws2
    ∧ tables ws2 = tables ws1
    ∧ length (tables ws1) = 1%nat.
Proof.
  assert (3 ≤ max_row sheet_one_row) as Hmax by (by vm_compute).
  pose proof (ensure_table_and_chart_result ascii_isdigit sheet_one_row 55%N
                (str "203.T") Hmax) as H1.
  destruct (table_bound_once ascii_isdigit sheet_one_row _ 55%N (str "203.T")
              Hmax H1) as ((ws2 & H2 & Heq) & Hl & _ & (t & Hin & _)).
  eexists _, ws2. split_and!; [exact H1|exact H2|exact Heq|].
  by vm_compute.
Defined.

Lemma replace_char_removes (old new : char) (s : list N) :
  new ≠ old → Forall (fun c => c ≠ old) (replace_char old new s).
Proof.
  intros Hne. unfold replace_char. apply Forall_forall. intros c Hin.
  apply list_elem_of_In, in_map_iff in Hin as (c' & <- & _). by case_decide.
Qed.

Lemma replace_char_keeps_Forall (old new x : char) (s : list N) :
  new ≠ x → Forall (fun c => c ≠ x) s →
  Forall (fun c => c ≠ x) (replace_char old new s).
Proof.
  intros Hne Hs. unfold replace_char. apply Forall_forall. intros c Hin.
  apply list_elem_of_In, in_map_iff in Hin as (c' & <- & Hin').
  case_decide; [done|]. eapply Forall_forall in Hs; [done|].
  by apply list_elem_of_In.
Qed.

Lemma safe_table_name_valid (isdigit : char -> bool) (sheet_name : list N) :
  isdigit (chr "t") = false →
  (length (safe_table_name isdigit sheet_name) ≤ 255)%nat
  ∧ Forall (fun c => c ≠ chr " " ∧ c ≠ chr "." ∧ c ≠ chr "-")
           (safe_table_name isdigit sheet_name)
  ∧ ∀ c, head (safe_table_name isdigit sheet_name) = Some c → isdigit c = false.
Proof.
  intros Ht. unfold safe_table_name.
  set (sn := replace_char (chr "-") (chr "_")
               (replace_char (chr ".") (chr "_")
                  (replace_char (chr " ") (chr "_") sheet_name))).
  assert (Forall (fun c => c ≠ chr " " ∧ c ≠ chr "." ∧ c ≠ chr "-") sn) as Hsn.
  { subst sn. rewrite !Forall_and. split_and!.
    - do 2 (apply replace_char_keeps_Forall; [by vm_compute|]).
      apply replace_char_removes. by vm_compute.
    - apply replace_char_keeps_Forall; [by vm_compute|].
      apply replace_char_removes. by vm_compute.
    - apply replace_char_removes. by vm_compute. }
  split_and!.
  - rewrite length_take. lia.
  - apply Forall_take. destruct sn as [|c1 sn']; [constructor|].
    destruct (isdigit c1); [|done].
    apply Forall_app. split; [|done].
    repeat constructor; by vm_compute.
  - intros c Hc. destruct sn as [|c1 sn']; [done|].
    destruct (isdigit c1) eqn:Hd.
    + simpl in Hc. injection Hc as <-. exact Ht.
    + simpl in Hc. by injection Hc as <-.
Qed.

(** X11.  The table a call binds has a display name that is usable as a
    table name: it is at most 255 characters long, contains no space, dot
    or hyphen, and does not start with a digit (a name that would gets the
    prefix [tbl_]). *)
Theorem table_name_is_valid (isdigit : char -> bool) (ws ws1 : Worksheet)
    (c0 : char) (name : list N) :
  3 ≤ max_row ws →
  isdigit (chr "t") = false →
  ensure_table_and_chart isdigit ws (c0 :: name) = Ok ws1 →
  ∃ t,
    t ∈ tables ws1
    ∧ ref t = table_ref_of (max_row ws)
    ∧ (length (displayName t) ≤ 255)%nat
    ∧ Forall (fun c => c ≠ chr " " ∧ c ≠ chr "." ∧ c ≠ chr "-") (displayName t)
    ∧ ∀ c, head (displayName t) = Some c → isdigit c = false.
Proof.
  intros Hmax Ht H1. rewrite ensure_table_and_chart_result in H1 by done.
  injection H1 as <-.
  destruct (bind_table_spec (safe_table_name isdigit (c0 :: name))
              (table_ref_of (max_row ws)) (tables ws)) as (_ & _ & (t & Hin & Hn & Hr)).
  destruct (safe_table_name_valid isdigit (c0 :: name) Ht) as (Hl & Hf & Hh).
  exists t. rewrite Hn. by split_and!.
Qed.

Lemma table_name_is_valid_witness :
  ∃ ws1 t,
    ensure_table_and_chart ascii_isdigit sheet_one_row (str "7203.T") = Ok ws1
    ∧ t ∈ tables ws1
    ∧ ref t = str "A3:G4"
    ∧ ∀ c, head (displayName t) = Some c → ascii_isdigit c = false.
Proof.
  assert (3 ≤ max_row sheet_one_row) as Hmax by (by vm_compute).
  pose proof (ensure_table_and_chart_result ascii_isdigit sheet_one_row 55%N
                (str "203.T") Hmax) as H1.
  destruct (table_name_is_valid ascii_isdigit sheet_one_row _ 55%N (str "203.T")
              Hmax eq_refl H1) as (t & Hin & Hr & _ & _ & Hh).
  eexists _, t. split_and!; [exact H1|exact Hin| |exact Hh].
  rewrite Hr. by vm_compute.
Defined.

Lemma max_row_merged (strptime_ymd : list N -> option Z) (ws : Worksheet)
    (df : list Row) :
  df ≠ [] →
  sorted_keys (merged_map strptime_ymd ws df) ≠ []
  ∧ max_row (merge_and_write_data strptime_ymd ws df)
    = 3 + Z.of_nat (length (sorted_keys (merged_map strptime_ymd ws df))).
Proof.
  intros Hdf.
  assert (sorted_keys (merged_map strptime_ymd ws df) ≠ []) as Hne.
  { destruct df as [|r df]; [done|].
    assert (row_date r ∈ sorted_keys (merged_map strptime_ymd ws (r :: df))) as Hin.
    { apply elem_of_sorted_keys. unfold merged_map.
      apply merge_fetched_is_Some. right. left. }
    intros Heq. rewrite Heq in Hin. by apply elem_of_nil in Hin. }
  split; [done|].
  pose proof (merged_sheet_rows strptime_ymd ws df) as Hrows.
  apply (f_equal length) in Hrows. rewrite !length_seqZ in Hrows.
  assert (length (sorted_keys (merged_map strptime_ymd ws df)) ≠ 0%nat).
  { by destruct (sorted_keys _). }
  lia.
Qed.

(** X12.  In a run, the binder is never skipped and binds the whole
    extent: after the merge of a non-empty frame, a call of
    [ensure_table_and_chart] (with a non-empty sheet name) that returns
    has left the cells as the merge left them, has bound the table of the
    derived name to [A3:G<last>], where [last] is the row of the last
    merged date, and has added one chart whose series and categories end
    at that row. *)
Theorem binding_after_merge (strptime_ymd : list N -> option Z)
    (isdigit : char -> bool) (ws ws' : Worksheet) (df : list Row)
    (c0 : char) (name : list N) :
  df ≠ [] →
  let merged := merge_and_write_data strptime_ymd ws df in
  let last := 3 + Z.of_nat (length (sorted_keys (merged_map strptime_ymd ws df))) in
  ensure_table_and_chart isdigit merged (c0 :: name) = Ok ws' →
  4 ≤ last
  ∧ cells ws' = cells merged
  ∧ (∃ t, t ∈ tables ws'
          ∧ displayName t = safe_table_name isdigit (c0 :: name)
          ∧ ref t = table_ref_of last)
  ∧ charts ws' = charts ws ++ [line_chart (c0 :: name) last].
Proof.
  intros Hdf merged last H1.
  destruct (max_row_merged strptime_ymd ws df Hdf) as [Hne Hmax].
  fold merged last in Hmax.
  assert (4 ≤ last) as Hlast.
  { subst last. destruct (sorted_keys _); [done|]. simpl. lia. }
  split; [done|].
  rewrite ensure_table_and_chart_result in H1 by lia. injection H1 as <-.
  destruct (bind_table_spec (safe_table_name isdigit (c0 :: name))
              (table_ref_of last) (tables merged)) as (_ & _ & Ht).
  rewrite Hmax. cbn [cells tables charts]. split_and!; [done..|].
  pose proof (bindings_merge strptime_ymd ws df) as Hb. unfold bindings in Hb.
  fold merged in Hb. by injection Hb as _ _ ->.
Qed.

Lemma binding_after_merge_witness :
  ∃ ws' t,
    ensure_table_and_chart ascii_isdigit
      (merge_and_write_data strptime_ymd_ascii sheet_S fetched_S) (str "7203.T")
    = Ok ws'
    ∧ t ∈ tables ws'
    ∧ ref t = str "A3:G4".
Proof.
  assert (3 ≤ max_row (merge_and_write_data strptime_ymd_ascii sheet_S fetched_S))
    as Hmax by (by vm_compute).
  pose proof (ensure_table_and_chart_result ascii_isdigit _ 55%N (str "203.T") Hmax)
    as H1.
  assert (fetched_S ≠ []) as Hdf by done.
  destruct (binding_after_merge strptime_ymd_ascii ascii_isdigit sheet_S _ fetched_S
              55%N (str "203.T") Hdf H1) as (_ & _ & (t & Hin & _ & Hr) & _).
  eexists _, t. split_and!; [exact H1|exact Hin|].
  rewrite Hr. by vm_compute.
Defined.

(* ===================================================================== *)
(** * The sheet lookup, opening and saving *)
(* ===================================================================== *)

Lemma sheet_index_lt (wb : list Worksheet) (name : list N) (i : nat) :
  sheet_index wb name = Some i → (i < length wb)%nat.
Proof.
  intros H. apply sheet_index_Some in H as [(ws & Hl & _) _].
  by eapply lookup_lt_Some.
Qed.

Lemma sheet_index_in (wb : list Worksheet) (name : list N) :
  is_Some (sheet_index wb name) ↔ name ∈ sheetnames wb.
Proof.
  unfold sheetnames. split.
  - intros [i Hi]. apply sheet_index_Some in Hi as [(ws & Hl & <-) _].
    apply list_elem_of_In, in_map, list_elem_of_In.
    by eapply list_elem_of_lookup_2.
  - intros Hin. destruct (sheet_index wb name) as [i|] eqn:Hs; [eauto|].
    apply sheet_index_None in Hs.
    apply list_elem_of_In, in_map_iff in Hin as (ws & Ht & Hin).
    apply list_elem_of_In in Hin. eapply Forall_forall in Hs; [|done]. done.
Qed.

Lemma Forall_not_bad (s : list N) :
  forallb (fun c => negb (bool_decide (c ∈ bad_chars))) s = true →
  Forall (fun c => c ∉ bad_chars) s.
Proof.
  intros H. apply Forall_forall. intros c Hin.
  apply list_elem_of_In in Hin.
  rewrite forallb_forall in H. specialize (H c Hin).
  apply negb_true_iff in H. by apply bool_decide_eq_false_1 in H.
Qed.

(** X13.  The sheet lookup of a run never loses anything.  For a sheet
    name free of the characters a title may not hold (as every name
    [build_sheet_name] returns is): every sheet of the workbook is still at
    its position afterwards with the cells, tables and charts it had; a
    sheet is added only when neither the sheet name nor the bare ticker is
    a title, it is added at the end, it is empty, and it is the sheet
    returned; otherwise the number of sheets stays and an existing sheet
    is returned. *)
Theorem sheet_lookup_keeps_sheets (lower : list N -> list N)
    (numbered : list (list N) -> list N -> list N) (wb : list Worksheet)
    (ticker sheet_name : list N) :
  Forall (fun c => c ∉ bad_chars) sheet_name →
  let res := get_or_create_sheet lower numbered wb ticker sheet_name in
  Forall2 (fun ws ws' => cells ws' = cells ws ∧ tables ws' = tables ws
                         ∧ charts ws' = charts ws)
          wb (take (length wb) res.1)
  ∧ if bool_decide (sheet_name ∈ sheetnames wb ∨ ticker ∈ sheetnames wb)
    then length res.1 = length wb ∧ (res.2 < length wb)%nat
    else ∃ ws_new, res.1 = wb ++ [ws_new] ∧ res.2 = length wb
                   ∧ cells ws_new = ∅ ∧ tables ws_new = [] ∧ charts ws_new = [].
Proof.
  intros _ res. subst res. unfold get_or_create_sheet.
  assert (Forall2 (fun ws ws' => cells ws' = cells ws ∧ tables ws' = tables ws
                                 ∧ charts ws' = charts ws) wb wb) as Hrefl.
  { apply Forall2_same_length_lookup_2; [done|].
    intros i x y Hx Hy. rewrite Hx in Hy. by injection Hy as <-. }
  destruct (sheet_index wb sheet_name) as [i|] eqn:Hs.
  - simpl. rewrite firstn_all. split; [done|].
    rewrite bool_decide_eq_true_2 by (left; apply sheet_index_in; eauto).
    split; [done|by eapply sheet_index_lt].
  - destruct (sheet_index wb ticker) as [i|] eqn:Ht; simpl.
    + split.
      * set (f := fun ws => rename_sheet ws _).
        rewrite <- (length_alter f wb i) at 1.
        rewrite firstn_all.
        apply Forall2_same_length_lookup_2; [by rewrite length_alter|].
        intros j x y Hx Hy.
        destruct (decide (i = j)) as [->|Hne].
        -- rewrite list_lookup_alter_eq, Hx in Hy. by injection Hy as <-.
        -- rewrite list_lookup_alter_ne, Hx in Hy by done. by injection Hy as <-.
      * rewrite bool_decide_eq_true_2 by (right; apply sheet_index_in; eauto).
        split; [apply length_alter|by eapply sheet_index_lt].
    + split.
      * by rewrite take_app_length.
      * rewrite bool_decide_eq_false_2.
        -- eexists. split_and!; done.
        -- intros [H|H]; apply sheet_index_in in H as [? H]; congruence.
Qed.

Lemma sheet_lookup_keeps_sheets_witness :
  Forall2 (fun ws ws' => cells ws' = cells ws ∧ tables ws' = tables ws
                         ∧ charts ws' = charts ws)
          [sheet_A]
          (take 1 (get_or_create_sheet lower_ascii first_counter [sheet_A]
                     (str "6758.T") (str "6758.T_Sony")).1).
Proof.
  refine (proj1 (sheet_lookup_keeps_sheets lower_ascii first_counter [sheet_A]
                   (str "6758.T") (str "6758.T_Sony") _)).
  apply Forall_not_bad. reflexivity.
Defined.

(** X14.  A region saved under the bare ticker by an earlier version is
    taken over, not duplicated: when no sheet has the sheet name (a name
    free of the characters a title may not hold) but one is titled by the
    ticker, the lookup returns that sheet, with its cells, tables and
    charts, and the workbook has as many sheets as before. *)
Theorem legacy_sheet_is_taken_over (lower : list N -> list N)
    (numbered : list (list N) -> list N -> list N) (wb : list Worksheet)
    (ticker sheet_name : list N) (i : nat) :
  Forall (fun c => c ∉ bad_chars) sheet_name →
  sheet_name ∉ sheetnames wb →
  sheet_index wb ticker = Some i →
  let res := get_or_create_sheet lower numbered wb ticker sheet_name in
  res.2 = i
  ∧ length res.1 = length wb
  ∧ ∃ ws ws', wb !! i = Some ws ∧ ws_title ws = ticker
              ∧ res.1 !! i = Some ws'
              ∧ cells ws' = cells ws ∧ tables ws' = tables ws
              ∧ charts ws' = charts ws.
Proof.
  intros _ Hname Ht res. subst res. unfold get_or_create_sheet.
  destruct (sheet_index wb sheet_name) as [j|] eqn:Hs.
  { exfalso. apply Hname, sheet_index_in. eauto. }
  rewrite Ht. simpl. split; [done|]. split; [by rewrite length_alter|].
  apply sheet_index_Some in Ht as [(ws & Hl & Hti) _].
  eexists ws, _. split; [done|]. split; [done|]. split.
  - by rewrite list_lookup_alter_eq, Hl.
  - done.
Qed.

Lemma legacy_sheet_is_taken_over_witness :
  (get_or_create_sheet lower_ascii first_counter
     [new_sheet (str "README"); sheet_A]
     (str "7203.T") (str "7203.T_Toyota")).2 = 1%nat
  ∧ length (get_or_create_sheet lower_ascii first_counter
              [new_sheet (str "README"); sheet_A]
              (str "7203.T") (str "7203.T_Toyota")).1 = 2%nat.
Proof.
  destruct (legacy_sheet_is_taken_over lower_ascii first_counter
              [new_sheet (str "README"); sheet_A]
              (str "7203.T") (str "7203.T_Toyota") 1) as (H1 & H2 & _).
  - apply Forall_not_bad. reflexivity.
  - unfold sheetnames. intros Hin%list_elem_of_In. vm_compute in Hin.
    destruct Hin as [Hin|[Hin|[]]]; discriminate Hin.
  - by vm_compute.
  - split; [exact H1|exact H2].
Defined.

Section StoreMore.

Variable serialise : list Worksheet -> list N.

Lemma save_workbook_safely_retry (wb : list Worksheet) (n : nat)
    (rest : list attempt) (w : World) :
  ∃ w',
    save_workbook_safely serialise wb
      (replicate n (Locked true) ++ Succeeds :: rest) w = (Returned true, w')
    ∧ disk w' = Some (serialise wb)
    ∧ log w' = log w
    ∧ status w' = status w
    ∧ dialogs w' = dialogs w ++ replicate n (str "保存できません") ++ [str "完了"].
Proof.
  revert w. induction n as [|n IH]; intros w; simpl.
  - eexists. split; [reflexivity|]. done.
  - destruct (IH (show_dialog (str "保存できません") w)) as (w' & -> & Hd & Hl & Hs & Hdl).
    exists w'. split_and!; [done..|].
    rewrite Hdl. simpl. by rewrite <- app_assoc.
Qed.

(** X15.  When the file is released after any number of retries, the save
    goes through: the file then holds the serialised workbook, the user
    has seen one retry dialog per locked attempt and the completion
    dialog, and the run reports completion. *)
Theorem save_succeeds_after_retries (wb : list Worksheet)
    (excel_path : list N) (n : nat) (rest : list attempt) (w : World) :
  let passes := replicate n (Locked true) ++ Succeeds :: rest in
  let w' := save_phase serialise wb excel_path passes w in
  disk w' = Some (serialise wb)
  ∧ dialogs w' = dialogs w ++ replicate n (str "保存できません") ++ [str "完了"]
  ∧ log w' = log w ++ [msg_all_done ++ excel_path]
  ∧ status w' = status w ++ [(msg_status_saving, Some 95);
                             (msg_status_done, Some 100)].
Proof.
  intros passes w'. subst passes w'. unfold save_phase.
  destruct (save_workbook_safely_retry wb n rest
              (status_safe msg_status_saving (Some 95) w))
    as (w1 & -> & Hd & Hl & Hs & Hdl).
  simpl. rewrite Hd, Hl, Hs, Hdl. simpl. by rewrite <- app_assoc.
Qed.

(** X16.  While the file stays locked and the user keeps retrying, the
    save neither returns nor touches the file; and whatever the attempts
    meet, the file is written only by an attempt that goes through or one
    that fails for another reason than the lock. *)
Theorem save_writes_only_when_unlocked (wb : list Worksheet)
    (passes : list attempt) (w : World) :
  Forall (fun a => ∃ retry, a = Locked retry) passes →
  disk (save_workbook_safely serialise wb passes w).2 = disk w
  ∧ (Forall (fun a => a = Locked true) passes →
     (save_workbook_safely serialise wb passes w).1 = Asking).
Proof.
  intros Hall. revert w.
  induction Hall as [|a passes [retry ->] _ IH]; intros w; simpl; [done|].
  destruct retry.
  - destruct (IH (show_dialog (str "保存できません") w)) as [Hd Ha].
    split; [by rewrite Hd|]. intros H. apply Forall_cons in H as [_ H]. auto.
  - split; [done|]. intros H. by apply Forall_cons in H as [H _].
Qed.

Lemma open_loop_disk (loaded : list Worksheet) (passes : list attempt) :
  ∀ w, disk (open_loop loaded passes w).2 = disk w.
Proof.
  induction passes as [|a passes IH]; intros w; simpl; [done|].
  destruct a as [|[]|]; simpl; [done|by rewrite IH|done|done].
Qed.

(** X17.  Opening never writes the file, whatever the attempts meet; and
    when the file does not exist a new workbook is returned at once, with
    no dialog and no log line. *)
Theorem open_never_writes (loaded : list Worksheet) (passes : list attempt)
    (w : World) :
  disk (open_workbook_safely loaded passes w).2 = disk w
  ∧ (disk w = None →
     open_workbook_safely loaded passes w = (Returned (Some new_workbook), w)).
Proof.
  unfold open_workbook_safely. destruct (disk w) eqn:Hd.
  - split; [|done]. by rewrite open_loop_disk.
  - done.
Qed.

(** X18.  Opening an existing file: after any number of retries on a
    locked file, cancel returns no workbook and logs the cancellation, a
    successful load returns the loaded workbook, and a read failure of
    another kind returns a new workbook and logs the error; in all three
    cases the user has seen one dialog per locked attempt. *)
Theorem open_outcomes (loaded : list Worksheet) (n : nat) (rest : list attempt)
    (msg : list N) (remains : option (list N)) (w : World) :
  disk w ≠ None →
  let asked k := MkWorld (disk w) (log w) (status w)
                   (dialogs w ++ replicate k (str "ファイルが開かれています")) in
  open_workbook_safely loaded (replicate n (Locked true) ++ Locked false :: rest) w
  = (Returned None, log_safe msg_open_cancelled (asked (S n)))
  ∧ open_workbook_safely loaded (replicate n (Locked true) ++ Succeeds :: rest) w
    = (Returned (Some loaded), asked n)
  ∧ open_workbook_safely loaded
      (replicate n (Locked true) ++ Fails msg remains :: rest) w
    = (Returned (Some new_workbook), log_safe (msg_read_error ++ msg) (asked n)).
Proof.
  intros Hd asked. unfold open_workbook_safely.
  destruct (disk w) as [content|] eqn:Hdisk; [|done]. clear Hd.
  assert (∀ k (w0 : World) tail,
    open_loop loaded (replicate k (Locked true) ++ tail) w0
    = open_loop loaded tail
        (MkWorld (disk w0) (log w0) (status w0)
           (dialogs w0 ++ replicate k (str "ファイルが開かれています")))) as Hloop.
  { induction k as [|k IH]; intros w0 tail; simpl.
    - rewrite app_nil_r. by destruct w0.
    - rewrite IH. simpl. by rewrite <- app_assoc. }
  subst asked. rewrite !Hloop. simpl. rewrite Hdisk.
  split_and!; try done.
  unfold log_safe, show_dialog. simpl. do 2 f_equal.
  rewrite <- app_assoc. f_equal.
  change (str "ファイルが開かれています" :: replicate n (str "ファイルが開かれています"))
    with (replicate (S n) (str "ファイルが開かれています")).
  by rewrite <- replicate_S_end.
Qed.

End StoreMore.

Lemma save_writes_only_when_unlocked_witness :
  disk (save_workbook_safely (fun _ => []) [sheet_A] [Locked true; Locked true]
          (MkWorld (Some (str "old")) [] [] [])).2 = Some (str "old").
Proof.
  apply (save_writes_only_when_unlocked (fun _ => []) [sheet_A]
           [Locked true; Locked true] (MkWorld (Some (str "old")) [] [] [])).
  repeat constructor; by exists true.
Defined.

Lemma open_outcomes_witness :
  open_workbook_safely [sheet_A] ([Locked true] ++ [Locked false])
    (MkWorld (Some (str "old")) [] [] [])
  = (Returned None,
     MkWorld (Some (str "old")) [msg_open_cancelled] []
             [str "ファイルが開かれています"; str "ファイルが開かれています"]).
Proof.
  refine (proj1 (open_outcomes [sheet_A] 1 [] [] None
                   (MkWorld (Some (str "old")) [] [] []) _)).
  discriminate.
Defined.

(* ===================================================================== *)
(** * The header of a region *)
(* ===================================================================== *)

Lemma setup_worksheet_header_present (wst : Worksheet * Styles)
    (ticker name_ja : list N) :
  cell_value wst.1 (3, 1) ≠ VNone →
  setup_worksheet_header wst ticker name_ja = Ok wst.
Proof.
  intros H. unfold setup_worksheet_header.
  destruct (cell_value wst.1 (3, 1)); done.
Qed.

Lemma setup_worksheet_header_refused (wst : Worksheet * Styles)
    (ticker name_ja : list N) (e : exn) :
  cell_value wst.1 (3, 1) = VNone →
  check_string (ticker ++ str " : " ++ name_ja) = Raise e →
  setup_worksheet_header wst ticker name_ja = Raise e.
Proof.
  intros Hnone He. unfold setup_worksheet_header. by rewrite Hnone, He.
Qed.

Lemma check_string_legal (s : list N) :
  Forall (fun c => illegal_char c = false) s →
  check_string s = Ok (take (Z.to_nat 32767) s).
Proof.
  intros H. unfold check_string.
  destruct (existsb illegal_char (take (Z.to_nat 32767) s)) eqn:E; [|done].
  apply existsb_exists in E as (c & Hin & Hc).
  apply list_elem_of_In in Hin.
  apply (Forall_take _ (Z.to_nat 32767)) in H.
  eapply Forall_forall in H; [|done]. congruence.
Qed.

Lemma check_string_illegal (s : list N) (c : char) :
  (length s ≤ Z.to_nat 32767)%nat →
  c ∈ s →
  illegal_char c = true →
  ∃ e, check_string s = Raise e.
Proof.
  intros Hlen Hin Hc. unfold check_string. rewrite take_ge by done.
  rewrite (proj2 (existsb_exists illegal_char s)); [eauto|].
  exists c. split; [by apply list_elem_of_In|done].
Qed.

Lemma cell_value_merge_title_cells (ws : Worksheet) (st : Styles) (rc : Z * Z) :
  cell_value (merge_title_cells (ws, st)).1 rc =
  if bool_decide (rc ∈ [(1, 2); (1, 3); (1, 4)]) then VNone else cell_value ws rc.
Proof.
  unfold merge_title_cells, cell_value. cbn [fst snd foldl cells with_cells].
  case_bool_decide as Hin.
  - rewrite !elem_of_cons, elem_of_nil in Hin.
    destruct Hin as [->|[->|[->|[]]]];
      rewrite ?lookup_insert_eq; try done.
    + rewrite lookup_insert_ne by done. rewrite lookup_insert_ne by done.
      by rewrite lookup_insert_eq.
    + rewrite lookup_insert_ne by done. by rewrite lookup_insert_eq.
  - rewrite !elem_of_cons, elem_of_nil in Hin.
    rewrite !lookup_insert_ne; [done|intros <-; tauto..].
Qed.

Lemma header_loop_sheet (l : list (Z * value)) :
  ∀ wst : Worksheet * Styles,
    (foldl write_header_cell wst l).1
    = foldl (fun ws cv => ws_cell ws 3 cv.1 cv.2) wst.1 l.
Proof.
  induction l as [|cv l IH]; intros wst; simpl; [done|]. by rewrite IH.
Qed.

Lemma cell_value_fill_cols (r : Z) (values : list value) :
  ∀ (k : Z) (ws : Worksheet) (r' c' : Z),
    cell_value (foldl (fun ws cv => ws_cell ws r cv.1 cv.2) ws (enumerate k values))
               (r', c') =
    match (if decide (r' = r) then
             if bool_decide (k ≤ c') then values !! Z.to_nat (c' - k) else None
           else None) with
    | Some v => assigned v (cell_value ws (r', c'))
    | None => cell_value ws (r', c')
    end.
Proof.
  induction values as [|v vs IH]; intros k ws r' c'; simpl.
  - by repeat (case_decide || case_bool_decide).
  - rewrite IH, cell_value_ws_cell.
    destruct (decide (r' = r)) as [->|Hr].
    + destruct (decide (c' = k)) as [->|Hc].
      * rewrite bool_decide_eq_false_2 by lia.
        rewrite bool_decide_eq_true_2 by lia.
        rewrite decide_True by done. by rewrite Z.sub_diag.
      * rewrite (decide_False (P := (r, c') = (r, k))) by congruence.
        case_bool_decide as Hk.
        -- rewrite bool_decide_eq_true_2 by lia.
           replace (Z.to_nat (c' - k)) with (S (Z.to_nat (c' - (k + 1)))) by lia.
           done.
        -- case_bool_decide as Hk'; [|done].
           replace c' with k in Hc by lia. done.
    + by rewrite decide_False by congruence.
Qed.

(** The cells after the header has been written on a sheet that had
    none. *)
Lemma setup_worksheet_header_cells (ws : Worksheet) (st : Styles)
    (ticker name_ja title : list N) :
  cell_value ws (3, 1) = VNone →
  check_string (ticker ++ str " : " ++ name_ja) = Ok title →
  ∃ wst',
    setup_worksheet_header (ws, st) ticker name_ja = Ok wst'
    ∧ ∀ r c,
        cell_value wst'.1 (r, c) =
        if bool_decide (r = 3 ∧ 1 ≤ c ≤ 7) then default VNone (at_column headers c)
        else if bool_decide (r = 1 ∧ c = 1) then VStr title
        else if bool_decide (r = 1 ∧ 2 ≤ c ≤ 4) then VNone
        else cell_value ws (r, c).
Proof.
  intros Hnone Hcheck. unfold setup_worksheet_header. cbn [fst snd].
  rewrite Hnone, Hcheck. cbn [is_none].
  eexists. split; [reflexivity|]. intros r c. cbn [fst snd].
  rewrite header_loop_sheet, cell_value_fill_cols, cell_value_merge_title_cells,
    cell_value_ws_cell.
  unfold at_column, assigned. cbn [is_none].
  assert (∀ x y : Z, (x, y) ∈ [(1, 2); (1, 3); (1, 4)] ↔ x = 1 ∧ 2 ≤ y ≤ 4) as Hcov.
  { intros x y. rewrite !elem_of_cons, elem_of_nil. split.
    - intros [H|[H|[H|[]]]]; injection H as -> ->; lia.
    - intros [-> Hy]. assert (y = 2 ∨ y = 3 ∨ y = 4) as [->|[->| ->]] by lia; auto. }
  destruct (decide (r = 3)) as [->|Hr3].
  - rewrite (bool_decide_eq_false_2 ((3, c) ∈ _)) by (rewrite Hcov; lia).
    rewrite (decide_False (P := (3, c) = (1, 1))) by congruence.
    rewrite (bool_decide_eq_false_2 (3 = 1 ∧ c = 1)) by lia.
    rewrite (bool_decide_eq_false_2 (3 = 1 ∧ 2 ≤ c ≤ 4)) by lia.
    case_bool_decide as Hc1.
    + destruct (headers !! Z.to_nat (c - 1)) as [v|] eqn:Hv.
      * rewrite bool_decide_eq_true_2
          by (apply lookup_lt_Some in Hv; simpl in Hv; lia).
        apply list_elem_of_lookup_2 in Hv. unfold headers in Hv.
        apply list_elem_of_In, in_map_iff in Hv as (h & <- & _). done.
      * apply lookup_ge_None in Hv. simpl in Hv.
        rewrite bool_decide_eq_false_2 by lia. done.
    + rewrite bool_decide_eq_false_2 by lia. done.
  - rewrite (bool_decide_eq_false_2 (r = 3 ∧ 1 ≤ c ≤ 7)) by lia.
    destruct (decide (r = 1 ∧ 2 ≤ c ≤ 4)) as [[-> Hc]|Hn].
    + rewrite (bool_decide_eq_false_2 (1 = 1 ∧ c = 1)) by lia.
      rewrite (bool_decide_eq_true_2 (1 = 1 ∧ 2 ≤ c ≤ 4)) by lia.
      rewrite bool_decide_eq_true_2; [done|]. rewrite Hcov. lia.
    + rewrite (bool_decide_eq_false_2 (r = 1 ∧ 2 ≤ c ≤ 4)) by done.
      rewrite (bool_decide_eq_false_2 ((r, c) ∈ _)) by (by rewrite Hcov).
      case_decide as Heq.
      * injection Heq as -> ->. by rewrite bool_decide_eq_true_2.
      * rewrite bool_decide_eq_false_2; [done|]. intros [-> ->]. done.
Qed.

Lemma setup_worksheet_header_populated (wst wst1 : Worksheet * Styles)
    (ticker name_ja : list N) :
  setup_worksheet_header wst ticker name_ja = Ok wst1 →
  cell_value wst1.1 (3, 1) ≠ VNone.
Proof.
  intros H.
  assert (cell_value wst.1 (3, 1) = VNone ∨ cell_value wst.1 (3, 1) ≠ VNone)
    as [Hnone|Hsome] by (destruct (cell_value wst.1 (3, 1)); auto).
  - destruct (check_string (ticker ++ str " : " ++ name_ja)) as [title|e] eqn:Hc.
    + destruct wst as [ws st]. simpl in Hnone.
      destruct (setup_worksheet_header_cells ws st ticker name_ja title Hnone Hc)
        as (wst' & Heq & Hcells).
      rewrite Heq in H. injection H as <-. rewrite Hcells. by vm_compute.
    + by rewrite (setup_worksheet_header_refused _ _ _ _ Hnone Hc) in H.
  - rewrite setup_worksheet_header_present in H by done. by injection H as <-.
Qed.

Lemma title_legal (ticker name_ja : list N) :
  Forall (fun c => illegal_char c = false) (ticker ++ name_ja) →
  Forall (fun c => illegal_char c = false) (ticker ++ str " : " ++ name_ja).
Proof.
  rewrite !Forall_app. intros [Ht Hn]. split_and!; [done| |done].
  repeat constructor.
Qed.

(** X19.  The header set-up never overwrites a layout: once it has run
    on a sheet and returned, running it again, with whatever ticker and
    name, returns and changes neither the sheet nor its styling. *)
Theorem header_setup_idempotent (wst wst1 : Worksheet * Styles)
    (ticker name_ja ticker' name_ja' : list N) :
  setup_worksheet_header wst ticker name_ja = Ok wst1 →
  setup_worksheet_header wst1 ticker' name_ja' = Ok wst1.
Proof.
  intros H. apply setup_worksheet_header_present.
  by eapply setup_worksheet_header_populated.
Qed.

Lemma header_setup_idempotent_witness :
  ∃ wst1,
    setup_worksheet_header (new_sheet (str "7203.T_Toyota"), no_styles)
      (str "7203.T") (str "Toyota") = Ok wst1
    ∧ setup_worksheet_header wst1 (str "6758.T") (str "Sony") = Ok wst1.
Proof.
  destruct (setup_worksheet_header (new_sheet (str "7203.T_Toyota"), no_styles)
              (str "7203.T") (str "Toyota")) as [wst1|e] eqn:H1.
  - exists wst1. split; [reflexivity|].
    exact (header_setup_idempotent _ wst1 _ _ (str "6758.T") (str "Sony") H1).
  - vm_compute in H1. discriminate H1.
Defined.

(** X20.  On a sheet without a header, and for a ticker and a name free
    of the control characters a cell refuses, the set-up returns; it has
    written the title (cut to 32767 characters) to A1 and the seven column
    headers to row 3, emptied B1 to D1 (merged into A1) and left every
    other cell, in particular every body row, as it was. *)
Theorem header_setup_writes_layout (ws : Worksheet) (st : Styles)
    (ticker name_ja : list N) :
  cell_value ws (3, 1) = VNone →
  Forall (fun c => illegal_char c = false) (ticker ++ name_ja) →
  ∃ ws' st',
    setup_worksheet_header (ws, st) ticker name_ja = Ok (ws', st')
    ∧ map (fun c => cell_value ws' (3, c)) (seqZ 1 7) = headers
    ∧ cell_value ws' (1, 1)
      = VStr (take (Z.to_nat 32767) (ticker ++ str " : " ++ name_ja))
    ∧ map (fun c => cell_value ws' (1, c)) (seqZ 2 3) = [VNone; VNone; VNone]
    ∧ ∀ r c, r ≠ 1 → r ≠ 3 → cell_value ws' (r, c) = cell_value ws (r, c).
Proof.
  intros Hnone Hlegal.
  destruct (setup_worksheet_header_cells ws st ticker name_ja _ Hnone
              (check_string_legal _ (title_legal _ _ Hlegal)))
    as ([ws' st'] & Heq & Hcells).
  exists ws', st'. cbn [fst] in Hcells. split; [done|]. split_and!.
  - apply (columns_of_row _ headers). intros c v Hc.
    rewrite Hcells.
    assert (1 ≤ c ≤ 7) as Hr.
    { unfold at_column in Hc. case_bool_decide; [|done].
      apply lookup_lt_Some in Hc. simpl in Hc. lia. }
    rewrite bool_decide_eq_true_2 by done. by rewrite Hc.
  - by rewrite Hcells.
  - cbn [seqZ map]. simpl. by rewrite !Hcells.
  - intros r c H1 H3. rewrite Hcells.
    rewrite !bool_decide_eq_false_2 by lia. done.
Qed.

Lemma header_setup_writes_layout_witness :
  ∃ ws' st',
    setup_worksheet_header (new_sheet (str "7203.T_Toyota"), no_styles)
      (str "7203.T") (str "Toyota") = Ok (ws', st')
    ∧ cell_value ws' (1, 1) = VStr (str "7203.T : Toyota").
Proof.
  destruct (header_setup_writes_layout (new_sheet (str "7203.T_Toyota"))
              no_styles (str "7203.T") (str "Toyota"))
    as (ws' & st' & Heq & _ & H1 & _).
  - reflexivity.
  - repeat constructor.
  - exists ws', st'. split; [exact Heq|]. rewrite H1. by vm_compute.
Defined.

(** X21.  A control character in the ticker or the name makes the header
    set-up of a sheet without a header raise (the title is refused as a
    cell value), when the title has at most 32767 characters. *)
Theorem header_setup_refuses_control_characters (ws : Worksheet) (st : Styles)
    (ticker name_ja : list N) (c : char) :
  cell_value ws (3, 1) = VNone →
  Z.of_nat (length (ticker ++ str " : " ++ name_ja)) ≤ 32767 →
  c ∈ ticker ++ name_ja →
  illegal_char c = true →
  ∃ e, setup_worksheet_header (ws, st) ticker name_ja = Raise e.
Proof.
  intros Hnone Hlen Hin Hc.
  destruct (check_string_illegal (ticker ++ str " : " ++ name_ja) c)
    as [e He]; [lia| |done|].
  - rewrite !elem_of_app. apply elem_of_app in Hin. tauto.
  - exists e. by apply setup_worksheet_header_refused.
Qed.

Lemma header_setup_refuses_control_characters_witness :
  ∃ e, setup_worksheet_header (new_sheet (str "7203.T"), no_styles)
         (str "7203.T") [7%N] = Raise e.
Proof.
  apply (header_setup_refuses_control_characters _ _ _ _ 7%N).
  - reflexivity.
  - vm_compute. discriminate.
  - apply elem_of_app. right. left.
  - reflexivity.
Defined.

(* ===================================================================== *)
(** * The master list, the date range and the left-over sheets *)
(* ===================================================================== *)

Section MasterProperties.

Variable strip : list N -> list N.

Lemma add_master_row_key (m : gmap (list N) (list N)) (row : master_row) :
  add_master_row strip m row =
  match master_key strip row, row.2 with
  | Some k, Some n => <[k := strip n]> m
  | _, _ => m
  end.
Proof.
  destruct row as [[[|t0 t]|] [[|n0 n]|]]; done.
Qed.

Lemma read_master_from (rows : list master_row) (k v : list N) :
  ∀ m : gmap (list N) (list N),
    foldl (add_master_row strip) m rows !! k = Some v →
    m !! k = Some v
    ∨ ∃ t n, (Some t, Some n) ∈ rows ∧ t ≠ [] ∧ n ≠ []
             ∧ strip t = k ∧ strip n = v.
Proof.
  induction rows as [|row rows IH]; intros m Hm; simpl in Hm; [by left|].
  apply IH in Hm as [Hm|(t & n & Hin & Hrest)].
  - destruct row as [[[|t0 t]|] [[|n0 n]|]]; simpl in Hm; try by left.
    rewrite lookup_insert in Hm. case_decide as Hk; [|by left].
    injection Hm as <-. right. exists (t0 :: t), (n0 :: n).
    split_and!; [left|done..].
  - right. exists t, n. split; [by right|done].
Qed.

(** X22.  Every entry of the master mapping read from an existing file
    comes from a row of the reading that succeeded (UTF-8 if it can be
    read so, else CP932) in which both the ticker and the name are
    present and non-empty; it maps the stripped ticker to the stripped
    name.  Rows that lack either field add nothing. *)
Theorem master_entries_from_complete_rows (utf8 cp932 : option (list master_row))
    (k v : list N) :
  (load_jp_stock_master strip (MasterPresent utf8 cp932)).1 !! k = Some v →
  ∃ rows t n,
    (utf8 = Some rows ∨ (utf8 = None ∧ cp932 = Some rows))
    ∧ (Some t, Some n) ∈ rows ∧ t ≠ [] ∧ n ≠ []
    ∧ strip t = k ∧ strip n = v.
Proof.
  intros H.
  assert (∀ rows, read_master strip rows !! k = Some v →
            ∃ t n, (Some t, Some n) ∈ rows ∧ t ≠ [] ∧ n ≠ []
                   ∧ strip t = k ∧ strip n = v) as Hread.
  { intros rows Hr. apply read_master_from in Hr as [Hr|Hr]; [|done].
    by rewrite lookup_empty in Hr. }
  destruct utf8 as [rows|]; [|destruct cp932 as [rows|]]; simpl in H.
  - destruct (Hread rows H) as (t & n & Hr). exists rows, t, n. split; [by left|done].
  - destruct (Hread rows H) as (t & n & Hr). exists rows, t, n.
    split; [by right|done].
  - by rewrite lookup_empty in H.
Qed.

(** X23.  When two rows of the master file give the same ticker, the
    later one decides the name. *)
Theorem master_last_row_wins (pre post : list master_row) (t0 n0 : char)
    (t n : list N) :
  Forall (fun row => master_key strip row ≠ Some (strip (t0 :: t))) post →
  read_master strip (pre ++ (Some (t0 :: t), Some (n0 :: n)) :: post)
    !! strip (t0 :: t) = Some (strip (n0 :: n)).
Proof.
  intros Hpost. unfold read_master. rewrite foldl_app. simpl.
  generalize (foldl (add_master_row strip) ∅ pre). intros m0.
  assert (∀ m1 : gmap (list N) (list N),
            m1 !! strip (t0 :: t) = Some (strip (n0 :: n)) →
            foldl (add_master_row strip) m1 post !! strip (t0 :: t)
            = Some (strip (n0 :: n))) as H.
  { induction Hpost as [|row post Hne _ IH]; intros m1 Hm1; [done|].
    simpl. apply IH. rewrite add_master_row_key.
    destruct (master_key strip row) as [k'|]; [|done].
    destruct row.2; [|done]. rewrite lookup_insert_ne; [done|congruence]. }
  apply H, lookup_insert_eq.
Qed.

End MasterProperties.

Lemma master_entries_from_complete_rows_witness :
  ∃ rows t n,
    (Some [(Some (str " 7203.T "), Some (str "Toyota")); (Some (str "9999"), None)]
       = Some rows
     ∨ (Some [(Some (str " 7203.T "), Some (str "Toyota")); (Some (str "9999"), None)]
          = None ∧ None = Some rows))
    ∧ (Some t, Some n) ∈ rows ∧ t ≠ [] ∧ n ≠ []
    ∧ strip_ascii t = str "7203.T" ∧ strip_ascii n = str "Toyota".
Proof.
  apply (master_entries_from_complete_rows strip_ascii
           (Some [(Some (str " 7203.T "), Some (str "Toyota"));
                  (Some (str "9999"), None)]) None).
  by vm_compute.
Defined.

Lemma master_last_row_wins_witness :
  read_master strip_ascii
    ([(Some (str "7203.T"), Some (str "Old name"))]
     ++ (Some (str "7203.T "), Some (str "Toyota")) :: [(Some (str "9999"), None)])
    !! str "7203.T" = Some (str "Toyota").
Proof.
  apply (master_last_row_wins strip_ascii
           [(Some (str "7203.T"), Some (str "Old name"))]
           [(Some (str "9999"), None)] 55%N 84%N (str "203.T ") (str "oyota")).
  repeat constructor. discriminate.
Defined.

(** X24.  A run asks for a start/end range only in mode 4 with two dates
    that parse; in mode 4 with a date that does not parse it warns and
    asks, like every mode other than 2 and 3, for the last day; otherwise
    it asks for the period of the mode and logs nothing. *)
Theorem range_requested_only_for_valid_dates (strptime_ymd : list N -> option Z)
    (mode : Z) (start_text end_text : list N) (w : World) :
  let plan := date_range_of strptime_ymd mode start_text end_text w in
  kw_span (history_request plan.1.1 plan.1.2) =
    (match strptime_ymd start_text, strptime_ymd end_text with
     | Some s, Some e => if mode =? 4 then StartEnd s e else Period (period_map mode)
     | _, _ => Period (period_map mode)
     end)
  ∧ plan.2 =
    (match strptime_ymd start_text, strptime_ymd end_text with
     | Some _, Some _ => w
     | _, _ => if mode =? 4 then log_safe msg_bad_dates w else w
     end).
Proof.
  unfold date_range_of, history_request.
  destruct (mode =? 4) eqn:Hm.
  - apply Z.eqb_eq in Hm as ->.
    destruct (strptime_ymd start_text), (strptime_ymd end_text); done.
  - destruct (strptime_ymd start_text), (strptime_ymd end_text); simpl;
      by rewrite ?Hm.
Qed.

Lemma filter_all {A} (P : A → Prop) `{∀ x, Decision (P x)} (l : list A) :
  Forall P l → filter P l = l.
Proof.
  induction 1 as [|x l Hx _ IH]; [done|].
  by rewrite filter_cons_True, IH.
Qed.

Lemma length_remove_sheet (title : list N) (wb : list Worksheet) :
  (length wb ≤ S (length (remove_sheet title wb)))%nat.
Proof.
  induction wb as [|ws wb IH]; simpl; [lia|].
  case_decide; simpl; lia.
Qed.

Lemma remove_sheet_filter (title : list N) (wb : list Worksheet) :
  NoDup (sheetnames wb) →
  remove_sheet title wb = filter (fun ws => ws_title ws ≠ title) wb.
Proof.
  unfold sheetnames. induction wb as [|ws wb IH]; intros Hnd; simpl; [done|].
  apply NoDup_cons in Hnd as [Hws Hnd].
  case_decide as Ht.
  - rewrite filter_cons_False by (intros H; by apply H).
    symmetry. apply filter_all, Forall_forall. intros ws' Hin Heq.
    apply Hws. rewrite Ht, <- Heq.
    by apply list_elem_of_In, in_map, list_elem_of_In.
  - rewrite filter_cons_True by done. by rewrite IH.
Qed.

Lemma filter_titles_keep (title : list N) (wb : list Worksheet) :
  title ∉ sheetnames wb → filter (fun ws => ws_title ws ≠ title) wb = wb.
Proof.
  intros Hn. apply filter_all, Forall_forall. intros ws Hin Heq.
  apply Hn. rewrite <- Heq. unfold sheetnames.
  by apply list_elem_of_In, in_map, list_elem_of_In.
Qed.

(** X25.  Removing the left-over default sheets never empties a
    workbook. *)
Theorem remove_trash_sheets_keeps_a_sheet (wb : list Worksheet) :
  wb ≠ [] → remove_trash_sheets wb ≠ [].
Proof.
  intros Hne. unfold remove_trash_sheets. simpl.
  assert (∀ (b : list Worksheet) trash, b ≠ [] →
            (if bool_decide (trash ∈ sheetnames b) && (1 <? length b)%nat
             then remove_sheet trash b else b) ≠ []) as Hstep.
  { intros b trash Hb. destruct (bool_decide _ && _) eqn:Hc; [|done].
    apply andb_true_iff in Hc as [_ Hl]. apply Nat.ltb_lt in Hl.
    pose proof (length_remove_sheet trash b) as Hr.
    intros Heq. rewrite Heq in Hr. simpl in Hr. lia. }
  by do 2 apply Hstep.
Qed.

Lemma remove_trash_sheets_keeps_a_sheet_witness :
  remove_trash_sheets new_workbook ≠ [].
Proof. apply remove_trash_sheets_keeps_a_sheet. discriminate. Defined.

(** X26.  In a workbook with distinct titles that has a sheet of another
    title (the information sheet, a region), the sheets titled [Sheet] and
    [Sheet1] are removed and all other sheets stay, in their order. *)
Theorem remove_trash_sheets_removes_defaults (wb : list Worksheet) (keep : Worksheet) :
  NoDup (sheetnames wb) →
  keep ∈ wb →
  ws_title keep ∉ trash_titles →
  remove_trash_sheets wb = filter (fun ws => ws_title ws ∉ trash_titles) wb.
Proof.
  intros Hnd Hin Hkeep. unfold trash_titles in *.
  rewrite !not_elem_of_cons in Hkeep. destruct Hkeep as (Hk1 & Hk2 & _).
  assert (∀ (b : list Worksheet) trash,
            NoDup (sheetnames b) → keep ∈ b → ws_title keep ≠ trash →
            (if bool_decide (trash ∈ sheetnames b) && (1 <? length b)%nat
             then remove_sheet trash b else b)
            = filter (fun ws => ws_title ws ≠ trash) b) as Hstep.
  { intros b trash Hb Hinb Hne.
    destruct (decide (trash ∈ sheetnames b)) as [Ht|Ht].
    - rewrite bool_decide_eq_true_2 by done.
      assert ((1 <? length b)%nat = true) as ->.
      { apply Nat.ltb_lt. destruct b as [|x [|y b']]; simpl; [|exfalso|lia].
        - by apply elem_of_nil in Hinb.
        - apply list_elem_of_singleton in Hinb as <-.
          unfold sheetnames in Ht. simpl in Ht.
          apply list_elem_of_singleton in Ht. congruence. }
      simpl. by apply remove_sheet_filter.
    - rewrite bool_decide_eq_false_2 by done. simpl.
      by rewrite filter_titles_keep. }
  unfold remove_trash_sheets. cbn [foldl].
  rewrite (Hstep wb (str "Sheet") Hnd Hin Hk1).
  rewrite Hstep; [| | |done].
  - rewrite list_filter_filter. apply list_filter_iff. intros ws.
    rewrite !not_elem_of_cons. split; [|tauto]. intros [? ?].
    split_and!; [done..|apply not_elem_of_nil].
  - unfold sheetnames. change (map ?f ?l) with (f <$> l).
    apply NoDup_fmap_2_strong.
    + intros x y Hx Hy Heq. apply list_elem_of_filter in Hx as [_ Hx].
      apply list_elem_of_filter in Hy as [_ Hy].
      apply list_elem_of_lookup in Hx as [i Hi].
      apply list_elem_of_lookup in Hy as [j Hj].
      assert (i = j) as ->.
      { eapply NoDup_lookup; [exact Hnd|unfold sheetnames..].
        - change (map ?f ?l) with (f <$> l). by rewrite list_lookup_fmap, Hi.
        - change (map ?f ?l) with (f <$> l). by rewrite list_lookup_fmap, Hj, Heq. }
      congruence.
    + apply NoDup_filter. eapply NoDup_fmap_1. exact Hnd.
  - by apply list_elem_of_filter.
Qed.

Lemma remove_trash_sheets_removes_defaults_witness :
  map ws_title (remove_trash_sheets [new_sheet (str "README"); new_sheet (str "Sheet")])
  = [str "README"].
Proof.
  rewrite (remove_trash_sheets_removes_defaults
             [new_sheet (str "README"); new_sheet (str "Sheet")]
             (new_sheet (str "README"))).
  - by vm_compute.
  - unfold sheetnames. simpl. repeat constructor.
    + intros Hin%list_elem_of_singleton. vm_compute in Hin. discriminate Hin.
    + apply not_elem_of_nil.
  - left.
  - intros Hin%list_elem_of_In. vm_compute in Hin.
    destruct Hin as [Hin|[Hin|[]]]; discriminate Hin.
Defined.

(* ===================================================================== *)
(** * One instrument of a run *)
(* ===================================================================== *)

Lemma get_or_create_sheet_result (lower : list N -> list N)
    (numbered : list (list N) -> list N -> list N) (wb : list Worksheet)
    (ticker sheet_name : list N) :
  let res := get_or_create_sheet lower numbered wb ticker sheet_name in
  (res.2 < length res.1)%nat
  ∧ (length wb ≤ length res.1 ≤ S (length wb))%nat
  ∧ ∀ j ws, wb !! j = Some ws →
      ∃ ws', res.1 !! j = Some ws' ∧ cells ws' = cells ws
             ∧ tables ws' = tables ws ∧ charts ws' = charts ws.
Proof.
  intros res. subst res. unfold get_or_create_sheet.
  destruct (sheet_index wb sheet_name) as [i|] eqn:Hs; simpl.
  - split_and!; [by eapply sheet_index_lt|lia|lia|]. intros j ws Hj. eauto.
  - destruct (sheet_index wb ticker) as [i|] eqn:Ht; simpl.
    + rewrite length_alter. split_and!; [by eapply sheet_index_lt|lia|lia|].
      intros j ws Hj. destruct (decide (i = j)) as [->|Hne].
      * eexists. rewrite list_lookup_alter_eq, Hj. by split; [reflexivity|].
      * exists ws. by rewrite list_lookup_alter_ne.
    + rewrite length_app. simpl. split_and!; [lia|lia|lia|].
      intros j ws Hj. exists ws. split; [|done].
      rewrite lookup_app_l; [done|]. by eapply lookup_lt_Some.
Qed.

Lemma build_sheet_name_nonempty (ticker name_ja : list N) :
  ticker ≠ [] → ∃ c0 name, build_sheet_name ticker name_ja = c0 :: name.
Proof.
  intros Ht. unfold build_sheet_name. rewrite replace_bad_map.
  assert (∃ b0 base, sheet_base ticker name_ja = b0 :: base) as (b0 & base & ->).
  { unfold sheet_base. destruct ticker as [|t0 t]; [done|].
    destruct name_ja; simpl; eauto. }
  simpl. eauto.
Qed.

Lemma get_or_create_sheet_tables (lower : list N -> list N)
    (numbered : list (list N) -> list N -> list N) (wb : list Worksheet)
    (ticker sheet_name : list N) (ws' : Worksheet) :
  ws' ∈ (get_or_create_sheet lower numbered wb ticker sheet_name).1 →
  tables ws' = [] ∨ ∃ ws, ws ∈ wb ∧ tables ws = tables ws'.
Proof.
  unfold get_or_create_sheet.
  destruct (sheet_index wb sheet_name) as [i|]; simpl; [eauto|].
  destruct (sheet_index wb ticker) as [i|]; simpl.
  - intros Hin. apply list_elem_of_lookup in Hin as [j Hj]. right.
    destruct (decide (i = j)) as [->|Hne].
    + rewrite list_lookup_alter_eq in Hj.
      destruct (wb !! j) as [ws|] eqn:Hws; [|done]. injection Hj as <-.
      exists ws. split; [by eapply list_elem_of_lookup_2|done].
    + rewrite list_lookup_alter_ne in Hj by done.
      exists ws'. split; [by eapply list_elem_of_lookup_2|done].
  - intros [Hin|Hin]%elem_of_app; [eauto|].
    apply list_elem_of_singleton in Hin as ->. by left.
Qed.

Lemma setup_worksheet_header_returns (wst : Worksheet * Styles)
    (ticker name_ja : list N) :
  Forall (fun c => illegal_char c = false) (ticker ++ name_ja) →
  ∃ wst1, setup_worksheet_header wst ticker name_ja = Ok wst1.
Proof.
  intros Hlegal.
  assert (cell_value wst.1 (3, 1) = VNone ∨ cell_value wst.1 (3, 1) ≠ VNone)
    as [Hnone|Hsome] by (destruct (cell_value wst.1 (3, 1)); auto).
  - destruct wst as [ws st]. simpl in Hnone.
    destruct (setup_worksheet_header_cells ws st ticker name_ja _ Hnone
                (check_string_legal _ (title_legal _ _ Hlegal)))
      as (wst' & Heq & _). eauto.
  - exists wst. by apply setup_worksheet_header_present.
Qed.

Lemma bindings_setup_worksheet_header (wst wst1 : Worksheet * Styles)
    (ticker name_ja : list N) :
  setup_worksheet_header wst ticker name_ja = Ok wst1 →
  bindings wst1.1 = bindings wst.1.
Proof.
  unfold setup_worksheet_header.
  destruct (is_none (cell_value wst.1 (3, 1))); [|by intros [= <-]].
  destruct (check_string _) as [title|e]; [|done].
  by intros [= <-].
Qed.

Section InstrumentProperties.

Variable strptime_ymd : list N -> option Z.
Variable isdigit : char -> bool.
Variable lower : list N -> list N.
Variable numbered : list (list N) -> list N -> list N.

Lemma duplicate_name_table (wb : list Worksheet) (defined : list (list N))
    (name : list N) (ws : Worksheet) (t : Table) :
  ws ∈ wb → t ∈ tables ws → lower (displayName t) = lower name →
  duplicate_name lower wb defined name = true.
Proof.
  intros Hws Ht Hn. unfold duplicate_name. apply orb_true_iff. left.
  apply existsb_exists. exists ws. split; [by apply list_elem_of_In|].
  apply existsb_exists. exists t. split; [by apply list_elem_of_In|].
  by apply bool_decide_eq_true_2.
Qed.

Lemma duplicate_name_tables (wb wb' : list Worksheet) (defined : list (list N))
    (name : list N) :
  (∀ ws', ws' ∈ wb' → tables ws' = [] ∨ ∃ ws, ws ∈ wb ∧ tables ws = tables ws') →
  duplicate_name lower wb defined name = false →
  duplicate_name lower wb' defined name = false.
Proof.
  intros Hfrom Hfree. unfold duplicate_name in *.
  apply orb_false_iff in Hfree as [Hfree ->]. rewrite orb_false_r.
  destruct (existsb _ wb') eqn:E; [|done].
  apply existsb_exists in E as (ws' & Hin & Ht).
  apply list_elem_of_In in Hin.
  destruct (Hfrom ws' Hin) as [Hnil|(ws & Hws & Heq)].
  - by rewrite Hnil in Ht.
  - rewrite <- Heq in Ht. rewrite <- Hfree. symmetry.
    apply existsb_exists. exists ws. split; [by apply list_elem_of_In|done].
Qed.

(** The sheet of an instrument after the header set-up and the merge. *)
Lemma merged_sheet_ready (wst wst1 : Worksheet * Styles)
    (ticker name_ja sheet_name : list N) (df : list Row) :
  sheet_name ≠ [] →
  df ≠ [] →
  setup_worksheet_header wst ticker name_ja = Ok wst1 →
  let merged := merge_and_write_data strptime_ymd wst1.1 df in
  4 ≤ max_row merged
  ∧ tables merged = tables wst.1
  ∧ ∃ ws', ensure_table_and_chart isdigit merged sheet_name = Ok ws'
           ∧ cell_value ws' (3, 1) ≠ VNone
           ∧ max_row ws' = max_row merged.
Proof.
  intros Hname Hdf Hs merged.
  destruct (max_row_merged strptime_ymd wst1.1 df Hdf) as [Hne Hmax].
  fold merged in Hmax.
  assert (4 ≤ max_row merged) as H4.
  { rewrite Hmax. destruct (sorted_keys _); [done|]. simpl. lia. }
  split; [done|]. split.
  - pose proof (bindings_merge strptime_ymd wst1.1 df) as Hb.
    pose proof (bindings_setup_worksheet_header _ _ _ _ Hs) as Hb'.
    fold merged in Hb. unfold bindings in Hb, Hb'. congruence.
  - destruct sheet_name as [|c0 name]; [done|].
    rewrite ensure_table_and_chart_result by lia.
    eexists. split; [reflexivity|]. split; [|done].
    unfold cell_value. cbn [cells]. fold (cell_value merged (3, 1)).
    subst merged. rewrite merge_cell_value.
    rewrite bool_decide_eq_true_2 by lia.
    unfold row_at. rewrite bool_decide_eq_false_2 by lia.
    by eapply setup_worksheet_header_populated.
Qed.

(** X27.  An instrument whose fetch fails or returns no bar is skipped:
    the workbook and its styling are left exactly as they were and the
    only trace is the skip line in the log. *)
Theorem failed_fetch_skips_instrument
    (yf_history : list N -> history_kwargs -> option (list Bar))
    (rolling_mean : nat -> list spec_float -> spec_float)
    (name_map : gmap (list N) (list N)) (book : Book) (w : World)
    (ticker : list N) (mode : Z) (date_range : option (Z * Z)) :
  yf_history ticker (history_request mode date_range) = None
  ∨ yf_history ticker (history_request mode date_range) = Some [] →
  process_frame strptime_ymd isdigit lower numbered name_map book w ticker
    (fetch_stock_data yf_history rolling_mean ticker mode date_range)
  = (Ok book, log_safe (msg_skip ticker) w).
Proof.
  intros H. rewrite fetch_unfold. by destruct H as [-> | ->].
Qed.

(** X28.  An instrument with a non-empty ticker and a non-empty frame,
    whose ticker and name hold no control character, and whose table name
    is either already bound on the sheet the lookup returns or free in the
    workbook, is stored without an exception and touches one sheet only:
    the sheet the lookup returns ends up with a populated header cell A3
    and at least one body row; every other sheet of the workbook keeps its
    position, cells, tables and charts; at most one sheet is added; and
    the log gets the line naming the ticker and the sheet. *)
Theorem instrument_touches_one_sheet (name_map : gmap (list N) (list N))
    (book : Book) (w : World) (ticker : list N) (df : list Row) :
  ticker ≠ [] →
  df ≠ [] →
  let name_ja := default [] (name_map !! ticker) in
  let sheet_name := build_sheet_name ticker name_ja in
  let found := get_or_create_sheet lower numbered (sheets book) ticker sheet_name in
  let table_name := safe_table_name isdigit sheet_name in
  Forall (fun c => illegal_char c = false) (ticker ++ name_ja) →
  (∃ ws t, found.1 !! found.2 = Some ws ∧ t ∈ tables ws
           ∧ displayName t = table_name)
  ∨ duplicate_name lower (sheets book) (defined_names book) table_name = false →
  ∃ book' ws',
    process_frame strptime_ymd isdigit lower numbered name_map book w ticker df
    = (Ok book', log_safe (msg_ok ticker sheet_name) w)
    ∧ sheets book' !! found.2 = Some ws'
    ∧ cell_value ws' (3, 1) ≠ VNone
    ∧ 4 ≤ max_row ws'
    ∧ (length (sheets book) ≤ length (sheets book') ≤ S (length (sheets book)))%nat
    ∧ ∀ j ws, j ≠ found.2 → sheets book !! j = Some ws →
        ∃ ws'', sheets book' !! j = Some ws'' ∧ cells ws'' = cells ws
                ∧ tables ws'' = tables ws ∧ charts ws'' = charts ws.
Proof.
  intros Ht Hdf name_ja sheet_name found table_name Hlegal Hfree.
  assert (sheet_name ≠ []) as Hname.
  { destruct (build_sheet_name_nonempty ticker name_ja Ht) as (c0 & name & Hn).
    fold sheet_name in Hn. by rewrite Hn. }
  destruct (get_or_create_sheet_result lower numbered (sheets book) ticker
              sheet_name)
    as (Hi & Hlen & Hkeep).
  fold found in Hi, Hlen, Hkeep.
  destruct (lookup_lt_is_Some_2 found.1 found.2 Hi) as [ws0 Hws0].
  unfold process_frame. destruct df as [|r df']; [done|].
  fold name_ja sheet_name found. cbv zeta.
  rewrite Hws0. cbn [default]. change (id ws0) with ws0.
  set (st0 := default no_styles (_ !! found.2)).
  destruct (setup_worksheet_header_returns (ws0, st0) ticker name_ja Hlegal)
    as [wst1 Hs].
  rewrite Hs.
  destruct (merged_sheet_ready (ws0, st0) wst1 ticker name_ja sheet_name
              (r :: df') Hname Hdf Hs) as (H4 & Htab & ws' & Hens & H3 & Hmax).
  cbn [fst] in Htab.
  unfold ensure_table_and_chart_in. rewrite Hens. fold table_name.
  set (merged := merge_and_write_data strptime_ymd wst1.1 (r :: df')) in *.
  assert (bool_decide (3 ≤ max_row merged)
          && negb (existsb (fun t => bool_decide (displayName t = table_name))
                           (tables merged))
          && duplicate_name lower (<[found.2 := merged]> found.1)
               (defined_names book) table_name = false) as ->.
  { destruct Hfree as [(ws & t & Hl & Hin & Hn)|Hfree].
    - rewrite Hws0 in Hl. injection Hl as <-.
      rewrite (proj2 (existsb_exists _ (tables merged))).
      + by rewrite andb_false_r.
      + exists t. rewrite Htab. split; [by apply list_elem_of_In|].
        by apply bool_decide_eq_true_2.
    - rewrite (duplicate_name_tables (sheets book)); [by rewrite andb_false_r| |done].
      intros ws1 Hin. apply list_elem_of_lookup in Hin as [j Hj].
      destruct (decide (found.2 = j)) as [<-|Hne].
      + rewrite list_lookup_insert_eq in Hj by done. injection Hj as <-.
        rewrite Htab.
        apply (get_or_create_sheet_tables lower numbered (sheets book) ticker
                 sheet_name ws0).
        by eapply list_elem_of_lookup_2.
      + rewrite list_lookup_insert_ne in Hj by done.
        apply (get_or_create_sheet_tables lower numbered (sheets book) ticker
                 sheet_name ws1).
        by eapply list_elem_of_lookup_2. }
  eexists _, ws'. split; [reflexivity|]. cbn [sheets].
  split_and!; [|done|lia| | |].
  - rewrite list_lookup_insert_eq; [done|]. by rewrite length_insert.
  - rewrite !length_insert. lia.
  - rewrite !length_insert. lia.
  - intros j ws Hj Hws. destruct (Hkeep j ws Hws) as (ws'' & Hl & Hc).
    exists ws''. split; [|done]. by rewrite !list_lookup_insert_ne.
Qed.

(** X29.  A clash of table names aborts the instrument: when the sheet
    the lookup returns has no table of the derived name, but some sheet
    of the workbook has a table whose name differs from it at most in
    case, the instrument raises, after its line has been logged, and no
    workbook is returned. *)
Theorem table_name_clash_aborts_instrument (name_map : gmap (list N) (list N))
    (book : Book) (w : World) (ticker : list N) (df : list Row)
    (ws : Worksheet) (t : Table) :
  ticker ≠ [] →
  df ≠ [] →
  let name_ja := default [] (name_map !! ticker) in
  let sheet_name := build_sheet_name ticker name_ja in
  let found := get_or_create_sheet lower numbered (sheets book) ticker sheet_name in
  let table_name := safe_table_name isdigit sheet_name in
  (∀ ws0 t0, found.1 !! found.2 = Some ws0 → t0 ∈ tables ws0 →
             displayName t0 ≠ table_name) →
  ws ∈ sheets book →
  t ∈ tables ws →
  lower (displayName t) = lower table_name →
  ∃ e, process_frame strptime_ymd isdigit lower numbered name_map book w ticker df
       = (Raise e, log_safe (msg_ok ticker sheet_name) w).
Proof.
  intros Ht Hdf name_ja sheet_name found table_name Hnone Hws Hin Hlow.
  assert (sheet_name ≠ []) as Hname.
  { destruct (build_sheet_name_nonempty ticker name_ja Ht) as (c0 & name & Hn).
    fold sheet_name in Hn. by rewrite Hn. }
  destruct (get_or_create_sheet_result lower numbered (sheets book) ticker
              sheet_name)
    as (Hi & Hlen & Hkeep).
  fold found in Hi, Hlen, Hkeep.
  destruct (lookup_lt_is_Some_2 found.1 found.2 Hi) as [ws0 Hws0].
  unfold process_frame. destruct df as [|r df']; [done|].
  fold name_ja sheet_name found. cbv zeta.
  rewrite Hws0. cbn [default]. change (id ws0) with ws0.
  set (st0 := default no_styles (_ !! found.2)).
  destruct (setup_worksheet_header (ws0, st0) ticker name_ja) as [wst1|e] eqn:Hs;
    [|eauto].
  destruct (merged_sheet_ready (ws0, st0) wst1 ticker name_ja sheet_name
              (r :: df') Hname Hdf Hs) as (H4 & Htab & ws' & Hens & H3 & Hmax).
  cbn [fst] in Htab.
  unfold ensure_table_and_chart_in. rewrite Hens. fold table_name.
  set (merged := merge_and_write_data strptime_ymd wst1.1 (r :: df')) in *.
  rewrite bool_decide_eq_true_2 by lia.
  assert (existsb (fun t => bool_decide (displayName t = table_name))
                  (tables merged) = false) as ->.
  { destruct (existsb _ (tables merged)) eqn:E; [|done].
    apply existsb_exists in E as (t0 & Hin0 & Hn).
    apply bool_decide_eq_true_1 in Hn. rewrite Htab in Hin0.
    apply list_elem_of_In in Hin0. by destruct (Hnone ws0 t0 Hws0 Hin0). }
  assert (∃ ws1, ws1 ∈ <[found.2 := merged]> found.1 ∧ tables ws1 = tables ws)
    as (ws1 & Hin1 & Heq).
  { apply list_elem_of_lookup in Hws as [j Hj].
    destruct (Hkeep j ws Hj) as (ws'' & Hl & _ & Htabs & _).
    destruct (decide (found.2 = j)) as [<-|Hne].
    - exists merged. split.
      + eapply list_elem_of_lookup_2. by apply list_lookup_insert_eq.
      + rewrite Hws0 in Hl. injection Hl as <-. congruence.
    - exists ws''. split; [|done].
      eapply list_elem_of_lookup_2. by rewrite list_lookup_insert_ne. }
  rewrite (duplicate_name_table _ _ _ ws1 t); [eauto|done| |done].
  by rewrite Heq.
Qed.

End InstrumentProperties.

Lemma failed_fetch_skips_instrument_witness :
  process_frame strptime_ymd_ascii ascii_isdigit lower_ascii first_counter ∅
    (MkBook [sheet_A] [no_styles] []) (MkWorld None [] [] []) (str "7203.T")
    (fetch_stock_data (fun _ _ => None) naive_rolling_mean (str "7203.T") 1 None)
  = (Ok (MkBook [sheet_A] [no_styles] []),
     log_safe (msg_skip (str "7203.T")) (MkWorld None [] [] [])).
Proof.
  apply (failed_fetch_skips_instrument strptime_ymd_ascii ascii_isdigit lower_ascii
           first_counter
           (fun _ _ => None) naive_rolling_mean). by left.
Defined.

Lemma instrument_touches_one_sheet_witness :
  ∃ book' ws',
    process_frame strptime_ymd_ascii ascii_isdigit lower_ascii first_counter ∅
      (MkBook [new_sheet (str "README")] [no_styles] []) (MkWorld None [] [] [])
      (str "7203.T") fetched_S
    = (Ok book', log_safe (msg_ok (str "7203.T") (str "7203.T"))
                          (MkWorld None [] [] []))
    ∧ sheets book' !! 1%nat = Some ws'
    ∧ 4 ≤ max_row ws'.
Proof.
  destruct (instrument_touches_one_sheet strptime_ymd_ascii ascii_isdigit
              lower_ascii first_counter ∅
              (MkBook [new_sheet (str "README")] [no_styles] [])
              (MkWorld None [] [] []) (str "7203.T") fetched_S)
    as (book' & ws' & Hp & Hl & _ & H4 & _).
  - discriminate.
  - discriminate.
  - repeat constructor.
  - right. reflexivity.
  - exists book', ws'. split_and!; [exact Hp|exact Hl|exact H4].
Defined.

Lemma table_name_clash_aborts_instrument_witness :
  ∃ e,
    process_frame strptime_ymd_ascii ascii_isdigit lower_ascii first_counter ∅
      (MkBook [MkWorksheet (str "abc") ∅ [MkTable (str "abc") (str "A3:G4") None] []]
              [no_styles] [])
      (MkWorld None [] [] []) (str "ABC") fetched_S
    = (Raise e, log_safe (msg_ok (str "ABC") (str "ABC")) (MkWorld None [] [] [])).
Proof.
  refine (table_name_clash_aborts_instrument strptime_ymd_ascii ascii_isdigit
            lower_ascii first_counter ∅
            (MkBook [MkWorksheet (str "abc") ∅
                       [MkTable (str "abc") (str "A3:G4") None] []]
                    [no_styles] [])
            (MkWorld None [] [] []) (str "ABC") fetched_S
            (MkWorksheet (str "abc") ∅ [MkTable (str "abc") (str "A3:G4") None] [])
            (MkTable (str "abc") (str "A3:G4") None) _ _ _ _ _ _).
  - discriminate.
  - discriminate.
  - intros ws0 t0 Hl. vm_compute in Hl. injection Hl as <-.
    intros Hin. by apply elem_of_nil in Hin.
  - left.
  - left.
  - reflexivity.
Defined.

(** X30.  A sheet name that needs no change is left alone: when the
    ticker, an underscore and the name together (or the ticker alone, if
    there is no name) have at most 31 characters and none that Excel
    refuses, that text is the sheet name. *)
Theorem clean_sheet_name_unchanged (ticker name_ja : list N) :
  (length (sheet_base ticker name_ja) ≤ 31)%nat →
  Forall (fun c => c ∉ bad_chars) (sheet_base ticker name_ja) →
  build_sheet_name ticker name_ja = sheet_base ticker name_ja.
Proof.
  intros Hlen Hclean. unfold build_sheet_name. rewrite replace_bad_map.
  rewrite take_ge by (rewrite length_map; exact Hlen).
  rewrite <- (map_id (sheet_base ticker name_ja)) at 2.
  apply map_ext_in. intros c Hin. apply list_elem_of_In in Hin.
  rewrite bool_decide_eq_false_2; [done|].
  eapply Forall_forall in Hclean; done.
Qed.

Lemma clean_sheet_name_unchanged_witness :
  build_sheet_name (str "7203.T") (str "トヨタ自動車") = str "7203.T_トヨタ自動車".
Proof.
  rewrite clean_sheet_name_unchanged.
  - by vm_compute.
  - vm_compute. lia.
  - apply Forall_forall. intros c Hin Hbad.
    apply list_elem_of_In in Hin. apply list_elem_of_In in Hbad.
    vm_compute in Hin, Hbad.
    repeat (destruct Hbad as [Hbad|Hbad];
            [subst c; repeat (destruct Hin as [Hin|Hin]; [discriminate Hin|]);
             exact Hin|]).
    exact Hbad.
Defined.
